(** * mp4Clipping: a shallow embedding of the two cropping tools

    The repository holds two PyQt5 programs, [mp4Clippingv1.1.py] (moviepy
    backend) and [mp4Clippingv1.2.py] (OpenCV backend).  Both let the user
    load a video, drag a rectangle over its first frame, map the rectangle
    back to source pixels and write the cropped video.

    The embedding keeps the data of the programs as they are:
    - Python [int] is [Z]; Python [float] is an IEEE-754 binary64 value,
      taken from the specification of floating-point numbers of the
      standard library ([spec_float], precision 53, [emax] 1024);
    - Qt value classes ([QPoint], [QRect], [QSize], [QPixmap]) are records
      with the integer arithmetic of Qt 5;
    - the mutable objects ([self], the widget, the OpenCV capture and
      writer objects) and what the program does outside (message boxes,
      handles opened and released, frames written) live in one explicit
      state, passed through the methods; a method that can raise returns in
      the error monad [Py.res];
    - painting and the texts of the labels do not enter any result and are
      left out. *)

From Stdlib Require Import ZArith List Bool String Lia SpecFloat.
Import ListNotations.
Local Open Scope Z_scope.

(** ** Python values *)

Module Py.

(** Exceptions the modelled code can meet. *)
Inductive exn : Type :=
| ZeroDivisionError
| OverflowError
| ValueError
| Exception (msg : string).

(** A computation that returns or raises. *)
Definition res (A : Type) : Type := (exn + A)%type.

Definition ok {A} (a : A) : res A := inr a.
Definition throw {A} (e : exn) : res A := inl e.

Definition bind {A B} (m : res A) (k : A -> res B) : res B :=
  match m with
  | inl e => inl e
  | inr a => k a
  end.

Definition fmap {A B} (f : A -> B) (m : res A) : res B :=
  match m with
  | inl e => inl e
  | inr a => inr (f a)
  end.

(** Truth value testing ([__bool__]): [None] is false, an object without
    [__bool__] and [__len__] is true. *)
Class Truthy (A : Type) := truth : A -> bool.

#[export] Instance Truthy_option {A} `{Truthy A} : Truthy (option A) :=
  fun o => match o with
           | None => false
           | Some a => truth a
           end.

#[export] Instance Truthy_string : Truthy string :=
  fun s => match s with
           | EmptyString => false
           | _ => true
           end.

(** Extended slicing [l[start:stop]] with integer bounds: a negative bound
    counts from the end, and both are clipped to the length. *)
Definition slice_bound (len i : Z) : Z :=
  if i <? 0 then Z.max 0 (i + len) else Z.min i len.

Definition slice {A} (start stop : Z) (l : list A) : list A :=
  let len := Z.of_nat (List.length l) in
  let lo := slice_bound len start in
  let hi := slice_bound len stop in
  firstn (Z.to_nat (hi - lo)) (skipn (Z.to_nat lo) l).

End Py.

Declare Scope py_scope.
Delimit Scope py_scope with py.
Notation "x <- m ;; k" := (Py.bind m (fun x => k))
  (at level 61, m at next level, right associativity) : py_scope.

(** ** Python floats (IEEE-754 binary64) *)

Module PyFloat.
Import Py.

Definition prec : Z := 53.
Definition emax : Z := 1024.

Definition float : Type := spec_float.

Definition is_infinite (x : float) : bool :=
  match x with
  | S754_infinity _ => true
  | _ => false
  end.

(** [float(n)]: the nearest double, ties to even; [OverflowError] when
    [n] is too large. *)
Definition of_int (n : Z) : res float :=
  let x := binary_normalize prec emax n 0 false in
  if is_infinite x then throw OverflowError else ok x.

(** An integer as an exact, unrounded operand. *)
Definition exact (n : Z) : float :=
  match n with
  | Z0 => S754_zero false
  | Zpos p => S754_finite false p 0
  | Zneg p => S754_finite true p 0
  end.

(** [a / b] on two ints: the correctly rounded quotient. *)
Definition truediv (a b : Z) : res float :=
  if b =? 0 then throw ZeroDivisionError
  else
    let q := SFdiv prec emax (exact a) (exact b) in
    if is_infinite q then throw OverflowError else ok q.

(** [n * x] with [n] an int and [x] a float: [n] is converted first. *)
Definition int_mul (n : Z) (x : float) : res float :=
  (fn <- of_int n ;; ok (SFmul prec emax fn x))%py.

(** [int(x)]: truncation toward zero. *)
Definition to_int (x : float) : res Z :=
  match x with
  | S754_zero _ => ok 0
  | S754_finite s m e => ok (cond_Zopp s (Z.shiftl (Zpos m) e))
  | S754_infinity _ => throw OverflowError
  | S754_nan => throw ValueError
  end.

(** The magnitude [m * 2^e] rounded to the nearest integer, ties to even. *)
Definition round_half_even (m : positive) (e : Z) : Z :=
  if 0 <=? e then Z.shiftl (Zpos m) e
  else
    let unit := Z.shiftl 1 (- e) in
    let q := Z.shiftr (Zpos m) (- e) in
    let r := Zpos m - Z.shiftl q (- e) in
    match 2 * r ?= unit with
    | Lt => q
    | Gt => q + 1
    | Eq => if Z.even q then q else q + 1
    end.

(** [round(x)] with one argument: an int, ties to even. *)
Definition round (x : float) : res Z :=
  match x with
  | S754_zero _ => ok 0
  | S754_finite s m e => ok (cond_Zopp s (round_half_even m e))
  | S754_infinity _ => throw OverflowError
  | S754_nan => throw ValueError
  end.

End PyFloat.

(** ** Qt 5 value classes *)

Module Qt.
Import Py.

Record QPoint : Type := mkQPoint { pt_x : Z; pt_y : Z }.

Definition QPoint_isNull (p : QPoint) : bool :=
  (pt_x p =? 0) && (pt_y p =? 0).

(** PyQt5 gives [QPoint] a [__bool__] that is [not isNull()]. *)
#[export] Instance Truthy_QPoint : Truthy QPoint :=
  fun p => negb (QPoint_isNull p).

(** [QRect] stores its two corner pixels, both inclusive. *)
Record QRect : Type := mkQRect { x1 : Z; y1 : Z; x2 : Z; y2 : Z }.

(** [QRect()] *)
Definition QRect_null : QRect := mkQRect 0 0 (-1) (-1).

(** [QRect(topLeft, bottomRight)] *)
Definition QRect_of_points (p q : QPoint) : QRect :=
  mkQRect (pt_x p) (pt_y p) (pt_x q) (pt_y q).

(** [QRect(x, y, width, height)] *)
Definition QRect_xywh (x y w h : Z) : QRect :=
  mkQRect x y (x + w - 1) (y + h - 1).

Definition rect_x (r : QRect) : Z := x1 r.
Definition rect_y (r : QRect) : Z := y1 r.
Definition rect_width (r : QRect) : Z := x2 r - x1 r + 1.
Definition rect_height (r : QRect) : Z := y2 r - y1 r + 1.

Definition QRect_isNull (r : QRect) : bool :=
  (x2 r =? x1 r - 1) && (y2 r =? y1 r - 1).

Definition QRect_isValid (r : QRect) : bool :=
  (x1 r <=? x2 r) && (y1 r <=? y2 r).

(** PyQt5 gives [QRect] a [__bool__] that is [isValid()]. *)
#[export] Instance Truthy_QRect : Truthy QRect := QRect_isValid.

(** [QRect::normalized]: the corners of an axis are swapped when the
    extent along it is negative ([width() < 0], that is [x2 < x1 - 1]). *)
Definition normalized (r : QRect) : QRect :=
  let '(nx1, nx2) := if x2 r <? x1 r - 1 then (x2 r, x1 r) else (x1 r, x2 r) in
  let '(ny1, ny2) := if y2 r <? y1 r - 1 then (y2 r, y1 r) else (y1 r, y2 r) in
  mkQRect nx1 ny1 nx2 ny2.

(** The extent of one axis as [QRect::operator&] orders it. *)
Definition span (a b : Z) : Z * Z :=
  if b - a + 1 <? 0 then (b, a) else (a, b).

(** [QRect::intersected] (operator [&]). *)
Definition intersected (r s : QRect) : QRect :=
  if QRect_isNull r || QRect_isNull s then QRect_null
  else
    let '(l1, r1) := span (x1 r) (x2 r) in
    let '(l2, r2) := span (x1 s) (x2 s) in
    if (r2 <? l1) || (r1 <? l2) then QRect_null
    else
      let '(t1, b1) := span (y1 r) (y2 r) in
      let '(t2, b2) := span (y1 s) (y2 s) in
      if (b2 <? t1) || (b1 <? t2) then QRect_null
      else mkQRect (Z.max l1 l2) (Z.max t1 t2) (Z.min r1 r2) (Z.min b1 b2).

Definition QRect_eqb (r s : QRect) : bool :=
  (x1 r =? x1 s) && (y1 r =? y1 s) && (x2 r =? x2 s) && (y2 r =? y2 s).

Record QSize : Type := mkQSize { wd : Z; ht : Z }.

Definition QSize_isEmpty (s : QSize) : bool := (wd s <? 1) || (ht s <? 1).

(** [QSize::scaled(s, Qt::KeepAspectRatio)]; the divisions are C++
    integer divisions. *)
Definition scaled_keep_aspect (sz s : QSize) : QSize :=
  if (wd sz =? 0) || (ht sz =? 0) then s
  else
    let rw := Z.quot (ht s * wd sz) (ht sz) in
    if rw <=? wd s then mkQSize rw (ht s)
    else mkQSize (wd s) (Z.quot (wd s * ht sz) (wd sz)).

End Qt.

(** ** Frames, pixmaps and what the user sees *)

Module Gui.
Import Py Qt.

(** A decoded frame is a numpy array of shape (H, W, 3): rows of pixels. *)
Definition pixel : Type := (Z * Z * Z)%type.
Definition Frame : Type := list (list pixel).

Definition frame_height (f : Frame) : Z := Z.of_nat (List.length f).
Definition frame_width (f : Frame) : Z :=
  match f with
  | [] => 0
  | row :: _ => Z.of_nat (List.length row)
  end.

(** A [QImage] or [QPixmap]: its size and the picture it was made from. *)
Record QPixmap : Type := mkQPixmap
  { pm_width : Z; pm_height : Z; pm_image : Frame }.

Definition null_pixmap : QPixmap := mkQPixmap 0 0 [].

Definition pixmap_isNull (p : QPixmap) : bool :=
  (pm_width p <=? 0) || (pm_height p <=? 0).

(** [QPixmap] has neither [__bool__] nor [__len__]. *)
#[export] Instance Truthy_QPixmap : Truthy QPixmap := fun _ => true.

(** [QImage(data, w, h, ...)] over the array of a frame. *)
Definition QImage_of_frame (f : Frame) : QPixmap :=
  mkQPixmap (frame_width f) (frame_height f) f.

(** [scaled(w, h, Qt.KeepAspectRatio)] of [QImage] and of [QPixmap]. *)
Definition scaled (p : QPixmap) (w h : Z) : QPixmap :=
  if pixmap_isNull p then null_pixmap
  else if QSize_isEmpty (mkQSize w h) then null_pixmap
  else
    let n := scaled_keep_aspect (mkQSize (pm_width p) (pm_height p)) (mkQSize w h) in
    mkQPixmap (Z.max (wd n) 1) (Z.max (ht n) 1) (pm_image p).

(** The picture a label shows for the pixmap it was given. *)
Definition picture_of (p : option QPixmap) : option Frame :=
  match p with
  | Some pix => if pixmap_isNull pix then None else Some (pm_image pix)
  | None => None
  end.

Inductive MouseButton : Type := LeftButton | RightButton | MidButton.

Definition is_left (b : MouseButton) : bool :=
  match b with
  | LeftButton => true
  | _ => false
  end.

Record QMouseEvent : Type := mkQMouseEvent
  { button : MouseButton; pos : QPoint }.

(** Modal message boxes: icon, title and the fixed part of the text. *)
Inductive icon : Type := Critical | Warning | Information.

Inductive gui_event : Type :=
| MessageBox (i : icon) (title text : string).

(** A crop rectangle in source pixels: left, top, right, bottom. *)
Definition crop_rect : Type := (Z * Z * Z * Z)%type.

End Gui.

(** ** Version 1.1 (moviepy) *)

Module V1_1.
Import Py Qt Gui.
Local Open Scope py_scope.

(** *** class VideoWidget *)

Record VideoWidget : Type := mkVideoWidget
  { width : Z;
    height : Z;
    dragging : bool;
    start_pos : option QPoint;
    end_pos : option QPoint;
    pixmap_img : option QPixmap }.

Definition VideoWidget_init (w h : Z) : VideoWidget :=
  mkVideoWidget w h false None None None.

(** A label without frame or margin: the contents are the whole widget. *)
Definition contentsRect (w : VideoWidget) : QRect :=
  QRect_xywh 0 0 (width w) (height w).

Definition resize (w h : Z) (v : VideoWidget) : VideoWidget :=
  mkVideoWidget w h (dragging v) (start_pos v) (end_pos v) (pixmap_img v).

Definition mousePressEvent (event : QMouseEvent) (v : VideoWidget) : VideoWidget :=
  if is_left (button event) then
    mkVideoWidget (width v) (height v) true
      (Some (pos event)) (Some (pos event)) (pixmap_img v)
  else v.

Definition mouseMoveEvent (event : QMouseEvent) (v : VideoWidget) : VideoWidget :=
  if dragging v then
    mkVideoWidget (width v) (height v) (dragging v)
      (start_pos v) (Some (pos event)) (pixmap_img v)
  else v.

Definition mouseReleaseEvent (event : QMouseEvent) (v : VideoWidget) : VideoWidget :=
  if is_left (button event) && dragging v then
    mkVideoWidget (width v) (height v) false
      (start_pos v) (Some (pos event)) (pixmap_img v)
  else v.

(** A drag with the left button from [p] to [q]: press, move, release. *)
Definition drag (p q : QPoint) (v : VideoWidget) : VideoWidget :=
  mouseReleaseEvent (mkQMouseEvent LeftButton q)
    (mouseMoveEvent (mkQMouseEvent LeftButton q)
       (mousePressEvent (mkQMouseEvent LeftButton p) v)).

Definition get_selection_normalized (v : VideoWidget) : option (Z * Z * Z * Z) :=
  if negb (truth (start_pos v) && truth (end_pos v)) then None
  else
    match start_pos v, end_pos v with
    | Some p, Some q =>
        let r := normalized (QRect_of_points p q) in
        let r := intersected r (contentsRect v) in
        if (rect_width r =? 0) || (rect_height r =? 0) then None
        else Some (rect_x r, rect_y r, rect_width r, rect_height r)
    | _, _ => None
    end.

(** *** class MainWindow *)

(** What the program reads of a moviepy clip. *)
Record VideoFileClip : Type := mkVideoFileClip
  { size : Z * Z;
    frame_at_0 : Frame }.

Definition get_frame_0 (c : VideoFileClip) : Frame := frame_at_0 c.

Inductive label_text : Type :=
| TextDrop
| TextLoaded (path : string)
| TextCropping
| TextSaved (path : string).

Record MainWindow : Type := mkMainWindow
  { video_path : option string;
    clip : option VideoFileClip;
    current_frame : option Frame;
    orig_w : Z;
    orig_h : Z;
    video_widget : VideoWidget;
    crop_btn : bool;
    info_label : label_text }.

Definition MainWindow_init (w h : Z) : MainWindow :=
  mkMainWindow None None None 0 0 (VideoWidget_init w h) false TextDrop.

(** The program and what it has done to the outside. *)
Record App : Type := mkApp
  { self : MainWindow;
    gui : list gui_event;
    written : list (string * crop_rect) }.

(** The outside: what moviepy answers. *)
Record Env : Type := mkEnv
  { open_clip : string -> res VideoFileClip;
    write_videofile : VideoFileClip -> crop_rect -> string -> res unit }.

Definition show_message (i : icon) (title text : string) (a : App) : App :=
  mkApp (self a) (gui a ++ [MessageBox i title text]) (written a).

Definition with_self (m : MainWindow) (a : App) : App :=
  mkApp m (gui a) (written a).

(** What the program has done to the outside. *)
Definition effects (a : App) : list gui_event * list (string * crop_rect) :=
  (gui a, written a).

Definition on_widget (f : VideoWidget -> VideoWidget) (a : App) : App :=
  let m := self a in
  with_self
    (mkMainWindow (video_path m) (clip m) (current_frame m) (orig_w m) (orig_h m)
       (f (video_widget m)) (crop_btn m) (info_label m)) a.

Definition show_frame (frame_rgb : Frame) (v : VideoWidget) : VideoWidget :=
  let qimg := QImage_of_frame frame_rgb in
  let pix := scaled qimg (width v) (height v) in
  mkVideoWidget (width v) (height v) (dragging v) (start_pos v) (end_pos v) (Some pix).

(** What the label shows: the pixmap of the last [setPixmap]. *)
Definition rendered (v : VideoWidget) : option Frame := picture_of (pixmap_img v).

Definition load_video (env : Env) (path : string) (a : App) : App :=
  match open_clip env path with
  | inl e => show_message Critical "Error" "Failed to open video:" a
  | inr c =>
      let m := self a in
      let frame := get_frame_0 c in
      with_self
        (mkMainWindow (Some path) (Some c) (Some frame) (fst (size c)) (snd (size c))
           (show_frame frame (video_widget m)) true (TextLoaded path))
        a
  end.

(** Lines 179-184: the selection, in pixels of the displayed pixmap,
    mapped to source pixels. *)
Definition source_rect (orig_w orig_h disp_w_pix disp_h_pix : Z)
    (sel : Z * Z * Z * Z) : res crop_rect :=
  let '(sel_x_in_pix, sel_y_in_pix, sel_w_in_pix, sel_h_in_pix) := sel in
  scale_x <- PyFloat.truediv orig_w disp_w_pix ;;
  scale_y <- PyFloat.truediv orig_h disp_h_pix ;;
  fx0 <- PyFloat.int_mul sel_x_in_pix scale_x ;;
  x0 <- PyFloat.round fx0 ;;
  fy0 <- PyFloat.int_mul sel_y_in_pix scale_y ;;
  y0 <- PyFloat.round fy0 ;;
  fx2 <- PyFloat.int_mul (sel_x_in_pix + sel_w_in_pix) scale_x ;;
  x2 <- PyFloat.round fx2 ;;
  fy2 <- PyFloat.int_mul (sel_y_in_pix + sel_h_in_pix) scale_y ;;
  y2 <- PyFloat.round fy2 ;;
  ok (x0, y0, x2, y2).

(** Lines 158-173: the selection in the label's coordinates moved into
    the displayed pixmap. *)
Definition selection_in_pixmap (v : VideoWidget) (pixmap : QPixmap)
    (sel : Z * Z * Z * Z) : Z * Z * Z * Z :=
  let '(disp_x, disp_y, disp_w, disp_h) := sel in
  let disp_w_pix := pm_width pixmap in
  let disp_h_pix := pm_height pixmap in
  let label_w := width v in
  let label_h := height v in
  let offset_x := Z.max 0 ((label_w - disp_w_pix) / 2) in
  let offset_y := Z.max 0 ((label_h - disp_h_pix) / 2) in
  let sel_x_in_pix := disp_x - offset_x in
  let sel_y_in_pix := disp_y - offset_y in
  let sel_w_in_pix := Z.min disp_w (disp_w_pix - sel_x_in_pix) in
  let sel_h_in_pix := Z.min disp_h (disp_h_pix - sel_y_in_pix) in
  (sel_x_in_pix, sel_y_in_pix, sel_w_in_pix, sel_h_in_pix).

(** [out_path] is what the save dialog returns when it is reached (the
    empty string when the user cancels).  An exception of the mapping is
    not caught by the method. *)
Definition crop_and_save (env : Env) (out_path : string) (a : App) : res App :=
  let m := self a in
  let v := video_widget m in
  match get_selection_normalized v with
  | None => ok (show_message Warning "No selection" "Please draw a rectangle on the video." a)
  | Some sel =>
      match pixmap_img v with
      | None => ok a
      | Some pixmap =>
          let '(sx, sy, sw, sh) := selection_in_pixmap v pixmap sel in
          if (sw <=? 0) || (sh <=? 0) then ok (show_message Warning "Invalid" "Selection outside video." a)
          else
            rect <- source_rect (orig_w m) (orig_h m)
                      (pm_width pixmap) (pm_height pixmap) (sx, sy, sw, sh) ;;
            if negb (truth out_path) then ok a
            else
              let cropping :=
                mkMainWindow (video_path m) (clip m) (current_frame m)
                  (orig_w m) (orig_h m) v (crop_btn m) TextCropping in
              let a1 := with_self cropping a in
              match clip m with
              | None => ok (show_message Critical "Error" "Failed to crop:" a1)
              | Some c =>
                  let a2 := mkApp (self a1) (gui a1) (written a1 ++ [(out_path, rect)]) in
                  match write_videofile env c rect out_path with
                  | inl e => ok (show_message Critical "Error" "Failed to crop:" a2)
                  | inr _ =>
                      let saved :=
                        mkMainWindow (video_path m) (clip m) (current_frame m)
                          (orig_w m) (orig_h m) v (crop_btn m) (TextSaved out_path) in
                      ok (show_message Information "Done" "Cropped video saved:" (with_self saved a2))
                  end
              end
  end
  end.

End V1_1.

(** ** Version 1.2 (OpenCV) *)

Module V1_2.
Import Py Qt Gui.
Local Open Scope py_scope.

(** *** class VideoWidget *)

Record VideoWidget : Type := mkVideoWidget
  { width : Z;
    height : Z;
    dragging : bool;
    start_pos : option QPoint;
    end_pos : option QPoint;
    original_pixmap : option QPixmap;
    displayed_pixmap : option QPixmap;
    video_display_rect : option QRect }.

Definition VideoWidget_init (w h : Z) : VideoWidget :=
  mkVideoWidget w h false None None None None None.

Definition update_display (v : VideoWidget) : VideoWidget :=
  match original_pixmap v with
  | None => v
  | Some original =>
      let scaled_pixmap := scaled original (width v - 20) (height v - 20) in
      let widget_w := width v in
      let widget_h := height v in
      let pixmap_w := pm_width scaled_pixmap in
      let pixmap_h := pm_height scaled_pixmap in
      let offset_x := Z.max 0 ((widget_w - pixmap_w) / 2) in
      let offset_y := Z.max 0 ((widget_h - pixmap_h) / 2) in
      mkVideoWidget (width v) (height v) (dragging v) (start_pos v) (end_pos v)
        (original_pixmap v) (Some scaled_pixmap)
        (Some (QRect_xywh offset_x offset_y pixmap_w pixmap_h))
  end.

Definition set_video_frame (frame_pixmap : QPixmap) (v : VideoWidget) : VideoWidget :=
  update_display
    (mkVideoWidget (width v) (height v) (dragging v) (start_pos v) (end_pos v)
       (Some frame_pixmap) (displayed_pixmap v) (video_display_rect v)).

(** The widget gets the size [w] x [h], then [resizeEvent] runs. *)
Definition resizeEvent (w h : Z) (v : VideoWidget) : VideoWidget :=
  let v' := mkVideoWidget w h (dragging v) (start_pos v) (end_pos v)
              (original_pixmap v) (displayed_pixmap v) (video_display_rect v) in
  if truth (original_pixmap v') then update_display v' else v'.

Definition get_video_display_rect (v : VideoWidget) : option QRect :=
  video_display_rect v.

(** What the label shows: the pixmap of the last [setPixmap]. *)
Definition rendered (v : VideoWidget) : option Frame := picture_of (displayed_pixmap v).

Definition with_drag (d : bool) (s e : option QPoint) (v : VideoWidget) : VideoWidget :=
  mkVideoWidget (width v) (height v) d s e
    (original_pixmap v) (displayed_pixmap v) (video_display_rect v).

Definition mousePressEvent (event : QMouseEvent) (v : VideoWidget) : VideoWidget :=
  if is_left (button event) then
    with_drag true (Some (pos event)) (Some (pos event)) v
  else v.

Definition mouseMoveEvent (event : QMouseEvent) (v : VideoWidget) : VideoWidget :=
  if dragging v then with_drag (dragging v) (start_pos v) (Some (pos event)) v
  else v.

Definition mouseReleaseEvent (event : QMouseEvent) (v : VideoWidget) : VideoWidget :=
  if is_left (button event) && dragging v then
    with_drag false (start_pos v) (Some (pos event)) v
  else v.

(** A drag with the left button from [p] to [q]: press, move, release. *)
Definition drag (p q : QPoint) (v : VideoWidget) : VideoWidget :=
  mouseReleaseEvent (mkQMouseEvent LeftButton q)
    (mouseMoveEvent (mkQMouseEvent LeftButton q)
       (mousePressEvent (mkQMouseEvent LeftButton p) v)).

(** The dict that [get_selection_info] returns. *)
Record selection_info : Type := mkSelectionInfo
  { selection_rect : QRect;
    video_intersect : QRect;
    relative_pos : Z * Z * Z * Z;
    display_size : Z * Z }.

Definition get_selection_info (v : VideoWidget) : option selection_info :=
  if negb (truth (start_pos v) && truth (end_pos v)
           && truth (video_display_rect v) && truth (displayed_pixmap v))
  then None
  else
    match start_pos v, end_pos v, video_display_rect v, displayed_pixmap v with
    | Some p, Some q, Some display_rect, Some pixmap =>
        let selection_rect := normalized (QRect_of_points p q) in
        if (rect_width selection_rect <? 5) || (rect_height selection_rect <? 5)
        then None
        else
          let video_intersect := intersected selection_rect display_rect in
          if (rect_width video_intersect <=? 0) || (rect_height video_intersect <=? 0)
          then None
          else
            let rel_x := rect_x video_intersect - rect_x display_rect in
            let rel_y := rect_y video_intersect - rect_y display_rect in
            let rel_w := rect_width video_intersect in
            let rel_h := rect_height video_intersect in
            Some (mkSelectionInfo selection_rect video_intersect
                    (rel_x, rel_y, rel_w, rel_h)
                    (pm_width pixmap, pm_height pixmap))
    | _, _, _, _ => None
    end.

Definition clear_selection (v : VideoWidget) : VideoWidget :=
  with_drag (dragging v) None None v.

(** *** OpenCV objects *)

(** A file that OpenCV can open: the frames it decodes and the properties
    its container reports. *)
Record VideoFile : Type := mkVideoFile
  { vf_frames : list Frame;
    vf_frame_count : Z;
    vf_fps : PyFloat.float;
    vf_width : Z;
    vf_height : Z }.

(** A [cv2.VideoCapture] object. *)
Record VideoCapture : Type := mkVideoCapture
  { cap_id : nat;
    cap_file : option VideoFile;
    cap_opened : bool;
    cap_pending : list Frame }.

#[export] Instance Truthy_VideoCapture : Truthy VideoCapture := fun _ => true.

(** A [cv2.VideoWriter] object and the frames handed to it. *)
Record VideoWriter : Type := mkVideoWriter
  { wr_id : nat;
    wr_path : string;
    wr_fps : PyFloat.float;
    wr_size : Z * Z;
    wr_frames : list Frame }.

(** What happens to OpenCV handles; the newest event is the head. *)
Inductive cv_event : Type :=
| CaptureOpened (id : nat)
| CaptureReleased (id : nat)
| WriterOpened (id : nat)
| WriterReleased (id : nat).

Definition isOpened (c : VideoCapture) : bool := cap_opened c.

(** [cap.get(prop)] as an int; a capture that is not open answers 0. *)
Definition get_prop (prop : VideoFile -> Z) (c : VideoCapture) : Z :=
  match cap_file c with
  | Some f => if cap_opened c then prop f else 0
  | None => 0
  end.

Definition get_fps (c : VideoCapture) : PyFloat.float :=
  match cap_file c with
  | Some f => if cap_opened c then vf_fps f else S754_zero false
  | None => S754_zero false
  end.

(** [cap.read()]: [(ret, frame)], with [None] for [ret = False]. *)
Definition read (c : VideoCapture) : option Frame * VideoCapture :=
  if cap_opened c then
    match cap_pending c with
    | [] => (None, c)
    | frame :: rest =>
        (Some frame, mkVideoCapture (cap_id c) (cap_file c) (cap_opened c) rest)
    end
  else (None, c).

(** [cv2.cvtColor(frame, cv2.COLOR_BGR2RGB)] *)
Definition cvtColor_BGR2RGB (frame : Frame) : Frame :=
  map (map (fun px : pixel => let '(b, g, r) := px in (r, g, b))) frame.

(** *** class MainWindow *)

Inductive label_text : Type :=
| TextDrop
| TextLoaded (path : string)
| TextCropping
| TextProcessing
| TextSaved (path : string)
| TextError.

Record MainWindow : Type := mkMainWindow
  { video_path : option string;
    cap : option VideoCapture;
    frame_count : Z;
    fps : PyFloat.float;
    orig_w : Z;
    orig_h : Z;
    current_frame : option Frame;
    video_widget : VideoWidget;
    clear_btn : bool;
    crop_btn : bool;
    info_label : label_text }.

Definition MainWindow_init (w h : Z) : MainWindow :=
  mkMainWindow None None 0 (S754_zero false) 0 0 None
    (VideoWidget_init w h) false false TextDrop.

(** The program, the files it can read and what it has done outside. *)
Record App : Type := mkApp
  { self : MainWindow;
    files : string -> option VideoFile;
    gui : list gui_event;
    cv : list cv_event;
    next_id : nat;
    outputs : list VideoWriter }.

Definition App_init (fs : string -> option VideoFile) (w h : Z) : App :=
  mkApp (MainWindow_init w h) fs [] [] 0 [].

Definition with_self (m : MainWindow) (a : App) : App :=
  mkApp m (files a) (gui a) (cv a) (next_id a) (outputs a).

Definition show_message (i : icon) (title text : string) (a : App) : App :=
  mkApp (self a) (files a) (gui a ++ [MessageBox i title text]) (cv a) (next_id a) (outputs a).

Definition log (e : cv_event) (a : App) : App :=
  mkApp (self a) (files a) (gui a) (e :: cv a) (next_id a) (outputs a).

Definition fresh (a : App) : nat * App :=
  (next_id a, mkApp (self a) (files a) (gui a) (cv a) (S (next_id a)) (outputs a)).

(** [cv2.VideoCapture(path)] *)
Definition VideoCapture_new (path : string) (a : App) : VideoCapture * App :=
  let '(id, a) := fresh a in
  match files a path with
  | Some f => (mkVideoCapture id (Some f) true (vf_frames f), log (CaptureOpened id) a)
  | None => (mkVideoCapture id None false [], a)
  end.

(** [cap.release()] *)
Definition release (c : VideoCapture) (a : App) : VideoCapture * App :=
  (mkVideoCapture (cap_id c) (cap_file c) false (cap_pending c),
   log (CaptureReleased (cap_id c)) a).

(** [cv2.VideoWriter(path, fourcc, fps, size)] *)
Definition VideoWriter_new (path : string) (f : PyFloat.float) (sz : Z * Z)
    (a : App) : VideoWriter * App :=
  let '(id, a) := fresh a in
  (mkVideoWriter id path f sz [], log (WriterOpened id) a).

Definition write (frame : Frame) (w : VideoWriter) : VideoWriter :=
  mkVideoWriter (wr_id w) (wr_path w) (wr_fps w) (wr_size w) (wr_frames w ++ [frame]).

(** [writer.release()]; the file then holds the frames written. *)
Definition release_writer (w : VideoWriter) (a : App) : App :=
  log (WriterReleased (wr_id w)) a.

(** The writer as the program leaves it. *)
Definition keep_output (w : VideoWriter) (a : App) : App :=
  mkApp (self a) (files a) (gui a) (cv a) (next_id a) (outputs a ++ [w]).

Definition set_cap (c : option VideoCapture) (m : MainWindow) : MainWindow :=
  mkMainWindow (video_path m) c (frame_count m) (fps m) (orig_w m) (orig_h m)
    (current_frame m) (video_widget m) (clear_btn m) (crop_btn m) (info_label m).

Definition set_info (t : label_text) (m : MainWindow) : MainWindow :=
  mkMainWindow (video_path m) (cap m) (frame_count m) (fps m) (orig_w m) (orig_h m)
    (current_frame m) (video_widget m) (clear_btn m) (crop_btn m) t.

Definition set_widget (v : VideoWidget) (m : MainWindow) : MainWindow :=
  mkMainWindow (video_path m) (cap m) (frame_count m) (fps m) (orig_w m) (orig_h m)
    (current_frame m) v (clear_btn m) (crop_btn m) (info_label m).

Definition show_frame (frame : Frame) (v : VideoWidget) : VideoWidget :=
  let rgb_frame := cvtColor_BGR2RGB frame in
  let original_pixmap := QImage_of_frame rgb_frame in
  set_video_frame original_pixmap v.

Definition load_video (path : string) (a : App) : App :=
  (* if self.cap: self.cap.release() *)
  let a :=
    match cap (self a) with
    | Some old => if truth old then snd (release old a) else a
    | None => a
    end in
  (* self.cap = cv2.VideoCapture(path) *)
  let '(c, a) := VideoCapture_new path a in
  let a := with_self (set_cap (Some c) (self a)) a in
  if negb (isOpened c) then
    (* raise Exception("Failed to open video file"), caught below *)
    let a := show_message Critical "Error" "Failed to open video:" a in
    let '(_, a) := release c a in
    with_self (set_cap None (self a)) a
  else
    let m := self a in
    let '(ret, c) := read c in
    let shown :=
      match ret with
      | Some frame => (Some frame, show_frame frame (video_widget m))
      | None => (current_frame m, video_widget m)
      end in
    with_self
      (mkMainWindow (Some path) (Some c)
         (get_prop vf_frame_count c) (get_fps c)
         (get_prop vf_width c) (get_prop vf_height c)
         (fst shown) (snd shown) true true (TextLoaded path))
      a.

(** Lines 373-379: the relative selection mapped to source pixels. *)
Definition source_rect (orig_w orig_h : Z) (relative_pos : Z * Z * Z * Z)
    (display_size : Z * Z) : res crop_rect :=
  let '(rel_x, rel_y, rel_w, rel_h) := relative_pos in
  let '(disp_w, disp_h) := display_size in
  scale_x <- PyFloat.truediv orig_w disp_w ;;
  scale_y <- PyFloat.truediv orig_h disp_h ;;
  fx0 <- PyFloat.int_mul rel_x scale_x ;;
  ix0 <- PyFloat.to_int fx0 ;;
  let x0 := Z.max 0 ix0 in
  fy0 <- PyFloat.int_mul rel_y scale_y ;;
  iy0 <- PyFloat.to_int fy0 ;;
  let y0 := Z.max 0 iy0 in
  fx2 <- PyFloat.int_mul (rel_x + rel_w) scale_x ;;
  ix2 <- PyFloat.to_int fx2 ;;
  let x2 := Z.min orig_w ix2 in
  fy2 <- PyFloat.int_mul (rel_y + rel_h) scale_y ;;
  iy2 <- PyFloat.to_int fy2 ;;
  let y2 := Z.min orig_h iy2 in
  ok (x0, y0, x2, y2).

(** [frame[y:y+height, x:x+width]] *)
Definition crop_frame (x y width height : Z) (frame : Frame) : Frame :=
  map (slice x (x + width)) (slice y (y + height) frame).

(** The [while True] loop of [process_crop] over the frames the capture
    still holds; the writer comes back as the loop leaves it, with the
    exception when one is raised.  Here and in [process_crop] the calls of
    [QApplication.processEvents()] (lines 405 and 427) find no pending
    user action; [Reentrant], below, has the crop during which user
    actions are handled. *)
Fixpoint crop_loop (frame_count x y width height : Z) (pending : list Frame)
    (frame_idx : Z) (out_writer : VideoWriter) : VideoWriter * option exn :=
  match pending with
  | [] => (out_writer, None)
  | frame :: rest =>
      let cropped_frame := crop_frame x y width height frame in
      let out_writer := write cropped_frame out_writer in
      let frame_idx := frame_idx + 1 in
      if frame_idx mod 30 =? 0 then
        match PyFloat.truediv frame_idx frame_count with
        | inl e => (out_writer, Some e)
        | inr progress => crop_loop frame_count x y width height rest frame_idx out_writer
        end
      else crop_loop frame_count x y width height rest frame_idx out_writer
  end.

Definition process_crop (output_path : string) (x y width height : Z) (a : App) : App :=
  let a := with_self (set_info TextCropping (self a)) a in
  match video_path (self a) with
  | None =>
      (* cv2.VideoCapture(None) raises; the handler reports it *)
      let a := show_message Critical "Error" "Failed to crop video:" a in
      with_self (set_info TextError (self a)) a
  | Some path =>
      let '(input_cap, a) := VideoCapture_new path a in
      let '(out_writer, a) := VideoWriter_new output_path (fps (self a)) (width, height) a in
      let pending := if isOpened input_cap then cap_pending input_cap else [] in
      match crop_loop (frame_count (self a)) x y width height pending 0 out_writer with
      | (out_writer, None) =>
          let '(_, a) := release input_cap a in
          let a := release_writer out_writer a in
          let a := keep_output out_writer a in
          let a := with_self (set_info (TextSaved output_path) (self a)) a in
          show_message Information "Complete" "Cropped video saved!" a
      | (out_writer, Some e) =>
          let a := keep_output out_writer a in
          let a := show_message Critical "Error" "Failed to crop video:" a in
          with_self (set_info TextError (self a)) a
      end
  end.

(** [out_path] is what the save dialog returns when it is reached (the
    empty string when the user cancels).  An exception of the mapping is
    not caught by the method. *)
Definition crop_and_save (out_path : string) (a : App) : res App :=
  if negb (truth (cap (self a))) then ok (show_message Warning "No Video" "No video loaded." a)
  else
    match get_selection_info (video_widget (self a)) with
    | None => ok (show_message Warning "No Valid Selection"
                 "Please draw a rectangle that intersects with the video area." a)
    | Some sel_info =>
        rect <- source_rect (orig_w (self a)) (orig_h (self a))
                  (relative_pos sel_info) (display_size sel_info) ;;
        let '(x0, y0, x2, y2) := rect in
        let crop_w := x2 - x0 in
        let crop_h := y2 - y0 in
        if (crop_w <=? 0) || (crop_h <=? 0) then
          ok (show_message Warning "Invalid Selection" "Invalid crop dimensions." a)
        else if negb (truth out_path) then ok a
        else ok (process_crop out_path x0 y0 crop_w crop_h a)
    end.

Definition closeEvent (a : App) : App :=
  match cap (self a) with
  | Some c => if truth c then snd (release c a) else a
  | None => a
  end.

(** What the program has done to the outside. *)
Definition effects (a : App) : list gui_event * list cv_event * list VideoWriter :=
  (gui a, cv a, outputs a).

(** The error box of [process_crop]. *)
Definition crop_failed : gui_event :=
  MessageBox Critical "Error" "Failed to crop video:".

(** The id of the capture the window holds. *)
Definition held_id (a : App) : option nat := option_map cap_id (cap (self a)).

(** *** The event loop *)

Inductive Action : Type :=
| Resize (w h : Z)
| MousePress (event : QMouseEvent)
| MouseMove (event : QMouseEvent)
| MouseRelease (event : QMouseEvent)
| Drop (path : string)
| ClickClear
| ClickCrop (out_path : string).

Definition on_widget (f : VideoWidget -> VideoWidget) (a : App) : App :=
  with_self (set_widget (f (video_widget (self a))) (self a)) a.

(** One user action dispatched to its handler; a disabled button does
    not react. *)
Definition step (act : Action) (a : App) : res App :=
  match act with
  | Resize w h => ok (on_widget (resizeEvent w h) a)
  | MousePress e => ok (on_widget (mousePressEvent e) a)
  | MouseMove e => ok (on_widget (mouseMoveEvent e) a)
  | MouseRelease e => ok (on_widget (mouseReleaseEvent e) a)
  | Drop path => ok (load_video path a)
  | ClickClear => if clear_btn (self a) then ok (on_widget clear_selection a) else ok a
  | ClickCrop out_path => if crop_btn (self a) then crop_and_save out_path a else ok a
  end.

Fixpoint run (acts : list Action) (a : App) : res App :=
  match acts with
  | [] => ok a
  | act :: rest => a' <- step act a ;; run rest a'
  end.

(** A whole session: the actions, then the window is closed. *)
Definition session (acts : list Action) (a : App) : res App :=
  a' <- run acts a ;; ok (closeEvent a').

(** *** Reading the handle events *)

Definition remove_id (id : nat) (l : list nat) : list nat :=
  filter (fun j => negb (Nat.eqb j id)) l.

(** The captures that are open after the events [t]. *)
Fixpoint open_captures (t : list cv_event) : list nat :=
  match t with
  | [] => []
  | CaptureOpened id :: older => id :: open_captures older
  | CaptureReleased id :: older => remove_id id (open_captures older)
  | _ :: older => open_captures older
  end.

Fixpoint open_writers (t : list cv_event) : list nat :=
  match t with
  | [] => []
  | WriterOpened id :: older => id :: open_writers older
  | WriterReleased id :: older => remove_id id (open_writers older)
  | _ :: older => open_writers older
  end.

(** The largest number of captures open at one time during [t]. *)
Fixpoint max_open_captures (t : list cv_event) : nat :=
  match t with
  | [] => 0%nat
  | _ :: older => Nat.max (List.length (open_captures t)) (max_open_captures older)
  end.

Definition cv_event_eqb (e f : cv_event) : bool :=
  match e, f with
  | CaptureOpened i, CaptureOpened j => Nat.eqb i j
  | CaptureReleased i, CaptureReleased j => Nat.eqb i j
  | WriterOpened i, WriterOpened j => Nat.eqb i j
  | WriterReleased i, WriterReleased j => Nat.eqb i j
  | _, _ => false
  end.

(** How often the event [e] occurs in [t]. *)
Definition occurrences (e : cv_event) (t : list cv_event) : nat :=
  List.length (filter (cv_event_eqb e) t).

Definition event_id (e : cv_event) : nat :=
  match e with
  | CaptureOpened id | CaptureReleased id | WriterOpened id | WriterReleased id => id
  end.

(** The events of a crop that runs to its end, on top of [t]: the capture
    (when the file opens) and the writer are opened, then both released. *)
Definition crop_events (opened : bool) (n : nat) (t : list cv_event) : list cv_event :=
  WriterReleased (S n) :: CaptureReleased n :: WriterOpened (S n)
    :: (if opened then [CaptureOpened n] else []) ++ t.

End V1_2.

(** ** Statements taken from the specification *)

Module Spec.
Import Py Qt Gui.

(** An integer coordinate [edge] is the scaled position [sel * orig / disp]
    up to integer rounding: it is within less than one pixel of it. *)
Definition is_rounding_of (edge sel orig disp : Z) : Prop :=
  Z.abs (edge * disp - sel * orig) < disp.

(** A crop rectangle lies within a frame of [orig_w] x [orig_h] pixels. *)
Definition within_frame (orig_w orig_h : Z) (r : crop_rect) : Prop :=
  let '(x0, y0, x2, y2) := r in
  0 <= x0 <= x2 /\ x2 <= orig_w /\ 0 <= y0 <= y2 /\ y2 <= orig_h.

(** Two crop rectangles differ by at most [d] pixels in each coordinate. *)
Definition rect_close (d : Z) (r s : crop_rect) : Prop :=
  let '(x0, y0, x2, y2) := r in
  let '(x0', y0', x2', y2') := s in
  Z.abs (x0 - x0') <= d /\ Z.abs (y0 - y0') <= d /\
  Z.abs (x2 - x2') <= d /\ Z.abs (y2 - y2') <= d.

(** A crop rectangle clamped into the frame, as version 1.2 clamps. *)
Definition clamp (orig_w orig_h : Z) (r : crop_rect) : crop_rect :=
  let '(x0, y0, x2, y2) := r in
  (Z.max 0 x0, Z.max 0 y0, Z.min orig_w x2, Z.min orig_h y2).

(** The first frame of a file as version 1.2 renders it. *)
Definition first_frame_v12 (f : V1_2.VideoFile) : option Frame :=
  option_map V1_2.cvtColor_BGR2RGB (hd_error (V1_2.vf_frames f)).

(** The three reasons for which [get_selection_info] is to return [None]:
    no selection, a selection narrower or shorter than 5 pixels, a
    selection that does not meet the displayed video rectangle. *)
Definition no_usable_selection (v : V1_2.VideoWidget) : Prop :=
  match V1_2.start_pos v, V1_2.end_pos v with
  | Some p, Some q =>
      let r := normalized (QRect_of_points p q) in
      rect_width r < 5 \/ rect_height r < 5 \/
      match V1_2.video_display_rect v with
      | Some d =>
          rect_width (intersected r d) <= 0 \/ rect_height (intersected r d) <= 0
      | None => True
      end
  | _, _ => True
  end.

(** At most one capture is open at any time of the events [t]. *)
Definition single_capture (t : list V1_2.cv_event) : Prop :=
  (V1_2.max_open_captures t <= 1)%nat.

(** Every handle opened in [t] has been released exactly once. *)
Definition released_once (t : list V1_2.cv_event) : Prop :=
  (forall id, In (V1_2.CaptureOpened id) t ->
              V1_2.occurrences (V1_2.CaptureReleased id) t = 1%nat) /\
  (forall id, In (V1_2.WriterOpened id) t ->
              V1_2.occurrences (V1_2.WriterReleased id) t = 1%nat).

End Spec.

(** ** Concrete sessions *)

Module Scenario.
Import Py Qt Gui.

Definition black : pixel := (0, 0, 0).

(** A frame of [w] x [h] pixels. *)
Definition plain_frame (w h : nat) (px : pixel) : Frame := repeat (repeat px w) h.

Definition left_click (x y : Z) : QMouseEvent := mkQMouseEvent LeftButton (mkQPoint x y).

(** The double 30.0 *)
Definition fps_30 : PyFloat.float := S754_finite false 8444249301319680 (-48).

(** *** Version 1.1: a square video in the label at its minimum size *)

Definition square_clip : V1_1.VideoFileClip :=
  V1_1.mkVideoFileClip (360, 360) (plain_frame 360 360 black).

Definition moviepy : V1_1.Env :=
  V1_1.mkEnv
    (fun path => if String.eqb path "square.mp4" then ok square_clip
                 else throw (Exception "MoviePy error: the file could not be found"))
    (fun _ _ _ => ok tt).

Definition app11 : V1_1.App := V1_1.mkApp (V1_1.MainWindow_init 640 360) [] [].

(** The square video is loaded and the user selects a region of the
    empty band to the left of the picture. *)
Definition left_of_picture : V1_1.App :=
  V1_1.on_widget (V1_1.drag (mkQPoint 10 10) (mkQPoint 100 100))
    (V1_1.load_video moviepy "square.mp4" app11).

(** *** Version 1.2 *)

(** A 256x144 clip of three frames. *)
Definition clip_144p : V1_2.VideoFile :=
  V1_2.mkVideoFile (repeat (plain_frame 256 144 black) 3) 3 fps_30 256 144.

(** A stream of 31 frames whose container does not record a frame
    count: OpenCV reports 0. *)
Definition stream_31 : V1_2.VideoFile :=
  V1_2.mkVideoFile (repeat (plain_frame 64 48 black) 31) 0 fps_30 64 48.

(** A file that opens but from which no frame can be read. *)
Definition no_frames : V1_2.VideoFile :=
  V1_2.mkVideoFile [] 0 fps_30 64 48.

(** A clip of two frames of 8x6 pixels. *)
Definition tiny_clip : V1_2.VideoFile :=
  V1_2.mkVideoFile (repeat (plain_frame 8 6 black) 2) 2 fps_30 8 6.

Definition red_frame : Frame := plain_frame 64 48 (0, 0, 255).

Definition one_red_frame : V1_2.VideoFile :=
  V1_2.mkVideoFile [red_frame] 1 fps_30 64 48.

Definition disk (path : string) : option V1_2.VideoFile :=
  if String.eqb path "clip.mp4" then Some clip_144p
  else if String.eqb path "stream.webm" then Some stream_31
  else if String.eqb path "empty.mp4" then Some no_frames
  else if String.eqb path "red.mp4" then Some one_red_frame
  else if String.eqb path "tiny.mp4" then Some tiny_clip
  else None.

Definition app12 (w h : Z) : V1_2.App := V1_2.App_init disk w h.

(** The clip is shown at 853x480 in a widget of 978x500, at (62, 10);
    the user drags from its top-left to its bottom-right pixel. *)
Definition select_whole_picture : list V1_2.Action :=
  [V1_2.Drop "clip.mp4";
   V1_2.MousePress (left_click 62 10);
   V1_2.MouseMove (left_click 914 489);
   V1_2.MouseRelease (left_click 914 489)].

Definition crop_whole_picture : list V1_2.Action :=
  select_whole_picture ++ [V1_2.ClickCrop "out.mp4"].

Definition crop_stream : list V1_2.Action :=
  [V1_2.Drop "stream.webm";
   V1_2.MousePress (left_click 100 100);
   V1_2.MouseMove (left_click 300 300);
   V1_2.MouseRelease (left_click 300 300);
   V1_2.ClickCrop "out.mp4"].

Definition reload_without_frames : list V1_2.Action :=
  [V1_2.Drop "red.mp4"; V1_2.Drop "empty.mp4"].

(** Load, select, crop, load another file, fail to load a third. *)
Definition busy_session : list V1_2.Action :=
  [V1_2.Drop "tiny.mp4";
   V1_2.MousePress (left_click 100 100);
   V1_2.MouseMove (left_click 300 300);
   V1_2.MouseRelease (left_click 300 300);
   V1_2.ClickCrop "out.mp4";
   V1_2.Resize 800 600;
   V1_2.Drop "red.mp4";
   V1_2.Drop "missing.mp4";
   V1_2.ClickCrop "out2.mp4";
   V1_2.Drop "tiny.mp4";
   V1_2.ClickClear].

(** A drag that starts on the top-left pixel of the widget. *)
Definition drag_from_origin : list V1_2.Action :=
  [V1_2.Drop "clip.mp4";
   V1_2.MousePress (left_click 0 0);
   V1_2.MouseMove (left_click 300 300);
   V1_2.MouseRelease (left_click 300 300)].

(** *** The whole picture, over a range of display sizes *)

(** Version 1.1 maps the selection of a whole display of extent [d] (in
    both directions) to the whole frame of extent [o]. *)
Definition whole11 (o d : Z) : bool :=
  match V1_1.source_rect o o d d (0, 0, d, d) with
  | inr (0, 0, x2, y2) => (x2 =? o) && (y2 =? o)
  | _ => false
  end.

(** The same for version 1.2. *)
Definition whole12 (o d : Z) : bool :=
  match V1_2.source_rect o o (0, 0, d, d) (d, d) with
  | inr (0, 0, x2, y2) => (x2 =? o) && (y2 =? o)
  | _ => false
  end.

Definition display_extents : list Z := map Z.of_nat (seq 1 2048).

End Scenario.

(** ** Doubles of bounded magnitude *)

Module Magnitude.

(** [x] is a zero, or finite with its leading bit below [2^K] and its
    exponent at most [E]. *)
Definition below (K E : Z) (x : spec_float) : Prop :=
  match x with
  | S754_zero _ => True
  | S754_finite _ m e => Zdigits2 (Zpos m) + e <= K /\ e <= E
  | _ => False
  end.

(** The sign bit of a float that is a number. *)
Definition sign_bit (x : spec_float) : bool :=
  match x with
  | S754_zero s | S754_infinity s | S754_finite s _ _ => s
  | S754_nan => false
  end.

(** An int whose absolute value is below [2^K]. *)
Definition fits (K : Z) (n : Z) : Prop := Z.abs n < 2 ^ K.

End Magnitude.

(** ** What holds between two user actions (version 1.2) *)

Module Reach.
Import Py Qt Gui.

(** The picture of a frame as [show_frame] hands it to the widget. *)
Definition pixmap_of_frame (frame : Frame) : QPixmap :=
  QImage_of_frame (V1_2.cvtColor_BGR2RGB frame).

(** The displayed pixmap and the video rectangle are the ones
    [update_display] computes for the size and the picture of the widget. *)
Definition display_current (v : V1_2.VideoWidget) : Prop :=
  match V1_2.original_pixmap v with
  | Some _ => V1_2.update_display v = v
  | None => V1_2.displayed_pixmap v = None /\ V1_2.video_display_rect v = None
  end.

(** The window knows the file at [video_path] by its properties. *)
Definition knows_file (fs : string -> option V1_2.VideoFile) (m : V1_2.MainWindow) : Prop :=
  match V1_2.video_path m with
  | Some path =>
      V1_2.crop_btn m = true /\
      exists f, fs path = Some f /\
                V1_2.frame_count m = V1_2.vf_frame_count f /\
                V1_2.fps m = V1_2.vf_fps f /\
                V1_2.orig_w m = V1_2.vf_width f /\
                V1_2.orig_h m = V1_2.vf_height f
  | None => V1_2.crop_btn m = false /\ V1_2.cap m = None /\ V1_2.current_frame m = None
  end.

Record window_ok (fs : string -> option V1_2.VideoFile) (a : V1_2.App) : Prop :=
  mk_window_ok
    { wo_files : V1_2.files a = fs;
      wo_display : display_current (V1_2.video_widget (V1_2.self a));
      wo_picture : V1_2.original_pixmap (V1_2.video_widget (V1_2.self a))
                   = option_map pixmap_of_frame (V1_2.current_frame (V1_2.self a));
      wo_buttons : V1_2.clear_btn (V1_2.self a) = V1_2.crop_btn (V1_2.self a);
      wo_file : knows_file fs (V1_2.self a);
      wo_cap : forall c, V1_2.cap (V1_2.self a) = Some c ->
                         V1_2.cap_opened c = true /\
                         exists path, V1_2.video_path (V1_2.self a) = Some path /\
                                      V1_2.cap_file c = fs path }.

(** The sizes a session meets stay below [2^500]. *)
Definition action_fits (act : V1_2.Action) : Prop :=
  match act with
  | V1_2.Resize w h => Magnitude.fits 500 w /\ Magnitude.fits 500 h
  | _ => True
  end.

(** Any action but a press of the left mouse button. *)
Definition no_left_press (act : V1_2.Action) : Prop :=
  match act with
  | V1_2.MousePress e => is_left (button e) = false
  | _ => True
  end.

Definition files_fit (fs : string -> option V1_2.VideoFile) : Prop :=
  forall path f, fs path = Some f ->
    Magnitude.fits 500 (V1_2.vf_width f) /\ Magnitude.fits 500 (V1_2.vf_height f).

End Reach.

(** ** Version 1.2: what is painted and what the selection label says *)

Module V1_2_view.
Import Py Qt Gui.
Local Open Scope py_scope.

(** The pens of [paintEvent]: the dashed grey frame of the video
    rectangle, the green rectangle of a drag in progress, the red one of
    a finished selection, the dashed yellow one over a selection that is
    not wholly on the video. *)
Inductive pen : Type := FramePen | DragPen | SelectionPen | OutsidePen.

(** The rectangles [paintEvent] draws over the pixmap, in order. *)
Definition paintEvent (v : V1_2.VideoWidget) : list (pen * QRect) :=
  (if truth (V1_2.video_display_rect v) then
     match V1_2.video_display_rect v with
     | Some d => [(FramePen, d)]
     | None => []
     end
   else [])
  ++
  (if truth (V1_2.start_pos v) && truth (V1_2.end_pos v) then
     match V1_2.start_pos v, V1_2.end_pos v with
     | Some p, Some q =>
         let selection_rect := normalized (QRect_of_points p q) in
         (if V1_2.dragging v then DragPen else SelectionPen, selection_rect)
         :: (if truth (V1_2.video_display_rect v) then
               match V1_2.video_display_rect v with
               | Some d =>
                   let video_intersect := intersected selection_rect d in
                   if negb (QRect_eqb video_intersect selection_rect)
                   then [(OutsidePen, selection_rect)]
                   else []
               | None => []
               end
             else [])
     | _, _ => []
     end
   else []).

(** The texts of [selection_info_label]. *)
Inductive selection_text : Type :=
| TextBlank
| TextSelection (sel_w sel_h sel_x sel_y full_w full_h : Z)
| TextOutside.

(** [update_selection_info], run by the timer: the text it sets, [None]
    when it leaves the label as it is. *)
Definition update_selection_info (m : V1_2.MainWindow) : res (option selection_text) :=
  let v := V1_2.video_widget m in
  if negb (truth (V1_2.start_pos v)) || negb (truth (V1_2.end_pos v))
  then ok (Some TextBlank)
  else
    match V1_2.get_selection_info v with
    | Some sel_info =>
        let '(rel_x, rel_y, rel_w, rel_h) := V1_2.relative_pos sel_info in
        let '(disp_w, disp_h) := V1_2.display_size sel_info in
        if (0 <? disp_w) && (0 <? disp_h) then
          scale_x <- PyFloat.truediv (V1_2.orig_w m) disp_w ;;
          scale_y <- PyFloat.truediv (V1_2.orig_h m) disp_h ;;
          fx <- PyFloat.int_mul rel_x scale_x ;;
          orig_x <- PyFloat.to_int fx ;;
          fy <- PyFloat.int_mul rel_y scale_y ;;
          orig_y <- PyFloat.to_int fy ;;
          fw <- PyFloat.int_mul rel_w scale_x ;;
          orig_w <- PyFloat.to_int fw ;;
          fh <- PyFloat.int_mul rel_h scale_y ;;
          orig_h <- PyFloat.to_int fh ;;
          ok (Some (TextSelection orig_w orig_h orig_x orig_y (V1_2.orig_w m) (V1_2.orig_h m)))
        else ok None
    | None => ok (Some TextOutside)
    end.

End V1_2_view.

(** ** Version 1.1: the event loop *)

Module V1_1_loop.
Import Py Qt Gui.
Local Open Scope py_scope.

Inductive Action : Type :=
| Resize (w h : Z)
| MousePress (event : QMouseEvent)
| MouseMove (event : QMouseEvent)
| MouseRelease (event : QMouseEvent)
| Drop (path : string)
| ClickCrop (out_path : string).

(** One user action dispatched to its handler; the disabled button does
    not react.  The label has no [resizeEvent] of its own. *)
Definition step (env : V1_1.Env) (act : Action) (a : V1_1.App) : res V1_1.App :=
  match act with
  | Resize w h => ok (V1_1.on_widget (V1_1.resize w h) a)
  | MousePress e => ok (V1_1.on_widget (V1_1.mousePressEvent e) a)
  | MouseMove e => ok (V1_1.on_widget (V1_1.mouseMoveEvent e) a)
  | MouseRelease e => ok (V1_1.on_widget (V1_1.mouseReleaseEvent e) a)
  | Drop path => ok (V1_1.load_video env path a)
  | ClickCrop out_path =>
      if V1_1.crop_btn (V1_1.self a) then V1_1.crop_and_save env out_path a else ok a
  end.

Fixpoint run (env : V1_1.Env) (acts : list Action) (a : V1_1.App) : res V1_1.App :=
  match acts with
  | [] => ok a
  | act :: rest => a' <- step env act a ;; run env rest a'
  end.

Definition App_init (w h : Z) : V1_1.App := V1_1.mkApp (V1_1.MainWindow_init w h) [] [].

(** A label size that is not empty and below [2^500]. *)
Definition size_fits (w h : Z) : Prop := 0 < w < 2 ^ 500 /\ 0 < h < 2 ^ 500.

Definition action_fits (act : Action) : Prop :=
  match act with
  | Resize w h => size_fits w h
  | _ => True
  end.

(** The clips moviepy opens have a first frame that is not empty and a
    size below [2^500]. *)
Definition clips_fit (env : V1_1.Env) : Prop :=
  forall path c, V1_1.open_clip env path = ok c ->
    0 < frame_width (V1_1.get_frame_0 c) /\ 0 < frame_height (V1_1.get_frame_0 c) /\
    Magnitude.fits 500 (fst (V1_1.size c)) /\ Magnitude.fits 500 (snd (V1_1.size c)).

(** What holds between two user actions. *)
Record state_ok (a : V1_1.App) : Prop := mk_state_ok
  { so_size : size_fits (V1_1.width (V1_1.video_widget (V1_1.self a)))
                (V1_1.height (V1_1.video_widget (V1_1.self a)));
    so_orig : Magnitude.fits 500 (V1_1.orig_w (V1_1.self a)) /\
              Magnitude.fits 500 (V1_1.orig_h (V1_1.self a));
    so_pixmap : match V1_1.pixmap_img (V1_1.video_widget (V1_1.self a)) with
                | Some pm => 0 < pm_width pm < 2 ^ 500 /\ 0 < pm_height pm < 2 ^ 500 /\
                             V1_1.current_frame (V1_1.self a) = Some (pm_image pm)
                | None => V1_1.current_frame (V1_1.self a) = None
                end;
    so_loaded : match V1_1.clip (V1_1.self a) with
                | Some c => V1_1.crop_btn (V1_1.self a) = true /\
                            V1_1.video_path (V1_1.self a) <> None /\
                            V1_1.pixmap_img (V1_1.video_widget (V1_1.self a)) <> None /\
                            V1_1.current_frame (V1_1.self a) = Some (V1_1.get_frame_0 c) /\
                            (V1_1.orig_w (V1_1.self a), V1_1.orig_h (V1_1.self a)) = V1_1.size c
                | None => V1_1.crop_btn (V1_1.self a) = false /\
                          V1_1.video_path (V1_1.self a) = None /\
                          V1_1.pixmap_img (V1_1.video_widget (V1_1.self a)) = None
                end }.

End V1_1_loop.

(** ** A small video, for sessions that are cheap to run *)

Module Small.
Import Py Qt Gui.

(** moviepy opens every path as a clip of 8x6 pixels. *)
Definition clip : V1_1.VideoFileClip :=
  V1_1.mkVideoFileClip (8, 6) (Scenario.plain_frame 8 6 Scenario.black).

Definition moviepy : V1_1.Env :=
  V1_1.mkEnv (fun _ => ok clip) (fun _ _ _ => ok tt).

(** The clip is loaded into the label of 640x360 and shown at 480x360,
    from x = 80 on. *)
Definition loaded11 : V1_1.App :=
  V1_1.load_video moviepy "small.mp4" (V1_1_loop.App_init 640 360).

(** OpenCV opens every path as the clip of two frames of 8x6 pixels; it
    is shown at 453x340 at (93, 10). *)
Definition app12 : V1_2.App := V1_2.App_init (fun _ => Some Scenario.tiny_clip) 640 360.

Definition loaded12 : V1_2.App := V1_2.load_video "small.mp4" app12.

End Small.

(** ** Version 1.2: user actions handled while a crop runs *)

Module Reentrant.
Import Py Qt Gui.
Local Open Scope py_scope.
#[local] Existing Instance V1_2.Truthy_VideoCapture.

(** [process_crop] calls [QApplication.processEvents()] in two places:
    before it opens its capture (line 405) and, in the loop, after every
    30th frame (line 427).  The buttons stay enabled while it runs, so a
    call handles whatever the user has done in the meantime, a click on
    Crop & Save included, and the handler runs to its end inside the call.

    An action of a session is therefore a plain action, during which no
    other action is handled ([V1_2.step]), or a click on Crop & Save
    together with the actions that the calls of [processEvents] of its
    [process_crop] find: [Slot arrived later] gives the actions handled by
    the next call, then those of the calls after it; [NoMore] says that no
    further call finds anything.  Actions listed for calls that do not
    take place (the button is disabled, the handler returns before
    [process_crop], the frames run out) are not handled. *)
Inductive Act : Type :=
| Plain (act : V1_2.Action)
| CropDuring (out_path : string) (during : Slots)
with Slots : Type :=
| NoMore
| Slot (arrived : Acts) (later : Slots)
with Acts : Type :=
| Done
| Then (act : Act) (rest : Acts).

Scheme Act_mut := Induction for Act Sort Prop
  with Slots_mut := Induction for Slots Sort Prop
  with Acts_mut := Induction for Acts Sort Prop.
Combined Scheme session_ind from Act_mut, Slots_mut, Acts_mut.

Fixpoint actions (l : list Act) : Acts :=
  match l with
  | [] => Done
  | act :: rest => Then act (actions rest)
  end.

Fixpoint slots (l : list Acts) : Slots :=
  match l with
  | [] => NoMore
  | arrived :: later => Slot arrived (slots later)
  end.

(** The plain actions of a session in which nothing is handled during a
    crop. *)
Definition plain_act (act : Act) : V1_2.Action :=
  match act with
  | Plain act => act
  | CropDuring out_path _ => V1_2.ClickCrop out_path
  end.

Fixpoint plain (acts : Acts) : list V1_2.Action :=
  match acts with
  | Done => []
  | Then act rest => plain_act act :: plain rest
  end.

(** The frames the loop writes before its next call of [processEvents]:
    the call follows the frame that makes [frame_idx] a multiple of 30. *)
Definition frames_to_events (frame_idx : Z) : nat := Z.to_nat (30 - frame_idx mod 30).

(** [process_crop], lines 401-440, with what its calls of [processEvents]
    do: [events] is the call of line 405, [loop] the [while True] loop with
    the calls of line 427. *)
Definition process_crop
    (events : V1_2.App -> res V1_2.App)
    (loop : Z -> Z -> Z -> Z -> list Frame -> Z -> V1_2.VideoWriter -> V1_2.App ->
            res (V1_2.VideoWriter * option exn * V1_2.App))
    (output_path : string) (x y width height : Z) (a : V1_2.App) : res V1_2.App :=
  let a := V1_2.with_self (V1_2.set_info V1_2.TextCropping (V1_2.self a)) a in
  a <- events a ;;
  match V1_2.video_path (V1_2.self a) with
  | None =>
      (* cv2.VideoCapture(None) raises; the handler reports it *)
      let a := V1_2.show_message Critical "Error" "Failed to crop video:" a in
      ok (V1_2.with_self (V1_2.set_info V1_2.TextError (V1_2.self a)) a)
  | Some path =>
      let '(input_cap, a) := V1_2.VideoCapture_new path a in
      let '(out_writer, a) :=
        V1_2.VideoWriter_new output_path (V1_2.fps (V1_2.self a)) (width, height) a in
      let pending := if V1_2.isOpened input_cap then V1_2.cap_pending input_cap else [] in
      r <- loop x y width height pending 0 out_writer a ;;
      let '(out_writer, raised, a) := r in
      match raised with
      | None =>
          let '(_, a) := V1_2.release input_cap a in
          let a := V1_2.release_writer out_writer a in
          let a := V1_2.keep_output out_writer a in
          let a := V1_2.with_self
                     (V1_2.set_info (V1_2.TextSaved output_path) (V1_2.self a)) a in
          ok (V1_2.show_message Information "Complete" "Cropped video saved!" a)
      | Some e =>
          let a := V1_2.keep_output out_writer a in
          let a := V1_2.show_message Critical "Error" "Failed to crop video:" a in
          ok (V1_2.with_self (V1_2.set_info V1_2.TextError (V1_2.self a)) a)
      end
  end.

(** [crop_and_save], lines 356-399, around a [process_crop] that handles
    events. *)
Definition crop_and_save
    (process : string -> Z -> Z -> Z -> Z -> V1_2.App -> res V1_2.App)
    (out_path : string) (a : V1_2.App) : res V1_2.App :=
  if negb (truth (V1_2.cap (V1_2.self a))) then
    ok (V1_2.show_message Warning "No Video" "No video loaded." a)
  else
    match V1_2.get_selection_info (V1_2.video_widget (V1_2.self a)) with
    | None => ok (V1_2.show_message Warning "No Valid Selection"
                 "Please draw a rectangle that intersects with the video area." a)
    | Some sel_info =>
        rect <- V1_2.source_rect (V1_2.orig_w (V1_2.self a)) (V1_2.orig_h (V1_2.self a))
                  (V1_2.relative_pos sel_info) (V1_2.display_size sel_info) ;;
        let '(x0, y0, x2, y2) := rect in
        let crop_w := x2 - x0 in
        let crop_h := y2 - y0 in
        if (crop_w <=? 0) || (crop_h <=? 0) then
          ok (V1_2.show_message Warning "Invalid Selection" "Invalid crop dimensions." a)
        else if negb (truth out_path) then ok a
        else process out_path x0 y0 crop_w crop_h a
    end.

(** The handlers, with the events handled inside them.  An exception that
    leaves a handler is not caught by the call of [processEvents] it ran
    in: it ends the run. *)
Fixpoint handle (act : Act) (a : V1_2.App) {struct act} : res V1_2.App :=
  match act with
  | Plain act => V1_2.step act a
  | CropDuring out_path during =>
      if V1_2.crop_btn (V1_2.self a) then
        match during with
        | NoMore => V1_2.crop_and_save out_path a
        | Slot arrived later =>
            crop_and_save (process_crop (processEvents arrived) (crop_loop later)) out_path a
        end
      else ok a
  end

(** [QApplication.processEvents()]: the pending actions, in order. *)
with processEvents (acts : Acts) (a : V1_2.App) {struct acts} : res V1_2.App :=
  match acts with
  | Done => ok a
  | Then act rest => a' <- handle act a ;; processEvents rest a'
  end

(** The [while True] loop of [process_crop] from [frame_idx] on: the frames
    up to the next call of [processEvents] are written as [V1_2.crop_loop]
    writes them, the progress is computed from [self.frame_count] as it is
    then, and the call handles what has arrived. *)
with crop_loop (during : Slots) (x y width height : Z) (pending : list Frame)
    (frame_idx : Z) (out_writer : V1_2.VideoWriter) (a : V1_2.App) {struct during}
    : res (V1_2.VideoWriter * option exn * V1_2.App) :=
  match during with
  | NoMore =>
      let r := V1_2.crop_loop (V1_2.frame_count (V1_2.self a)) x y width height
                 pending frame_idx out_writer in
      ok (fst r, snd r, a)
  | Slot arrived later =>
      let n := frames_to_events frame_idx in
      if (List.length pending <? n)%nat then
        (* the frames run out before the next call *)
        let r := V1_2.crop_loop (V1_2.frame_count (V1_2.self a)) x y width height
                   pending frame_idx out_writer in
        ok (fst r, snd r, a)
      else
        match V1_2.crop_loop (V1_2.frame_count (V1_2.self a)) x y width height
                (firstn n pending) frame_idx out_writer with
        | (out_writer, Some e) => ok (out_writer, Some e, a)
        | (out_writer, None) =>
            let a := V1_2.with_self (V1_2.set_info V1_2.TextProcessing (V1_2.self a)) a in
            a <- processEvents arrived a ;;
            crop_loop later x y width height (skipn n pending)
              (frame_idx + Z.of_nat n) out_writer a
        end
  end.

(** [app.exec_()]: the main loop hands the actions to their handlers in
    the same way. *)
Definition run (acts : Acts) (a : V1_2.App) : res V1_2.App := processEvents acts a.

(** No action is handled while a crop runs. *)
Fixpoint quiet_slots (during : Slots) : Prop :=
  match during with
  | NoMore => True
  | Slot arrived later => arrived = Done /\ quiet_slots later
  end.

Definition quiet_act (act : Act) : Prop :=
  match act with
  | Plain _ => True
  | CropDuring _ during => quiet_slots during
  end.

Fixpoint quiet (acts : Acts) : Prop :=
  match acts with
  | Done => True
  | Then act rest => quiet_act act /\ quiet rest
  end.

(** How many crops are in their loop at one time, at most.  A click on
    Crop & Save counts for one; what the call of line 405 handles is over
    before the capture of the crop is opened, what the calls in the loop
    handle comes on top of it. *)
Definition depth_plain (act : V1_2.Action) : nat :=
  match act with
  | V1_2.ClickCrop _ => 1
  | _ => 0
  end.

Fixpoint depth_act (act : Act) : nat :=
  match act with
  | Plain act => depth_plain act
  | CropDuring _ NoMore => 1
  | CropDuring _ (Slot arrived later) => Nat.max (depth arrived) (S (depth_slots later))
  end
with depth_slots (during : Slots) : nat :=
  match during with
  | NoMore => 0
  | Slot arrived later => Nat.max (depth arrived) (depth_slots later)
  end
with depth (acts : Acts) : nat :=
  match acts with
  | Done => 0
  | Then act rest => Nat.max (depth_act act) (depth rest)
  end.

(** The open captures other than the one the window holds, whose id is
    [held]: those of the crops in progress. *)
Definition others_of (held : option nat) (t : list V1_2.cv_event) : list nat :=
  match held with
  | Some i => V1_2.remove_id i (V1_2.open_captures t)
  | None => V1_2.open_captures t
  end.

(** The events [t] are in order, with ids below [n]: no handle is open
    twice, an open handle has not been released, a handle that was opened
    and is no longer open has been released once, and nothing has been
    released twice. *)
Record handles_wf (t : list V1_2.cv_event) (n : nat) : Prop :=
  mk_handles_wf
    { wf_fresh : forall e, In e t -> (V1_2.event_id e < n)%nat;
      wf_captures : NoDup (V1_2.open_captures t);
      wf_writers : NoDup (V1_2.open_writers t);
      wf_capture_open : forall id, In id (V1_2.open_captures t) ->
          V1_2.occurrences (V1_2.CaptureReleased id) t = 0%nat;
      wf_capture_closed : forall id, In (V1_2.CaptureOpened id) t ->
          ~ In id (V1_2.open_captures t) ->
          V1_2.occurrences (V1_2.CaptureReleased id) t = 1%nat;
      wf_writer_open : forall id, In id (V1_2.open_writers t) ->
          V1_2.occurrences (V1_2.WriterReleased id) t = 0%nat;
      wf_writer_closed : forall id, In (V1_2.WriterOpened id) t ->
          ~ In id (V1_2.open_writers t) ->
          V1_2.occurrences (V1_2.WriterReleased id) t = 1%nat;
      wf_once : forall id, (V1_2.occurrences (V1_2.CaptureReleased id) t <= 1)%nat /\
                           (V1_2.occurrences (V1_2.WriterReleased id) t <= 1)%nat }.

(** The events are in order and the capture the window holds is open. *)
Definition ordered (held : option nat) (t : list V1_2.cv_event) (n : nat) : Prop :=
  handles_wf t n /\ forall i, held = Some i -> In i (V1_2.open_captures t).

(** From [(held, t, n)] to [(held', t', n')] the order is kept, the crops
    in progress and the open writers are the same, and at no time were
    more captures open than before or than the window and the crops in
    progress hold together with [d] more. *)
Definition kept (d : nat) (held : option nat) (t : list V1_2.cv_event) (n : nat)
    (held' : option nat) (t' : list V1_2.cv_event) (n' : nat) : Prop :=
  ordered held' t' n' /\
  others_of held' t' = others_of held t /\
  V1_2.open_writers t' = V1_2.open_writers t /\
  (n <= n')%nat /\
  (V1_2.max_open_captures t'
   <= Nat.max (V1_2.max_open_captures t) (List.length (others_of held t) + 1 + d))%nat.

(** What a handler that takes [a] to [a'] does: message boxes are added,
    and unless a crop has failed the handles are kept in order. *)
Definition keeps_order (d : nat) (a a' : V1_2.App) : Prop :=
  (exists l, V1_2.gui a' = V1_2.gui a ++ l) /\
  (~ In V1_2.crop_failed (V1_2.gui a') ->
   ordered (V1_2.held_id a) (V1_2.cv a) (V1_2.next_id a) ->
   kept d (V1_2.held_id a) (V1_2.cv a) (V1_2.next_id a)
     (V1_2.held_id a') (V1_2.cv a') (V1_2.next_id a')).

(** *** Sessions *)

(** A clip of 31 frames of 8x6 pixels: the loop of [process_crop] calls
    [processEvents] once, after frame 30. *)
Definition clip_31 : V1_2.VideoFile :=
  V1_2.mkVideoFile (repeat (Scenario.plain_frame 8 6 Scenario.black) 31) 31
    Scenario.fps_30 8 6.

Definition app : V1_2.App := V1_2.App_init (fun _ => Some clip_31) 640 360.

Definition select : list Act :=
  [Plain (V1_2.Drop "long.mp4");
   Plain (V1_2.MousePress (Scenario.left_click 100 100));
   Plain (V1_2.MouseMove (Scenario.left_click 300 300));
   Plain (V1_2.MouseRelease (Scenario.left_click 300 300))].

(** The user clicks Crop & Save and, while the first 30 frames are
    written, clicks it again. *)
Definition crop_within_crop : Acts :=
  actions (select ++
    [CropDuring "out.mp4"
       (slots [Done; actions [Plain (V1_2.ClickCrop "out2.mp4")]])]).

(** While the frames of a crop are written the user drops another file,
    which is loaded, and clicks Crop & Save, which crops the new file to
    its end; then the first crop goes on. *)
Definition busy_crop : Acts :=
  actions (select ++
    [CropDuring "out.mp4"
       (slots [actions [Plain (V1_2.Resize 800 600)];
               actions [Plain (V1_2.Drop "other.mp4");
                        CropDuring "out2.mp4" (slots [Done; Done])]]);
     Plain (V1_2.Drop "third.mp4")]).

End Reentrant.

(** * Properties *)

Import Py Qt Gui.

(** ** Floats: truncation against rounding *)

Lemma round_half_even_near (m : positive) (e : Z) :
  Z.shiftl (Zpos m) e <= PyFloat.round_half_even m e <= Z.shiftl (Zpos m) e + 1.
Proof.
  unfold PyFloat.round_half_even.
  destruct (0 <=? e) eqn:He; [lia|].
  apply Z.leb_gt in He.
  replace (Z.shiftl (Z.pos m) e) with (Z.shiftr (Z.pos m) (- e))
    by (rewrite <- Z.shiftl_opp_r; f_equal; lia).
  destruct (2 * _ ?= _); [destruct (Z.even _)| |]; lia.
Qed.

Lemma to_int_round_close (x : PyFloat.float) (t r : Z) :
  PyFloat.to_int x = ok t -> PyFloat.round x = ok r -> Z.abs (t - r) <= 1.
Proof.
  destruct x as [s|s| |s m e]; cbn; try discriminate.
  - intros [= <-] [= <-]. lia.
  - intros [= <-] [= <-].
    pose proof (round_half_even_near m e).
    destruct s; cbn; lia.
Qed.

Lemma to_int_round_defined (x : PyFloat.float) (t : Z) :
  PyFloat.to_int x = ok t -> exists r, PyFloat.round x = ok r.
Proof.
  destruct x; cbn; try discriminate; eauto.
Qed.

(** The scaled edge of version 1.2 and that of version 1.1 come from the
    same product. *)
Lemma edge_close (n : Z) (scale : PyFloat.float) (t r : Z) :
  (f <- PyFloat.int_mul n scale ;; PyFloat.to_int f)%py = ok t ->
  (f <- PyFloat.int_mul n scale ;; PyFloat.round f)%py = ok r ->
  Z.abs (t - r) <= 1.
Proof.
  destruct (PyFloat.int_mul n scale) as [e|f]; cbn; [discriminate|].
  apply to_int_round_close.
Qed.

(** ** C1: the two mappings *)

Ltac bind_step :=
  match goal with
  | |- context [Py.bind ?m _] =>
      destruct m eqn:?; cbn [Py.bind];
      try (intros H; discriminate H); try (intros _ H; discriminate H)
  end.

(** C1, as stated, fails: for a 1920x1080 video shown at 1280x720 and the
    selection (1, 1, 10, 10), version 1.1 rounds the scaled corner 1.5 to 2
    and version 1.2 truncates it to 1. *)
Lemma C1_versions_differ :
  V1_1.source_rect 1920 1080 1280 720 (1, 1, 10, 10) = ok (2, 2, 16, 16) /\
  V1_2.source_rect 1920 1080 (1, 1, 10, 10) (1280, 720) = ok (1, 1, 16, 16) /\
  V1_1.source_rect 1920 1080 1280 720 (1, 1, 10, 10)
  <> V1_2.source_rect 1920 1080 (1, 1, 10, 10) (1280, 720).
Proof.
  repeat split; try (vm_compute; reflexivity).
  vm_compute. discriminate.
Qed.

(** C1, amended: for one and the same configuration, every coordinate that
    version 1.2 computes is within one pixel of the coordinate of version
    1.1 clamped into the frame (1.1 rounds the scaled edge to the nearest
    integer, 1.2 truncates it and clamps). *)
Theorem C1_versions_within_one_pixel
    (orig_w orig_h disp_w disp_h : Z) (sel : Z * Z * Z * Z) (r11 r12 : crop_rect) :
  V1_1.source_rect orig_w orig_h disp_w disp_h sel = ok r11 ->
  V1_2.source_rect orig_w orig_h sel (disp_w, disp_h) = ok r12 ->
  Spec.rect_close 1 r12 (Spec.clamp orig_w orig_h r11).
Proof.
  destruct sel as [[[sx sy] sw] sh].
  unfold V1_1.source_rect, V1_2.source_rect.
  repeat bind_step.
  intros [= <-] [= <-]. cbn.
  repeat match goal with
         | T : PyFloat.to_int ?f = inr _, R : PyFloat.round ?f = inr _ |- _ =>
             pose proof (to_int_round_close f _ _ T R); clear T R
         end.
  repeat match goal with
         | E : _ = inr _ |- _ => clear E
         end.
  repeat split; lia.
Qed.

Lemma C1_versions_within_one_pixel_witness :
  Spec.rect_close 1 (1, 1, 16, 16) (Spec.clamp 1920 1080 (2, 2, 16, 16)).
Proof.
  apply (C1_versions_within_one_pixel 1920 1080 1280 720 (1, 1, 10, 10));
    vm_compute; reflexivity.
Defined.

(** ** C2 and C4: truncation of the scaled right edge in version 1.2 *)

(** C2 at the failing input: a 1920x1080 video displayed at 604x340 (the
    widget at its minimum size 640x360) and the selection that covers the
    whole display.  The right edge scales to exactly 1920; version 1.2
    computes 1919, which is no rounding of 1920, because the product
    [604 * (1920 / 604)] is the double just below 1920 and [int] truncates. *)
Theorem C2_v12_right_edge_not_a_rounding :
  V1_2.source_rect 1920 1080 (0, 0, 604, 340) (604, 340) = ok (0, 0, 1919, 1080) /\
  (0 + 604) * 1920 = 1920 * 604 /\
  ~ Spec.is_rounding_of 1919 (0 + 604) 1920 604.
Proof.
  split; [vm_compute; reflexivity|].
  split; [reflexivity|].
  unfold Spec.is_rounding_of. lia.
Qed.

(** Version 1.1 maps the same selection to the whole frame. *)
Lemma v11_full_frame_1920 :
  V1_1.source_rect 1920 1080 604 340 (0, 0, 604, 340) = ok (0, 0, 1920, 1080).
Proof. vm_compute. reflexivity. Qed.

(** For the frame extents 720, 1080, 1280 and 1920 and every display
    extent from 1 to 2048, version 1.1 maps the whole display to the whole
    frame. *)
Lemma v11_whole_picture_survey :
  forallb (fun o => forallb (Scenario.whole11 o) Scenario.display_extents)
    [720; 1080; 1280; 1920] = true.
Proof. vm_compute. reflexivity. Qed.

(** Version 1.2 loses the last column of a frame 1920 pixels wide at 230
    of these 2048 display extents. *)
Lemma v12_whole_picture_survey :
  List.length (filter (fun d => negb (Scenario.whole12 1920 d)) Scenario.display_extents)
  = 230%nat.
Proof. vm_compute. reflexivity. Qed.

(** ** C3: the crop rectangle and the frame *)

(** Version 1.2 keeps the rectangle it crops to inside the frame. *)
Lemma v12_crop_within_frame
    (orig_w orig_h : Z) (rel : Z * Z * Z * Z) (disp : Z * Z) (x0 y0 x2 y2 : Z) :
  V1_2.source_rect orig_w orig_h rel disp = ok (x0, y0, x2, y2) ->
  0 < x2 - x0 -> 0 < y2 - y0 ->
  Spec.within_frame orig_w orig_h (x0, y0, x2, y2).
Proof.
  destruct rel as [[[rx ry] rw] rh], disp as [dw dh].
  unfold V1_2.source_rect.
  repeat bind_step.
  intros [= <- <- <- <-] Hw Hh. cbn. lia.
Qed.

(** C3 at the failing input (version 1.1): a 360x360 video in the label of
    640x360 is drawn at x = 140..499; the user drags from (10, 10) to
    (100, 100), left of the picture.  The selection passes both checks and
    the rectangle handed to moviepy lies outside the frame. *)
Theorem C3_v11_rect_outside_frame :
  fmap V1_1.written (V1_1.crop_and_save Scenario.moviepy "out.mp4" Scenario.left_of_picture)
  = ok [("out.mp4"%string, (-130, 10, -39, 101))] /\
  ~ Spec.within_frame 360 360 (-130, 10, -39, 101).
Proof.
  split; [vm_compute; reflexivity|].
  cbn. lia.
Qed.

(** ** C4: the selection of the whole picture in version 1.2 *)

(** C4 at the failing input: a 256x144 clip is dropped on a widget of
    978x500 and shown at 853x480; the user drags over exactly the displayed
    video rectangle and saves.  The crop is 255 pixels wide, not 256: the
    product [853 * (256 / 853)] is the double just below 256 and [int]
    truncates it. *)
Theorem C4_v12_whole_picture_loses_a_column :
  fmap (fun a => let v := V1_2.video_widget (V1_2.self a) in
                 (V1_2.video_display_rect v,
                  option_map V1_2.selection_rect (V1_2.get_selection_info v),
                  option_map V1_2.relative_pos (V1_2.get_selection_info v),
                  (V1_2.orig_w (V1_2.self a), V1_2.orig_h (V1_2.self a))))
    (V1_2.run Scenario.select_whole_picture (Scenario.app12 978 500))
  = ok (Some (QRect_xywh 62 10 853 480), Some (QRect_xywh 62 10 853 480),
        Some (0, 0, 853, 480), (256, 144)) /\
  V1_2.source_rect 256 144 (0, 0, 853, 480) (853, 480) = ok (0, 0, 255, 144) /\
  fmap (fun a => map V1_2.wr_size (V1_2.outputs a))
    (V1_2.run Scenario.crop_whole_picture (Scenario.app12 978 500))
  = ok [(255, 144)].
Proof.
  repeat split; vm_compute; reflexivity.
Qed.

(** The same at full HD: the widget at its minimum size 640x360 shows a
    1920x1080 picture at 604x340, and the whole picture maps to a crop
    1919 pixels wide. *)
Lemma v12_whole_picture_1920 (img : Frame) :
  let v := V1_2.set_video_frame (mkQPixmap 1920 1080 img) (V1_2.VideoWidget_init 640 360) in
  let v' := V1_2.drag (mkQPoint 18 10) (mkQPoint 621 349) v in
  V1_2.video_display_rect v = Some (QRect_xywh 18 10 604 340) /\
  option_map V1_2.selection_rect (V1_2.get_selection_info v') = Some (QRect_xywh 18 10 604 340) /\
  option_map (fun i => V1_2.source_rect 1920 1080 (V1_2.relative_pos i) (V1_2.display_size i))
    (V1_2.get_selection_info v') = Some (ok (0, 0, 1919, 1080)).
Proof.
  repeat split; vm_compute; reflexivity.
Qed.

(** ** C5: the frames that are written *)

(** C5 at the failing input: a stream of 31 frames whose container reports
    a frame count of 0.  After the 30th frame the progress display divides
    by [self.frame_count]; the [ZeroDivisionError] ends the loop, the
    output holds 30 frames, and neither the capture nor the writer of the
    crop is released. *)
Theorem C5_v12_crop_stops_after_30_frames :
  List.length (V1_2.vf_frames Scenario.stream_31) = 31%nat /\
  fmap (fun a => (map (fun w => List.length (V1_2.wr_frames w)) (V1_2.outputs a),
                  V1_2.gui a, V1_2.cv a))
    (V1_2.run Scenario.crop_stream (Scenario.app12 640 360))
  = ok ([30%nat],
        [MessageBox Critical "Error" "Failed to crop video:"],
        [V1_2.WriterOpened 2; V1_2.CaptureOpened 1; V1_2.CaptureOpened 0]).
Proof.
  split; vm_compute; reflexivity.
Qed.

Lemma crop_loop_complete (frame_count x y width height : Z) (pending : list Frame) :
  forall (frame_idx : Z) (w w' : V1_2.VideoWriter),
  V1_2.crop_loop frame_count x y width height pending frame_idx w = (w', None) ->
  V1_2.wr_frames w' = V1_2.wr_frames w ++ map (V1_2.crop_frame x y width height) pending.
Proof.
  induction pending as [|frame rest IH]; intros frame_idx w w'; cbn.
  - intros [= <-]. now rewrite app_nil_r.
  - destruct ((frame_idx + 1) mod 30 =? 0).
    + destruct (PyFloat.truediv (frame_idx + 1) frame_count); [discriminate|].
      intros H. apply IH in H. rewrite H. cbn. now rewrite <- app_assoc.
    + intros H. apply IH in H. rewrite H. cbn. now rewrite <- app_assoc.
Qed.

(** A loop that ends without exception has written every frame, in order,
    each cropped by the slices. *)
Lemma crop_loop_writes_all (frame_count x y width height : Z) (pending : list Frame)
    (w w' : V1_2.VideoWriter) :
  V1_2.wr_frames w = [] ->
  V1_2.crop_loop frame_count x y width height pending 0 w = (w', None) ->
  V1_2.wr_frames w' = map (V1_2.crop_frame x y width height) pending /\
  List.length (V1_2.wr_frames w') = List.length pending.
Proof.
  intros Hw H. apply crop_loop_complete in H. rewrite Hw in H. cbn in H.
  split; [exact H|]. rewrite H. apply length_map.
Qed.

(** [process_crop] on a file that opens, when the loop ends without
    exception: one output is added, and it holds every frame of the file,
    cropped, in order. *)
Lemma v12_process_crop_output (out path : string) (x y w h : Z) (a : V1_2.App)
    (f : V1_2.VideoFile) (wr : V1_2.VideoWriter) :
  V1_2.video_path (V1_2.self a) = Some path ->
  V1_2.files a path = Some f ->
  V1_2.crop_loop (V1_2.frame_count (V1_2.self a)) x y w h (V1_2.vf_frames f) 0
    (V1_2.mkVideoWriter (S (V1_2.next_id a)) out (V1_2.fps (V1_2.self a)) (w, h) [])
  = (wr, None) ->
  V1_2.outputs (V1_2.process_crop out x y w h a) = V1_2.outputs a ++ [wr] /\
  V1_2.wr_frames wr = map (V1_2.crop_frame x y w h) (V1_2.vf_frames f) /\
  List.length (V1_2.wr_frames wr) = List.length (V1_2.vf_frames f).
Proof.
  intros Hpath Hfile Hloop.
  split.
  - unfold V1_2.process_crop. cbn. rewrite Hpath.
    unfold V1_2.VideoCapture_new, V1_2.VideoWriter_new, V1_2.fresh. cbn.
    rewrite Hfile. cbn. rewrite Hloop. reflexivity.
  - eapply crop_loop_writes_all; [|exact Hloop]. reflexivity.
Qed.

(** A slice within the bounds of the list. *)
Lemma slice_in_range {A} (l : list A) (start stop : Z) :
  0 <= start <= stop -> stop <= Z.of_nat (List.length l) ->
  slice start stop l = firstn (Z.to_nat (stop - start)) (skipn (Z.to_nat start) l).
Proof.
  intros H1 H2. unfold slice, slice_bound.
  destruct (start <? 0) eqn:E1; [apply Z.ltb_lt in E1; lia|].
  destruct (stop <? 0) eqn:E2; [apply Z.ltb_lt in E2; lia|].
  now rewrite !Z.min_l by lia.
Qed.

Lemma slice_length {A} (l : list A) (start stop : Z) :
  0 <= start <= stop -> stop <= Z.of_nat (List.length l) ->
  List.length (slice start stop l) = Z.to_nat (stop - start).
Proof.
  intros H1 H2. rewrite slice_in_range by assumption.
  rewrite length_firstn, length_skipn. lia.
Qed.

Lemma slice_nth {A} (l : list A) (start stop : Z) (i : nat) (d : A) :
  0 <= start <= stop -> stop <= Z.of_nat (List.length l) ->
  Z.of_nat i < stop - start ->
  nth i (slice start stop l) d = nth (Z.to_nat start + i) l d.
Proof.
  intros H1 H2 Hi. rewrite slice_in_range by assumption.
  rewrite nth_firstn, nth_skipn.
  destruct (Nat.ltb_spec i (Z.to_nat (stop - start))); [reflexivity | lia].
Qed.

(** The cropped frame is the frame restricted to the rows [y .. y+height-1]
    and the columns [x .. x+width-1], when these lie within the frame. *)
Lemma crop_frame_pixel (x y width height : Z) (frame : Frame) (i j : nat) (d : pixel) :
  0 <= x -> 0 <= y -> 0 <= width -> 0 <= height ->
  y + height <= frame_height frame ->
  (forall row, In row frame -> x + width <= Z.of_nat (List.length row)) ->
  Z.of_nat i < height -> Z.of_nat j < width ->
  List.length (V1_2.crop_frame x y width height frame) = Z.to_nat height /\
  List.length (nth i (V1_2.crop_frame x y width height frame) []) = Z.to_nat width /\
  nth j (nth i (V1_2.crop_frame x y width height frame) []) d
  = nth (Z.to_nat x + j) (nth (Z.to_nat y + i) frame []) d.
Proof.
  intros Hx Hy Hw Hh Hrows Hcols Hi Hj. unfold frame_height in Hrows.
  unfold V1_2.crop_frame.
  assert (Hrow : nth i (map (slice x (x + width)) (slice y (y + height) frame)) []
                 = slice x (x + width) (nth (Z.to_nat y + i) frame [])).
  { rewrite (nth_indep _ [] (slice x (x + width) []))
      by (rewrite length_map, slice_length; lia).
    rewrite map_nth. f_equal. apply slice_nth; lia. }
  assert (Hin : In (nth (Z.to_nat y + i) frame []) frame).
  { apply nth_In. lia. }
  specialize (Hcols _ Hin).
  split; [|split].
  - rewrite length_map, slice_length by lia. f_equal. lia.
  - rewrite Hrow, slice_length by lia. f_equal. lia.
  - rewrite Hrow. apply slice_nth; lia.
Qed.

(** ** C6: the frame that is rendered after loading *)

(** C6, as stated, fails in version 1.2: "red.mp4" is loaded, then
    "empty.mp4", which opens but yields no frame.  The second load
    succeeds (no error is reported, the path and the buttons are set), and
    the widget keeps the frame of "red.mp4". *)
Lemma C6_v12_stale_frame :
  fmap (fun a => (V1_2.video_path (V1_2.self a), V1_2.crop_btn (V1_2.self a), V1_2.gui a,
                  V1_2.rendered (V1_2.video_widget (V1_2.self a))))
    (V1_2.run Scenario.reload_without_frames (Scenario.app12 640 360))
  = ok (Some "empty.mp4"%string, true, [],
        Some (V1_2.cvtColor_BGR2RGB Scenario.red_frame)) /\
  Some (V1_2.cvtColor_BGR2RGB Scenario.red_frame)
  <> Spec.first_frame_v12 Scenario.no_frames.
Proof.
  split; [vm_compute; reflexivity|].
  cbn. discriminate.
Qed.

(** ** C6, amended: the first frame, when there is one *)

Lemma scaled_picture (p : QPixmap) (w h : Z) :
  0 < pm_width p -> 0 < pm_height p -> 0 < w -> 0 < h ->
  picture_of (Some (scaled p w h)) = Some (pm_image p).
Proof.
  intros Hpw Hph Hw Hh. unfold picture_of, scaled, pixmap_isNull, QSize_isEmpty. cbn.
  destruct (pm_width p <=? 0) eqn:E1; [apply Z.leb_le in E1; lia|].
  destruct (pm_height p <=? 0) eqn:E2; [apply Z.leb_le in E2; lia|].
  destruct (w <? 1) eqn:E3; [apply Z.ltb_lt in E3; lia|].
  destruct (h <? 1) eqn:E4; [apply Z.ltb_lt in E4; lia|].
  cbn.
  set (n := scaled_keep_aspect _ _).
  destruct (Z.max (wd n) 1 <=? 0) eqn:E5; [apply Z.leb_le in E5; lia|].
  destruct (Z.max (ht n) 1 <=? 0) eqn:E6; [apply Z.leb_le in E6; lia|].
  reflexivity.
Qed.

Lemma cvtColor_width (f : Frame) : frame_width (V1_2.cvtColor_BGR2RGB f) = frame_width f.
Proof.
  destruct f as [|row rest]; cbn; [reflexivity|]. now rewrite length_map.
Qed.

Lemma cvtColor_height (f : Frame) : frame_height (V1_2.cvtColor_BGR2RGB f) = frame_height f.
Proof.
  unfold frame_height, V1_2.cvtColor_BGR2RGB. now rewrite length_map.
Qed.

Lemma v12_release_files (c : V1_2.VideoCapture) (a : V1_2.App) :
  V1_2.files (snd (V1_2.release c a)) = V1_2.files a /\
  V1_2.video_widget (V1_2.self (snd (V1_2.release c a))) = V1_2.video_widget (V1_2.self a).
Proof. split; reflexivity. Qed.

(** The widget after [load_video], by what the capture yields. *)
Lemma v12_load_video_widget (path : string) (a : V1_2.App) (f : V1_2.VideoFile) :
  V1_2.files a path = Some f ->
  V1_2.video_widget (V1_2.self (V1_2.load_video path a))
  = match V1_2.vf_frames f with
    | frame :: _ => V1_2.show_frame frame (V1_2.video_widget (V1_2.self a))
    | [] => V1_2.video_widget (V1_2.self a)
    end.
Proof.
  intros Hf. unfold V1_2.load_video.
  set (a1 := match V1_2.cap (V1_2.self a) with
             | Some old => if truth old then snd (V1_2.release old a) else a
             | None => a
             end).
  assert (H1 : V1_2.files a1 = V1_2.files a /\
               V1_2.video_widget (V1_2.self a1) = V1_2.video_widget (V1_2.self a)).
  { subst a1. destruct (V1_2.cap (V1_2.self a)) as [old|]; [|split; reflexivity].
    destruct (truth old); [apply v12_release_files | split; reflexivity]. }
  destruct H1 as [Hfiles Hwidget].
  unfold V1_2.VideoCapture_new, V1_2.fresh. cbn.
  rewrite Hfiles, Hf. cbn.
  destruct (V1_2.vf_frames f) as [|frame rest]; cbn; now rewrite Hwidget.
Qed.

(** C6, amended: after a successful load the widget renders the first frame
    of the video whenever that frame could be read, which is always so in
    version 1.1; in version 1.2 a file that opens but yields no frame
    leaves the frame rendered before in place.  (The widget and the frame
    are not empty: a label of no extent renders nothing.) *)
Theorem C6_first_frame_rendered
    (env : V1_1.Env) (path : string) (a1 : V1_1.App) (c : V1_1.VideoFileClip)
    (a2 : V1_2.App) (f : V1_2.VideoFile) :
  V1_1.open_clip env path = ok c ->
  0 < frame_width (V1_1.get_frame_0 c) /\ 0 < frame_height (V1_1.get_frame_0 c) ->
  0 < V1_1.width (V1_1.video_widget (V1_1.self a1)) /\
  0 < V1_1.height (V1_1.video_widget (V1_1.self a1)) ->
  V1_2.files a2 path = Some f ->
  match hd_error (V1_2.vf_frames f) with
  | Some frame => 0 < frame_width frame /\ 0 < frame_height frame
  | None => True
  end ->
  20 < V1_2.width (V1_2.video_widget (V1_2.self a2)) /\
  20 < V1_2.height (V1_2.video_widget (V1_2.self a2)) ->
  V1_1.rendered (V1_1.video_widget (V1_1.self (V1_1.load_video env path a1)))
  = Some (V1_1.get_frame_0 c) /\
  V1_2.rendered (V1_2.video_widget (V1_2.self (V1_2.load_video path a2)))
  = match V1_2.vf_frames f with
    | frame :: _ => Some (V1_2.cvtColor_BGR2RGB frame)
    | [] => V1_2.rendered (V1_2.video_widget (V1_2.self a2))
    end.
Proof.
  intros Hopen [Hfw Hfh] [Hw Hh] Hfile Hframe [Hw2 Hh2]. split.
  - unfold V1_1.load_video. rewrite Hopen. cbn.
    unfold V1_1.rendered, V1_1.show_frame. cbn.
    apply (scaled_picture (QImage_of_frame (V1_1.get_frame_0 c))); assumption.
  - rewrite (v12_load_video_widget path a2 f Hfile).
    destruct (V1_2.vf_frames f) as [|frame rest]; [reflexivity|].
    cbn in Hframe. destruct Hframe as [Hfw2 Hfh2].
    unfold V1_2.rendered, V1_2.show_frame, V1_2.set_video_frame, V1_2.update_display. cbn.
    apply (scaled_picture (QImage_of_frame (V1_2.cvtColor_BGR2RGB frame))); cbn;
      rewrite ?cvtColor_width, ?cvtColor_height; lia.
Qed.

Lemma C6_first_frame_rendered_witness :
  V1_1.rendered
    (V1_1.video_widget (V1_1.self (V1_1.load_video Scenario.moviepy "square.mp4" Scenario.app11)))
  = Some (V1_1.get_frame_0 Scenario.square_clip) /\
  V1_2.rendered
    (V1_2.video_widget
       (V1_2.self (V1_2.load_video "square.mp4"
                     (V1_2.App_init (fun _ => Some Scenario.one_red_frame) 640 360))))
  = match V1_2.vf_frames Scenario.one_red_frame with
    | frame :: _ => Some (V1_2.cvtColor_BGR2RGB frame)
    | [] => V1_2.rendered
              (V1_2.video_widget
                 (V1_2.self (V1_2.App_init (fun _ => Some Scenario.one_red_frame) 640 360)))
    end.
Proof.
  apply (C6_first_frame_rendered Scenario.moviepy "square.mp4" Scenario.app11
           Scenario.square_clip
           (V1_2.App_init (fun _ => Some Scenario.one_red_frame) 640 360)
           Scenario.one_red_frame).
  - reflexivity.
  - vm_compute. split; reflexivity.
  - vm_compute. split; reflexivity.
  - reflexivity.
  - vm_compute. split; reflexivity.
  - vm_compute. split; reflexivity.
Defined.

(** ** C7: the OpenCV handles *)

(** C7, as stated, fails: while version 1.2 crops, the capture held by the
    window and the capture that [process_crop] opens are open together. *)
Lemma C7_two_captures_open :
  fmap (fun a => (V1_2.cv a, V1_2.max_open_captures (V1_2.cv a)))
    (V1_2.run Scenario.crop_whole_picture (Scenario.app12 978 500))
  = ok ([V1_2.WriterReleased 2; V1_2.CaptureReleased 1;
         V1_2.WriterOpened 2; V1_2.CaptureOpened 1; V1_2.CaptureOpened 0], 2%nat) /\
  ~ Spec.single_capture
      [V1_2.WriterReleased 2; V1_2.CaptureReleased 1;
       V1_2.WriterOpened 2; V1_2.CaptureOpened 1; V1_2.CaptureOpened 0].
Proof.
  split; [vm_compute; reflexivity|].
  unfold Spec.single_capture. cbn. lia.
Qed.

(** Nor are two captures a bound.  [process_crop] hands the pending user
    actions to their handlers after every 30th frame, with the buttons
    enabled: when Crop & Save is clicked while a crop of 31 frames runs,
    the second crop opens its capture while the capture of the window and
    that of the first crop are open. *)
Lemma v12_crop_within_crop_three_captures :
  fmap (fun a => (V1_2.cv a, V1_2.max_open_captures (V1_2.cv a)))
    (Reentrant.run Reentrant.crop_within_crop Reentrant.app)
  = ok ([V1_2.WriterReleased 2; V1_2.CaptureReleased 1;
         V1_2.WriterReleased 4; V1_2.CaptureReleased 3;
         V1_2.WriterOpened 4; V1_2.CaptureOpened 3;
         V1_2.WriterOpened 2; V1_2.CaptureOpened 1; V1_2.CaptureOpened 0], 3%nat).
Proof.
  vm_compute. reflexivity.
Qed.

(** ** C7, amended: the handles of a session *)

Lemma occurrences_cons (e e' : V1_2.cv_event) (t : list V1_2.cv_event) :
  V1_2.occurrences e (e' :: t)
  = ((if V1_2.cv_event_eqb e e' then 1 else 0) + V1_2.occurrences e t)%nat.
Proof.
  unfold V1_2.occurrences. cbn. destruct (V1_2.cv_event_eqb e e'); reflexivity.
Qed.

Lemma cv_event_eqb_id (e e' : V1_2.cv_event) :
  V1_2.cv_event_eqb e e' = true -> V1_2.event_id e = V1_2.event_id e'.
Proof.
  destruct e, e'; cbn; try discriminate; apply Nat.eqb_eq.
Qed.

Lemma occurrences_fresh (e : V1_2.cv_event) (t : list V1_2.cv_event) (n : nat) :
  (forall e', In e' t -> (V1_2.event_id e' < n)%nat) ->
  (n <= V1_2.event_id e)%nat ->
  V1_2.occurrences e t = 0%nat.
Proof.
  intros Hfresh Hn. induction t as [|e' t IH]; [reflexivity|].
  rewrite occurrences_cons, IH by (intros; apply Hfresh; now right).
  destruct (V1_2.cv_event_eqb e e') eqn:E; [|reflexivity].
  apply cv_event_eqb_id in E. specialize (Hfresh e' (or_introl eq_refl)). lia.
Qed.

Lemma open_captures_opened (t : list V1_2.cv_event) (id : nat) :
  In id (V1_2.open_captures t) -> In (V1_2.CaptureOpened id) t.
Proof.
  induction t as [|e t IH]; cbn; [tauto|].
  destruct e as [i|i|i|i]; cbn.
  - intros [->|H]; auto.
  - unfold V1_2.remove_id. rewrite filter_In. intros [H _]. auto.
  - auto.
  - auto.
Qed.

Ltac occ := rewrite ?occurrences_cons; cbn [V1_2.cv_event_eqb Nat.add].

(** What [load_video] does to the handles: the capture of the window is
    released first, then the new one is opened and kept, or it does not
    open, is released and dropped. *)
Lemma v12_load_video_handles (path : string) (a : V1_2.App) :
  let a' := V1_2.load_video path a in
  let t1 := match V1_2.held_id a with
            | Some i => V1_2.CaptureReleased i :: V1_2.cv a
            | None => V1_2.cv a
            end in
  V1_2.next_id a' = S (V1_2.next_id a) /\
  (exists l, V1_2.gui a' = V1_2.gui a ++ l) /\
  ((V1_2.held_id a' = Some (V1_2.next_id a) /\
    V1_2.cv a' = V1_2.CaptureOpened (V1_2.next_id a) :: t1 /\
    exists f, V1_2.files a path = Some f) \/
   (V1_2.held_id a' = None /\
    V1_2.cv a' = V1_2.CaptureReleased (V1_2.next_id a) :: t1 /\
    V1_2.files a path = None)).
Proof.
  unfold V1_2.load_video, V1_2.held_id.
  destruct (V1_2.cap (V1_2.self a)) as [old|]; cbn;
    unfold V1_2.VideoCapture_new, V1_2.fresh; cbn;
    destruct (V1_2.files a path) as [f|]; cbn.
  - destruct (V1_2.vf_frames f); cbn;
      (split; [reflexivity|]; split; [exists []; now rewrite app_nil_r|]; left; eauto).
  - split; [reflexivity|]. split; [eexists; reflexivity|]. right. auto.
  - destruct (V1_2.vf_frames f); cbn;
      (split; [reflexivity|]; split; [exists []; now rewrite app_nil_r|]; left; eauto).
  - split; [reflexivity|]. split; [eexists; reflexivity|]. right. auto.
Qed.

Lemma crop_loop_wr_id (frame_count x y width height : Z) (pending : list Frame) :
  forall (frame_idx : Z) (w : V1_2.VideoWriter),
  V1_2.wr_id (fst (V1_2.crop_loop frame_count x y width height pending frame_idx w))
  = V1_2.wr_id w.
Proof.
  induction pending as [|frame rest IH]; intros frame_idx w; cbn; [reflexivity|].
  destruct (_ =? 0); [destruct (PyFloat.truediv _ _)|]; cbn; try reflexivity;
    now rewrite IH.
Qed.

Lemma v12_process_crop_handles (out : string) (x y w h : Z) (a : V1_2.App) :
  let a' := V1_2.process_crop out x y w h a in
  V1_2.held_id a' = V1_2.held_id a /\
  (exists l, V1_2.gui a' = V1_2.gui a ++ l) /\
  (In V1_2.crop_failed (V1_2.gui a') \/
   exists opened,
     V1_2.cv a' = V1_2.crop_events opened (V1_2.next_id a) (V1_2.cv a) /\
     V1_2.next_id a' = S (S (V1_2.next_id a))).
Proof.
  unfold V1_2.process_crop, V1_2.held_id. cbn.
  destruct (V1_2.video_path (V1_2.self a)) as [path|]; cbn.
  2:{ split; [reflexivity|]. split; [eexists; reflexivity|].
      left. apply in_or_app. right. now left. }
  unfold V1_2.VideoCapture_new, V1_2.VideoWriter_new, V1_2.fresh. cbn.
  destruct (V1_2.files a path) as [f|]; cbn.
  - match goal with
    | |- context [V1_2.crop_loop ?c ?x ?y ?w ?h ?p ?i ?o] =>
        pose proof (crop_loop_wr_id c x y w h p i o) as Hid;
        destruct (V1_2.crop_loop c x y w h p i o) as [wr [e|]]
    end; cbn in Hid |- *.
    + split; [reflexivity|]. split; [eexists; reflexivity|].
      left. apply in_or_app. right. now left.
    + split; [reflexivity|]. split; [eexists; reflexivity|].
      right. exists true. rewrite Hid. split; reflexivity.
  - split; [reflexivity|]. split; [eexists; reflexivity|].
    right. exists false. split; reflexivity.
Qed.

Lemma v12_crop_and_save_handles (out : string) (a a' : V1_2.App) :
  V1_2.crop_and_save out a = ok a' ->
  V1_2.held_id a' = V1_2.held_id a /\
  (exists l, V1_2.gui a' = V1_2.gui a ++ l) /\
  (In V1_2.crop_failed (V1_2.gui a') \/
   (V1_2.cv a' = V1_2.cv a /\ V1_2.next_id a' = V1_2.next_id a) \/
   exists opened,
     V1_2.cv a' = V1_2.crop_events opened (V1_2.next_id a) (V1_2.cv a) /\
     V1_2.next_id a' = S (S (V1_2.next_id a))).
Proof.
  unfold V1_2.crop_and_save.
  destruct (negb (truth (V1_2.cap (V1_2.self a)))).
  { intros [= <-]. split; [reflexivity|]. split; [eexists; reflexivity|]. auto. }
  destruct (V1_2.get_selection_info _) as [info|].
  2:{ intros [= <-]. split; [reflexivity|]. split; [eexists; reflexivity|]. auto. }
  destruct (V1_2.source_rect _ _ _ _) as [e|[[[x0 y0] x2] y2]]; cbn; [discriminate|].
  destruct (_ || _).
  { intros [= <-]. split; [reflexivity|]. split; [eexists; reflexivity|]. auto. }
  destruct (negb (truth out)).
  { intros [= <-]. split; [reflexivity|].
    split; [exists []; now rewrite app_nil_r|]. auto. }
  intros [= <-].
  destruct (v12_process_crop_handles out x0 y0 (x2 - x0) (y2 - y0) a) as [H1 [H2 H3]].
  split; [exact H1|]. split; [exact H2|]. tauto.
Qed.

Lemma v12_closeEvent_cv (a : V1_2.App) :
  V1_2.cv (V1_2.closeEvent a)
  = match V1_2.held_id a with
    | Some i => V1_2.CaptureReleased i :: V1_2.cv a
    | None => V1_2.cv a
    end.
Proof.
  unfold V1_2.closeEvent, V1_2.held_id.
  destruct (V1_2.cap (V1_2.self a)); reflexivity.
Qed.

(** *** Lists of open handles *)

Lemma open_writers_opened (t : list V1_2.cv_event) (id : nat) :
  In id (V1_2.open_writers t) -> In (V1_2.WriterOpened id) t.
Proof.
  induction t as [|e t IH]; cbn; [tauto|].
  destruct e as [i|i|i|i]; cbn.
  - auto.
  - auto.
  - intros [->|H]; auto.
  - unfold V1_2.remove_id. rewrite filter_In. intros [H _]. auto.
Qed.

Lemma remove_id_In (id i : nat) (l : list nat) :
  In id (V1_2.remove_id i l) <-> In id l /\ id <> i.
Proof.
  unfold V1_2.remove_id. rewrite filter_In, negb_true_iff, Nat.eqb_neq. tauto.
Qed.

Lemma remove_id_cons (i j : nat) (l : list nat) :
  V1_2.remove_id i (j :: l)
  = if Nat.eqb j i then V1_2.remove_id i l else j :: V1_2.remove_id i l.
Proof.
  unfold V1_2.remove_id. cbn. destruct (Nat.eqb j i); reflexivity.
Qed.

Lemma remove_id_absent (i : nat) (l : list nat) :
  ~ In i l -> V1_2.remove_id i l = l.
Proof.
  induction l as [|j l IH]; intros H; [reflexivity|].
  rewrite remove_id_cons. destruct (Nat.eqb j i) eqn:E.
  - apply Nat.eqb_eq in E. subst j. exfalso. apply H. now left.
  - f_equal. apply IH. intros Hin. apply H. now right.
Qed.

Lemma remove_id_comm (i j : nat) (l : list nat) :
  V1_2.remove_id i (V1_2.remove_id j l) = V1_2.remove_id j (V1_2.remove_id i l).
Proof.
  unfold V1_2.remove_id. induction l as [|k l IH]; cbn; [reflexivity|].
  destruct (Nat.eqb k j) eqn:Ej, (Nat.eqb k i) eqn:Ei; cbn;
    rewrite ?Ej, ?Ei; cbn; rewrite ?IH; reflexivity.
Qed.

Lemma remove_id_NoDup (i : nat) (l : list nat) :
  NoDup l -> NoDup (V1_2.remove_id i l).
Proof.
  induction 1 as [|j l Hj Hl IH]; [constructor|].
  rewrite remove_id_cons. destruct (Nat.eqb j i); [exact IH|].
  constructor; [|exact IH]. rewrite remove_id_In. tauto.
Qed.

Lemma remove_id_shorter (i : nat) (l : list nat) :
  (List.length (V1_2.remove_id i l) <= List.length l)%nat.
Proof.
  induction l as [|j l IH]; [cbn; lia|].
  rewrite remove_id_cons. destruct (Nat.eqb j i); cbn [List.length]; lia.
Qed.

(** Removing one id from a list without repetition drops at most one
    element. *)
Lemma remove_id_length (i : nat) (l : list nat) :
  NoDup l -> (List.length l <= S (List.length (V1_2.remove_id i l)))%nat.
Proof.
  induction 1 as [|j l Hj Hl IH]; [cbn; lia|].
  rewrite remove_id_cons. destruct (Nat.eqb j i) eqn:E; cbn [List.length]; [|lia].
  apply Nat.eqb_eq in E. subst j. rewrite remove_id_absent by exact Hj. lia.
Qed.

Lemma remove_id_only (i : nat) (l : list nat) :
  NoDup l -> In i l -> V1_2.remove_id i l = [] -> l = [i].
Proof.
  intros Hnd Hin Hnil.
  destruct l as [|j l]; [destruct Hin|].
  assert (Hall : forall k, In k (j :: l) -> k = i).
  { intros k Hk. destruct (Nat.eq_dec k i) as [E|E]; [exact E|].
    assert (H : In k (V1_2.remove_id i (j :: l))) by (apply remove_id_In; auto).
    rewrite Hnil in H. destruct H. }
  assert (Hj : j = i) by (apply Hall; now left). subst j.
  destruct l as [|k l]; [reflexivity|].
  exfalso. inversion Hnd as [|? ? Hni _]. apply Hni.
  left. apply Hall. right. now left.
Qed.

Lemma open_le_max (t : list V1_2.cv_event) :
  (List.length (V1_2.open_captures t) <= V1_2.max_open_captures t)%nat.
Proof.
  destruct t; cbn [V1_2.max_open_captures]; [cbn|]; lia.
Qed.

Lemma others_of_open (held : option nat) (t : list V1_2.cv_event) (id : nat) :
  In id (Reentrant.others_of held t) -> In id (V1_2.open_captures t).
Proof.
  destruct held as [i|]; cbn; [|auto]. rewrite remove_id_In. tauto.
Qed.

Lemma others_of_length (held : option nat) (t : list V1_2.cv_event) :
  NoDup (V1_2.open_captures t) ->
  (List.length (V1_2.open_captures t) <= S (List.length (Reentrant.others_of held t)))%nat.
Proof.
  intros H. destruct held as [i|]; cbn; [now apply remove_id_length|lia].
Qed.

(** *** Events that keep the handles in order *)

Lemma handles_wf_init : Reentrant.handles_wf [] 0.
Proof.
  constructor; cbn; try tauto; try constructor; cbn; lia.
Qed.

Lemma handles_wf_weaken (t : list V1_2.cv_event) (n n' : nat) :
  Reentrant.handles_wf t n -> (n <= n')%nat -> Reentrant.handles_wf t n'.
Proof.
  intros [Hf Hc Hw Hco Hcc Hwo Hwc Honce] Hn. constructor; auto.
  intros e He. specialize (Hf e He). lia.
Qed.

Lemma handles_wf_capture_fresh (t : list V1_2.cv_event) (n id : nat) :
  Reentrant.handles_wf t n -> In id (V1_2.open_captures t) -> (id < n)%nat.
Proof.
  intros H Hin. apply open_captures_opened in Hin.
  apply (Reentrant.wf_fresh _ _ H _ Hin).
Qed.

Lemma handles_wf_writer_fresh (t : list V1_2.cv_event) (n id : nat) :
  Reentrant.handles_wf t n -> In id (V1_2.open_writers t) -> (id < n)%nat.
Proof.
  intros H Hin. apply open_writers_opened in Hin.
  apply (Reentrant.wf_fresh _ _ H _ Hin).
Qed.

(** A capture opens under a new id. *)
Lemma handles_wf_open_capture (t : list V1_2.cv_event) (n : nat) :
  Reentrant.handles_wf t n ->
  Reentrant.handles_wf (V1_2.CaptureOpened n :: t) (S n).
Proof.
  intros Hwf.
  assert (Hn : ~ In n (V1_2.open_captures t)).
  { intros H. apply (handles_wf_capture_fresh _ _ _ Hwf) in H. lia. }
  destruct Hwf as [Hf Hc Hw Hco Hcc Hwo Hwc Honce].
  constructor.
  - intros e [<-|H]; cbn; [lia|]. specialize (Hf e H). lia.
  - cbn. constructor; assumption.
  - exact Hw.
  - intros id. cbn [V1_2.open_captures]. intros [<-|H]; occ.
    + apply (occurrences_fresh _ t n); cbn; auto.
    + auto.
  - intros id [H|H] Hnot.
    + injection H as <-. exfalso. apply Hnot. now left.
    + occ. apply Hcc; [exact H|]. intros Hin. apply Hnot. now right.
  - intros id H. occ. apply Hwo. exact H.
  - intros id [H|H] Hnot; [discriminate|]. occ. apply Hwc; assumption.
  - intros id. occ. apply Honce.
Qed.

(** An open capture is released. *)
Lemma handles_wf_release_capture (t : list V1_2.cv_event) (n i : nat) :
  Reentrant.handles_wf t n -> In i (V1_2.open_captures t) ->
  Reentrant.handles_wf (V1_2.CaptureReleased i :: t) n.
Proof.
  intros Hwf Hi.
  pose proof (handles_wf_capture_fresh _ _ _ Hwf Hi) as Hlt.
  destruct Hwf as [Hf Hc Hw Hco Hcc Hwo Hwc Honce].
  pose proof (Hco i Hi) as Hi0.
  constructor.
  - intros e [<-|H]; cbn; [exact Hlt|]. auto.
  - cbn. now apply remove_id_NoDup.
  - exact Hw.
  - intros id. cbn [V1_2.open_captures]. rewrite remove_id_In. intros [H Hne]. occ.
    replace (Nat.eqb id i) with false by (symmetry; now apply Nat.eqb_neq).
    apply Hco. exact H.
  - intros id [H|H] Hnot; [discriminate|]. cbn [V1_2.open_captures] in Hnot.
    rewrite remove_id_In in Hnot. occ.
    destruct (Nat.eqb id i) eqn:E.
    + apply Nat.eqb_eq in E. subst id. now rewrite Hi0.
    + apply Nat.eqb_neq in E. apply Hcc; [exact H|]. tauto.
  - intros id H. occ. apply Hwo. exact H.
  - intros id [H|H] Hnot; [discriminate|]. occ. apply Hwc; assumption.
  - intros id. occ. destruct (Honce id) as [H1 H2]. split; [|exact H2].
    destruct (Nat.eqb id i) eqn:E; [|exact H1].
    apply Nat.eqb_eq in E. subst id. rewrite Hi0. lia.
Qed.

(** [release()] on a capture that did not open: it has an id, no event. *)
Lemma handles_wf_release_unopened (t : list V1_2.cv_event) (n i : nat) :
  Reentrant.handles_wf t n -> (i < n)%nat ->
  ~ In (V1_2.CaptureOpened i) t ->
  V1_2.occurrences (V1_2.CaptureReleased i) t = 0%nat ->
  Reentrant.handles_wf (V1_2.CaptureReleased i :: t) n.
Proof.
  intros [Hf Hc Hw Hco Hcc Hwo Hwc Honce] Hlt Hno Hi0.
  assert (Hni : ~ In i (V1_2.open_captures t)).
  { intros H. apply Hno. now apply open_captures_opened. }
  constructor.
  - intros e [<-|H]; cbn; [exact Hlt|]. auto.
  - cbn. now apply remove_id_NoDup.
  - exact Hw.
  - intros id. cbn [V1_2.open_captures]. rewrite remove_id_In. intros [H Hne]. occ.
    replace (Nat.eqb id i) with false by (symmetry; now apply Nat.eqb_neq).
    apply Hco. exact H.
  - intros id [H|H] Hnot; [discriminate|]. cbn [V1_2.open_captures] in Hnot.
    rewrite remove_id_In in Hnot. occ.
    destruct (Nat.eqb id i) eqn:E.
    + apply Nat.eqb_eq in E. subst id. contradiction.
    + apply Nat.eqb_neq in E. apply Hcc; [exact H|]. tauto.
  - intros id H. occ. apply Hwo. exact H.
  - intros id [H|H] Hnot; [discriminate|]. occ. apply Hwc; assumption.
  - intros id. occ. destruct (Honce id) as [H1 H2]. split; [|exact H2].
    destruct (Nat.eqb id i) eqn:E; [|exact H1].
    apply Nat.eqb_eq in E. subst id. rewrite Hi0. lia.
Qed.

(** A writer opens under a new id. *)
Lemma handles_wf_open_writer (t : list V1_2.cv_event) (n : nat) :
  Reentrant.handles_wf t n ->
  Reentrant.handles_wf (V1_2.WriterOpened n :: t) (S n).
Proof.
  intros Hwf.
  assert (Hn : ~ In n (V1_2.open_writers t)).
  { intros H. apply (handles_wf_writer_fresh _ _ _ Hwf) in H. lia. }
  destruct Hwf as [Hf Hc Hw Hco Hcc Hwo Hwc Honce].
  constructor.
  - intros e [<-|H]; cbn; [lia|]. specialize (Hf e H). lia.
  - exact Hc.
  - cbn. constructor; assumption.
  - intros id H. occ. apply Hco. exact H.
  - intros id [H|H] Hnot; [discriminate|]. occ. apply Hcc; assumption.
  - intros id. cbn [V1_2.open_writers]. intros [<-|H]; occ.
    + apply (occurrences_fresh _ t n); cbn; auto.
    + auto.
  - intros id [H|H] Hnot.
    + injection H as <-. exfalso. apply Hnot. now left.
    + occ. apply Hwc; [exact H|]. intros Hin. apply Hnot. now right.
  - intros id. occ. apply Honce.
Qed.

(** An open writer is released. *)
Lemma handles_wf_release_writer (t : list V1_2.cv_event) (n i : nat) :
  Reentrant.handles_wf t n -> In i (V1_2.open_writers t) ->
  Reentrant.handles_wf (V1_2.WriterReleased i :: t) n.
Proof.
  intros Hwf Hi.
  pose proof (handles_wf_writer_fresh _ _ _ Hwf Hi) as Hlt.
  destruct Hwf as [Hf Hc Hw Hco Hcc Hwo Hwc Honce].
  pose proof (Hwo i Hi) as Hi0.
  constructor.
  - intros e [<-|H]; cbn; [exact Hlt|]. auto.
  - exact Hc.
  - cbn. now apply remove_id_NoDup.
  - intros id H. occ. apply Hco. exact H.
  - intros id [H|H] Hnot; [discriminate|]. occ. apply Hcc; assumption.
  - intros id. cbn [V1_2.open_writers]. rewrite remove_id_In. intros [H Hne]. occ.
    replace (Nat.eqb id i) with false by (symmetry; now apply Nat.eqb_neq).
    apply Hwo. exact H.
  - intros id [H|H] Hnot; [discriminate|]. cbn [V1_2.open_writers] in Hnot.
    rewrite remove_id_In in Hnot. occ.
    destruct (Nat.eqb id i) eqn:E.
    + apply Nat.eqb_eq in E. subst id. now rewrite Hi0.
    + apply Nat.eqb_neq in E. apply Hwc; [exact H|]. tauto.
  - intros id. occ. destruct (Honce id) as [H1 H2]. split; [exact H1|].
    destruct (Nat.eqb id i) eqn:E; [|exact H2].
    apply Nat.eqb_eq in E. subst id. rewrite Hi0. lia.
Qed.

(** *** Steps that keep the order *)

Lemma kept_refl (d : nat) (held : option nat) (t : list V1_2.cv_event) (n : nat) :
  Reentrant.ordered held t n -> Reentrant.kept d held t n held t n.
Proof.
  intros H. unfold Reentrant.kept. repeat split; try apply H; lia.
Qed.

Lemma kept_trans (d1 d2 : nat) (h0 h1 h2 : option nat) (t0 t1 t2 : list V1_2.cv_event)
    (n0 n1 n2 : nat) :
  Reentrant.kept d1 h0 t0 n0 h1 t1 n1 ->
  Reentrant.kept d2 h1 t1 n1 h2 t2 n2 ->
  Reentrant.kept (Nat.max d1 d2) h0 t0 n0 h2 t2 n2.
Proof.
  intros [_ [Ho1 [Hw1 [Hn1 Hm1]]]] [Hord [Ho2 [Hw2 [Hn2 Hm2]]]].
  rewrite Ho1 in Hm2.
  unfold Reentrant.kept. split; [exact Hord|].
  split; [congruence|]. split; [congruence|]. split; lia.
Qed.

Lemma kept_weaken (d d' : nat) (h0 h1 : option nat) (t0 t1 : list V1_2.cv_event)
    (n0 n1 : nat) :
  (d <= d')%nat ->
  Reentrant.kept d h0 t0 n0 h1 t1 n1 -> Reentrant.kept d' h0 t0 n0 h1 t1 n1.
Proof.
  intros Hd [Hord [Ho [Hw [Hn Hm]]]].
  unfold Reentrant.kept. repeat split; try apply Hord; try assumption. lia.
Qed.

(** [self.cap.release()] in [load_video] and in [closeEvent]. *)
Lemma ordered_release_held (held : option nat) (t : list V1_2.cv_event) (n : nat) :
  Reentrant.ordered held t n ->
  let t1 := match held with
            | Some i => V1_2.CaptureReleased i :: t
            | None => t
            end in
  Reentrant.handles_wf t1 n /\
  V1_2.open_captures t1 = Reentrant.others_of held t /\
  V1_2.open_writers t1 = V1_2.open_writers t /\
  (V1_2.max_open_captures t1 <= V1_2.max_open_captures t)%nat.
Proof.
  intros [Hwf Hheld]. destruct held as [i|]; cbn zeta.
  - split; [apply handles_wf_release_capture; auto|].
    split; [reflexivity|]. split; [reflexivity|].
    cbn [V1_2.max_open_captures V1_2.open_captures].
    pose proof (remove_id_shorter i (V1_2.open_captures t)).
    pose proof (open_le_max t). lia.
  - split; [exact Hwf|]. split; [reflexivity|]. split; [reflexivity|]. lia.
Qed.

(** [load_video] when the file opens. *)
Lemma kept_load_opened (held : option nat) (t : list V1_2.cv_event) (n : nat) :
  Reentrant.ordered held t n ->
  Reentrant.kept 0 held t n (Some n)
    (V1_2.CaptureOpened n ::
       match held with Some i => V1_2.CaptureReleased i :: t | None => t end) (S n).
Proof.
  intros Hord. destruct (ordered_release_held held t n Hord) as [Hwf [Ho [Hw Hm]]].
  set (t1 := match held with Some i => V1_2.CaptureReleased i :: t | None => t end) in *.
  assert (Habs : ~ In n (V1_2.open_captures t1)).
  { intros H. apply (handles_wf_capture_fresh _ _ _ Hwf) in H. lia. }
  unfold Reentrant.kept, Reentrant.ordered.
  split; [split|].
  - now apply handles_wf_open_capture.
  - intros i [= <-]. cbn. now left.
  - split.
    { cbn [Reentrant.others_of V1_2.open_captures].
      rewrite remove_id_cons, Nat.eqb_refl, remove_id_absent by exact Habs. exact Ho. }
    split; [exact Hw|]. split; [lia|].
    cbn [V1_2.max_open_captures V1_2.open_captures List.length]. rewrite Ho. lia.
Qed.

(** [load_video] when the file does not open: the new capture is
    released and dropped. *)
Lemma kept_load_failed (held : option nat) (t : list V1_2.cv_event) (n : nat) :
  Reentrant.ordered held t n ->
  Reentrant.kept 0 held t n None
    (V1_2.CaptureReleased n ::
       match held with Some i => V1_2.CaptureReleased i :: t | None => t end) (S n).
Proof.
  intros Hord. destruct (ordered_release_held held t n Hord) as [Hwf [Ho [Hw Hm]]].
  set (t1 := match held with Some i => V1_2.CaptureReleased i :: t | None => t end) in *.
  assert (Habs : ~ In n (V1_2.open_captures t1)).
  { intros H. apply (handles_wf_capture_fresh _ _ _ Hwf) in H. lia. }
  unfold Reentrant.kept, Reentrant.ordered.
  split; [split|].
  - apply handles_wf_release_unopened.
    + apply (handles_wf_weaken _ n); [exact Hwf|lia].
    + lia.
    + intros H. apply (Reentrant.wf_fresh _ _ Hwf) in H. cbn in H. lia.
    + apply (occurrences_fresh _ t1 n); [apply Hwf|cbn; lia].
  - discriminate.
  - split.
    { cbn [Reentrant.others_of V1_2.open_captures].
      rewrite remove_id_absent by exact Habs. exact Ho. }
    split; [exact Hw|]. split; [lia|].
    cbn [V1_2.max_open_captures V1_2.open_captures].
    rewrite remove_id_absent by exact Habs. rewrite Ho. lia.
Qed.

(** [process_crop] opens its capture and its writer. *)
Lemma ordered_crop_start (held : option nat) (t : list V1_2.cv_event) (n : nat) :
  Reentrant.ordered held t n ->
  let t2 := V1_2.WriterOpened (S n) :: V1_2.CaptureOpened n :: t in
  Reentrant.ordered held t2 (S (S n)) /\
  Reentrant.others_of held t2 = n :: Reentrant.others_of held t /\
  V1_2.open_writers t2 = S n :: V1_2.open_writers t /\
  (V1_2.max_open_captures t2
   <= Nat.max (V1_2.max_open_captures t)
        (List.length (Reentrant.others_of held t) + 2))%nat.
Proof.
  intros [Hwf Hheld]. cbn zeta.
  split; [split|].
  - apply handles_wf_open_writer. now apply handles_wf_open_capture.
  - intros i Hi. cbn. right. auto.
  - split.
    { destruct held as [i|]; cbn [Reentrant.others_of V1_2.open_captures]; [|reflexivity].
      rewrite remove_id_cons.
      pose proof (handles_wf_capture_fresh _ _ _ Hwf (Hheld i eq_refl)) as Hlt.
      replace (Nat.eqb n i) with false by (symmetry; apply Nat.eqb_neq; lia).
      reflexivity. }
    split; [reflexivity|].
    cbn [V1_2.max_open_captures V1_2.open_captures List.length].
    pose proof (others_of_length held t (Reentrant.wf_captures _ _ Hwf)). lia.
Qed.

(** [process_crop] releases its capture and its writer, after whatever
    was handled in between kept the order. *)
Lemma kept_crop_end (d : nat) (held : option nat) (t : list V1_2.cv_event) (n : nat)
    (held3 : option nat) (t3 : list V1_2.cv_event) (n3 : nat) :
  Reentrant.ordered held t n ->
  Reentrant.kept d held (V1_2.WriterOpened (S n) :: V1_2.CaptureOpened n :: t) (S (S n))
    held3 t3 n3 ->
  Reentrant.kept (S d) held t n held3
    (V1_2.WriterReleased (S n) :: V1_2.CaptureReleased n :: t3) n3.
Proof.
  intros Hord [[Hwf3 Hheld3] [Ho3 [Hw3 [Hn3 Hm3]]]].
  destruct (ordered_crop_start held t n Hord) as [_ [Ho2 [Hw2 Hm2]]].
  cbn zeta in Ho2, Hw2, Hm2. rewrite Ho2 in Ho3, Hm3. rewrite Hw2 in Hw3.
  destruct Hord as [Hwf Hheld].
  assert (Hn : In n (V1_2.open_captures t3)).
  { apply (others_of_open held3). rewrite Ho3. now left. }
  assert (Habs : ~ In n (Reentrant.others_of held t)).
  { intros H. apply others_of_open in H.
    apply (handles_wf_capture_fresh _ _ _ Hwf) in H. lia. }
  assert (Hwabs : ~ In (S n) (V1_2.open_writers t)).
  { intros H. apply (handles_wf_writer_fresh _ _ _ Hwf) in H. lia. }
  unfold Reentrant.kept, Reentrant.ordered.
  split; [split|].
  - apply handles_wf_release_writer; [now apply handles_wf_release_capture|].
    cbn [V1_2.open_writers]. rewrite Hw3. now left.
  - intros i ->. cbn [V1_2.open_captures]. apply remove_id_In.
    split; [now apply Hheld3|].
    intros ->. cbn [Reentrant.others_of] in Ho3.
    assert (H : In n (V1_2.remove_id n (V1_2.open_captures t3)))
      by (rewrite Ho3; now left).
    apply remove_id_In in H. tauto.
  - split.
    { transitivity (V1_2.remove_id n (Reentrant.others_of held3 t3)).
      - destruct held3 as [i|]; cbn [Reentrant.others_of V1_2.open_captures];
          [apply remove_id_comm|reflexivity].
      - rewrite Ho3, remove_id_cons, Nat.eqb_refl. now apply remove_id_absent. }
    split.
    { cbn [V1_2.open_writers]. rewrite Hw3, remove_id_cons, Nat.eqb_refl.
      now apply remove_id_absent. }
    split; [lia|].
    cbn [V1_2.max_open_captures V1_2.open_captures].
    pose proof (remove_id_shorter n (V1_2.open_captures t3)).
    pose proof (open_le_max t3).
    cbn [List.length] in Hm3. lia.
Qed.

(** A crop whose capture does not open: no frame is read, the capture is
    released all the same. *)
Lemma kept_crop_unopened (held : option nat) (t : list V1_2.cv_event) (n : nat) :
  Reentrant.ordered held t n ->
  Reentrant.kept 1 held t n held (V1_2.crop_events false n t) (S (S n)).
Proof.
  intros [Hwf Hheld]. unfold V1_2.crop_events. cbn [app].
  assert (Habs : ~ In n (V1_2.open_captures t)).
  { intros H. apply (handles_wf_capture_fresh _ _ _ Hwf) in H. lia. }
  assert (Hwabs : ~ In (S n) (V1_2.open_writers t)).
  { intros H. apply (handles_wf_writer_fresh _ _ _ Hwf) in H. lia. }
  assert (Hopen : V1_2.open_captures
                    (V1_2.WriterReleased (S n) :: V1_2.CaptureReleased n
                       :: V1_2.WriterOpened (S n) :: t)
                  = V1_2.open_captures t).
  { cbn [V1_2.open_captures]. now apply remove_id_absent. }
  unfold Reentrant.kept, Reentrant.ordered.
  split; [split|].
  - apply handles_wf_release_writer; [|cbn; now left].
    apply handles_wf_release_unopened.
    + apply handles_wf_open_writer. apply (handles_wf_weaken _ n); [exact Hwf|lia].
    + lia.
    + intros [H|H]; [discriminate|].
      apply (Reentrant.wf_fresh _ _ Hwf) in H. cbn in H. lia.
    + occ. apply (occurrences_fresh _ t n); [apply Hwf|cbn; lia].
  - intros i Hi. rewrite Hopen. auto.
  - split.
    { destruct held; cbn [Reentrant.others_of]; now rewrite Hopen. }
    split.
    { cbn [V1_2.open_writers]. rewrite remove_id_cons, Nat.eqb_refl.
      now apply remove_id_absent. }
    split; [lia|].
    cbn [V1_2.max_open_captures]. rewrite Hopen.
    cbn [V1_2.open_captures]. rewrite remove_id_absent by exact Habs.
    pose proof (others_of_length held t (Reentrant.wf_captures _ _ Hwf)). lia.
Qed.

(** A crop that handles nothing while it runs. *)
Lemma kept_crop_opened (held : option nat) (t : list V1_2.cv_event) (n : nat) :
  Reentrant.ordered held t n ->
  Reentrant.kept 1 held t n held (V1_2.crop_events true n t) (S (S n)).
Proof.
  intros Hord. unfold V1_2.crop_events. cbn [app].
  apply kept_crop_end; [exact Hord|].
  apply kept_refl. apply (ordered_crop_start held t n Hord).
Qed.

(** *** Handlers that keep the order *)

Lemma keeps_order_same (d : nat) (a a' : V1_2.App) :
  V1_2.cv a' = V1_2.cv a -> V1_2.held_id a' = V1_2.held_id a ->
  V1_2.next_id a' = V1_2.next_id a ->
  (exists l, V1_2.gui a' = V1_2.gui a ++ l) ->
  Reentrant.keeps_order d a a'.
Proof.
  intros Hcv Hheld Hn Hgui. split; [exact Hgui|].
  intros _ Hord. rewrite Hcv, Hheld, Hn. now apply kept_refl.
Qed.

Lemma keeps_order_refl (d : nat) (a : V1_2.App) : Reentrant.keeps_order d a a.
Proof.
  apply keeps_order_same; try reflexivity. exists []. now rewrite app_nil_r.
Qed.

Lemma keeps_order_trans (d1 d2 : nat) (a a1 a2 : V1_2.App) :
  Reentrant.keeps_order d1 a a1 -> Reentrant.keeps_order d2 a1 a2 ->
  Reentrant.keeps_order (Nat.max d1 d2) a a2.
Proof.
  intros [[l1 Hg1] H1] [[l2 Hg2] H2]. split.
  - exists (l1 ++ l2). now rewrite Hg2, Hg1, app_assoc.
  - intros Hgui Hord.
    assert (Hgui1 : ~ In V1_2.crop_failed (V1_2.gui a1)).
    { intros Hin. apply Hgui. rewrite Hg2. apply in_or_app. now left. }
    specialize (H1 Hgui1 Hord).
    apply (kept_trans d1 d2 _ _ _ _ _ _ _ _ _ H1).
    apply H2; [exact Hgui|]. apply H1.
Qed.

Lemma keeps_order_weaken (d d' : nat) (a a' : V1_2.App) :
  (d <= d')%nat -> Reentrant.keeps_order d a a' -> Reentrant.keeps_order d' a a'.
Proof.
  intros Hd [Hg H]. split; [exact Hg|].
  intros Hgui Hord. apply (kept_weaken d d'); auto.
Qed.

(** A handler that ends on the error box of [process_crop]. *)
Lemma keeps_order_failed (d : nat) (a a' : V1_2.App) :
  (exists l, V1_2.gui a' = V1_2.gui a ++ l) ->
  In V1_2.crop_failed (V1_2.gui a') ->
  Reentrant.keeps_order d a a'.
Proof.
  intros Hg Hin. split; [exact Hg|]. intros H. contradiction.
Qed.

Lemma load_video_keeps_order (path : string) (a : V1_2.App) :
  Reentrant.keeps_order 0 a (V1_2.load_video path a).
Proof.
  destruct (v12_load_video_handles path a) as [Hn [Hg Hcase]].
  split; [exact Hg|]. intros _ Hord.
  destruct Hcase as [[-> [-> _]]|[-> [-> _]]]; rewrite Hn.
  - now apply kept_load_opened.
  - now apply kept_load_failed.
Qed.

(** [crop_and_save] when no event is handled during the crop. *)
Lemma crop_and_save_keeps_order (out : string) (a a' : V1_2.App) :
  V1_2.crop_and_save out a = ok a' -> Reentrant.keeps_order 1 a a'.
Proof.
  intros H.
  destruct (v12_crop_and_save_handles _ _ _ H)
    as [Hheld [Hg [Hf|[[Hcv Hn]|[opened [Hcv Hn]]]]]].
  - now apply keeps_order_failed.
  - now apply keeps_order_same.
  - split; [exact Hg|]. intros _ Hord. rewrite Hheld, Hcv, Hn.
    destruct opened; [now apply kept_crop_opened|now apply kept_crop_unopened].
Qed.

Lemma step_keeps_order (act : V1_2.Action) (a a' : V1_2.App) :
  V1_2.step act a = ok a' -> Reentrant.keeps_order (Reentrant.depth_plain act) a a'.
Proof.
  destruct act; cbn [V1_2.step Reentrant.depth_plain];
    try (intros [= <-]; apply keeps_order_same; try reflexivity;
         exists []; now rewrite app_nil_r).
  - intros [= <-]. apply load_video_keeps_order.
  - destruct (V1_2.clear_btn _); intros [= <-];
      (apply keeps_order_same; try reflexivity; exists []; now rewrite app_nil_r).
  - destruct (V1_2.crop_btn _).
    + apply crop_and_save_keeps_order.
    + intros [= <-]. apply keeps_order_refl.
Qed.

(** *** The crop that handles events *)

Lemma frames_to_events_pos (frame_idx : Z) :
  (1 <= Reentrant.frames_to_events frame_idx)%nat.
Proof.
  unfold Reentrant.frames_to_events.
  pose proof (Z.mod_pos_bound frame_idx 30 ltac:(lia)). lia.
Qed.

(** Without a frame to read the loop ends at once. *)
Lemma reentrant_crop_loop_nil (during : Reentrant.Slots) (x y width height frame_idx : Z)
    (out_writer : V1_2.VideoWriter) (a : V1_2.App) :
  Reentrant.crop_loop during x y width height [] frame_idx out_writer a
  = ok (out_writer, None, a).
Proof.
  destruct during as [|arrived later]; cbn [Reentrant.crop_loop]; [reflexivity|].
  cbn [List.length].
  pose proof (frames_to_events_pos frame_idx) as Hpos.
  destruct (Nat.ltb_spec 0 (Reentrant.frames_to_events frame_idx)); [reflexivity|lia].
Qed.

Lemma process_crop_keeps_order
    (events : V1_2.App -> res V1_2.App)
    (loop : Z -> Z -> Z -> Z -> list Frame -> Z -> V1_2.VideoWriter -> V1_2.App ->
            res (V1_2.VideoWriter * option exn * V1_2.App))
    (d1 d2 : nat) (out : string) (x y width height : Z) :
  (forall b b', events b = ok b' -> Reentrant.keeps_order d1 b b') ->
  (forall pending frame_idx wr b wr' raised b',
      loop x y width height pending frame_idx wr b = ok (wr', raised, b') ->
      V1_2.wr_id wr' = V1_2.wr_id wr /\ Reentrant.keeps_order d2 b b') ->
  (forall frame_idx wr b, loop x y width height [] frame_idx wr b = ok (wr, None, b)) ->
  forall a a',
  Reentrant.process_crop events loop out x y width height a = ok a' ->
  Reentrant.keeps_order (Nat.max d1 (S d2)) a a'.
Proof.
  intros Hev Hloop Hnil a a'. unfold Reentrant.process_crop.
  destruct (events _) as [e|a1] eqn:Ev; cbn [bind]; [discriminate|].
  assert (K1 : Reentrant.keeps_order d1 a a1) by exact (Hev _ _ Ev).
  intros Hrest. apply (keeps_order_trans d1 (S d2) a a1 a' K1). clear K1 Ev Hev.
  destruct (V1_2.video_path (V1_2.self a1)) as [path|].
  2:{ injection Hrest as <-. apply keeps_order_failed; cbn.
      - eexists; reflexivity.
      - apply in_or_app. right. now left. }
  unfold V1_2.VideoCapture_new, V1_2.VideoWriter_new, V1_2.fresh in Hrest.
  cbn in Hrest.
  destruct (V1_2.files a1 path) as [f|]; cbn in Hrest.
  - destruct (loop _ _ _ _ _ _ _ _) as [e|[[wr' raised] a3]] eqn:El;
      cbn [bind] in Hrest; [discriminate|].
    destruct (Hloop _ _ _ _ _ _ _ El) as [Hid [[l Hg] K2]]. cbn in Hid, Hg, K2.
    destruct raised as [e|]; injection Hrest as <-.
    + apply keeps_order_failed; cbn.
      * exists (l ++ [V1_2.crop_failed]). now rewrite Hg, app_assoc.
      * apply in_or_app. right. now left.
    + split; cbn.
      * exists (l ++ [MessageBox Information "Complete" "Cropped video saved!"]).
        now rewrite Hg, app_assoc.
      * intros Hgui Hord. rewrite Hid.
        apply kept_crop_end; [exact Hord|].
        apply K2; [|apply (ordered_crop_start _ _ _ Hord)].
        intros Hin. apply Hgui. apply in_or_app. now left.
  - rewrite Hnil in Hrest. cbn in Hrest. injection Hrest as <-.
    split; cbn.
    + eexists; reflexivity.
    + intros _ Hord. apply (kept_weaken 1); [lia|].
      now apply kept_crop_unopened.
Qed.

Lemma reentrant_crop_and_save_keeps_order
    (process : string -> Z -> Z -> Z -> Z -> V1_2.App -> res V1_2.App)
    (d : nat) (out : string) :
  (forall x y width height b b',
      process out x y width height b = ok b' -> Reentrant.keeps_order d b b') ->
  forall a a', Reentrant.crop_and_save process out a = ok a' ->
  Reentrant.keeps_order d a a'.
Proof.
  intros Hp a a'. unfold Reentrant.crop_and_save.
  destruct (negb (truth (V1_2.cap (V1_2.self a)))).
  { intros [= <-]. apply keeps_order_same; try reflexivity. eexists; reflexivity. }
  destruct (V1_2.get_selection_info _) as [info|].
  2:{ intros [= <-]. apply keeps_order_same; try reflexivity. eexists; reflexivity. }
  destruct (V1_2.source_rect _ _ _ _) as [e|[[[x0 y0] x2] y2]]; cbn; [discriminate|].
  destruct (_ || _).
  { intros [= <-]. apply keeps_order_same; try reflexivity. eexists; reflexivity. }
  destruct (negb (truth out)).
  { intros [= <-]. apply keeps_order_refl. }
  apply Hp.
Qed.

(** Every handler keeps the handles in order, whatever it handles while
    it runs: by induction on the actions of the session. *)
Lemma handlers_keep_order :
  (forall act a a',
      Reentrant.handle act a = ok a' ->
      Reentrant.keeps_order (Reentrant.depth_act act) a a') /\
  (forall during,
      (forall x y width height pending frame_idx wr a wr' raised a',
          Reentrant.crop_loop during x y width height pending frame_idx wr a
          = ok (wr', raised, a') ->
          V1_2.wr_id wr' = V1_2.wr_id wr /\
          Reentrant.keeps_order (Reentrant.depth_slots during) a a') /\
      match during with
      | Reentrant.NoMore => True
      | Reentrant.Slot arrived later =>
          (forall a a', Reentrant.processEvents arrived a = ok a' ->
                        Reentrant.keeps_order (Reentrant.depth arrived) a a') /\
          (forall x y width height pending frame_idx wr a wr' raised a',
              Reentrant.crop_loop later x y width height pending frame_idx wr a
              = ok (wr', raised, a') ->
              V1_2.wr_id wr' = V1_2.wr_id wr /\
              Reentrant.keeps_order (Reentrant.depth_slots later) a a')
      end) /\
  (forall acts a a',
      Reentrant.processEvents acts a = ok a' ->
      Reentrant.keeps_order (Reentrant.depth acts) a a').
Proof.
  apply Reentrant.session_ind.
  - (* a plain action *)
    intros act a a'. cbn. apply step_keeps_order.
  - (* Crop & Save, with the events of its crop *)
    intros out during [_ IH] a a'. cbn [Reentrant.handle].
    destruct (V1_2.crop_btn _); [|intros [= <-]; apply keeps_order_refl].
    destruct during as [|arrived later].
    + apply crop_and_save_keeps_order.
    + destruct IH as [IHa IHl]. cbn [Reentrant.depth_act].
      apply reentrant_crop_and_save_keeps_order.
      intros x y width height.
      apply process_crop_keeps_order.
      * exact IHa.
      * apply IHl.
      * intros. apply reentrant_crop_loop_nil.
  - (* no further event *)
    split; [|exact I].
    intros x y width height pending frame_idx wr a wr' raised a'.
    cbn [Reentrant.crop_loop]. intros [= <- <- <-].
    split; [apply crop_loop_wr_id|apply keeps_order_refl].
  - (* the events of the next call, then the later ones *)
    intros arrived IHa later [IHl _]. split; [|split; assumption].
    intros x y width height pending frame_idx wr a wr' raised a'.
    cbn [Reentrant.crop_loop Reentrant.depth_slots].
    destruct (_ <? _)%nat.
    { intros [= <- <- <-]. split; [apply crop_loop_wr_id|apply keeps_order_refl]. }
    match goal with
    | |- context [V1_2.crop_loop ?c ?x ?y ?w ?h ?p ?i ?o] =>
        pose proof (crop_loop_wr_id c x y w h p i o) as Hid;
        destruct (V1_2.crop_loop c x y w h p i o) as [wr1 [e|]]
    end; cbn [fst] in Hid.
    { intros [= <- <- <-]. split; [exact Hid|apply keeps_order_refl]. }
    destruct (Reentrant.processEvents arrived _) as [e|a1] eqn:Ev; cbn [bind];
      [discriminate|].
    intros Hl. destruct (IHl _ _ _ _ _ _ _ _ _ _ _ Hl) as [Hid' K2].
    split; [congruence|].
    apply (keeps_order_trans _ _ a a1 a'); [|exact K2].
    exact (IHa _ _ Ev).
  - (* no action *)
    intros a a'. cbn. intros [= <-]. apply keeps_order_refl.
  - (* an action, then the rest *)
    intros act IHact rest IHrest a a'. cbn [Reentrant.processEvents Reentrant.depth].
    destruct (Reentrant.handle act a) as [e|a1] eqn:E; cbn [bind]; [discriminate|].
    intros H. apply (keeps_order_trans _ _ a a1 a'); auto.
Qed.

Lemma run_keeps_order (acts : Reentrant.Acts) (a a' : V1_2.App) :
  Reentrant.run acts a = ok a' -> Reentrant.keeps_order (Reentrant.depth acts) a a'.
Proof.
  apply handlers_keep_order.
Qed.

(** *** Sessions in which nothing is handled during a crop *)

(** The loop over [l1 ++ l2] is the loop over [l1], then over [l2]. *)
Lemma crop_loop_app (frame_count x y width height : Z) (l1 l2 : list Frame) :
  forall (frame_idx : Z) (w : V1_2.VideoWriter),
  V1_2.crop_loop frame_count x y width height (l1 ++ l2) frame_idx w
  = match V1_2.crop_loop frame_count x y width height l1 frame_idx w with
    | (w1, Some e) => (w1, Some e)
    | (w1, None) =>
        V1_2.crop_loop frame_count x y width height l2
          (frame_idx + Z.of_nat (List.length l1)) w1
    end.
Proof.
  induction l1 as [|frame rest IH]; intros frame_idx w.
  - cbn. now rewrite Z.add_0_r.
  - cbn [app V1_2.crop_loop List.length].
    replace (frame_idx + Z.of_nat (S (List.length rest)))
      with (frame_idx + 1 + Z.of_nat (List.length rest)) by lia.
    destruct (_ =? 0); [destruct (PyFloat.truediv _ _)|]; try reflexivity; apply IH.
Qed.

(** When its calls of [processEvents] find nothing, the loop is
    [V1_2.crop_loop]; only the text of the label may have changed. *)
Lemma quiet_crop_loop (during : Reentrant.Slots) :
  Reentrant.quiet_slots during ->
  forall (x y width height : Z) (pending : list Frame) (frame_idx : Z)
         (w : V1_2.VideoWriter) (a : V1_2.App),
  exists a',
    Reentrant.crop_loop during x y width height pending frame_idx w a
    = ok (V1_2.crop_loop (V1_2.frame_count (V1_2.self a)) x y width height
            pending frame_idx w, a') /\
    (a' = a \/
     a' = V1_2.with_self (V1_2.set_info V1_2.TextProcessing (V1_2.self a)) a).
Proof.
  induction during as [|arrived later IH]; intros Hq x y width height pending frame_idx w a.
  - exists a. cbn [Reentrant.crop_loop].
    destruct (V1_2.crop_loop _ _ _ _ _ _ _ _); auto.
  - destruct Hq as [-> Hq]. cbn [Reentrant.crop_loop].
    destruct (Nat.ltb_spec (List.length pending) (Reentrant.frames_to_events frame_idx))
      as [Hlt|Hle].
    { exists a. destruct (V1_2.crop_loop _ _ _ _ _ _ _ _); auto. }
    pose proof (crop_loop_app (V1_2.frame_count (V1_2.self a)) x y width height
                  (firstn (Reentrant.frames_to_events frame_idx) pending)
                  (skipn (Reentrant.frames_to_events frame_idx) pending)
                  frame_idx w) as Happ.
    rewrite firstn_skipn, (firstn_length_le _ Hle) in Happ. rewrite Happ.
    destruct (V1_2.crop_loop _ _ _ _ _ (firstn _ _) _ _) as [w1 [e|]].
    { exists a. auto. }
    cbn [Reentrant.processEvents bind].
    destruct (IH Hq x y width height
                (skipn (Reentrant.frames_to_events frame_idx) pending)
                (frame_idx + Z.of_nat (Reentrant.frames_to_events frame_idx)) w1
                (V1_2.with_self (V1_2.set_info V1_2.TextProcessing (V1_2.self a)) a))
      as [a' [E Ha']].
    exists a'. split; [exact E|]. right. destruct Ha' as [->| ->]; reflexivity.
Qed.

Lemma quiet_process_crop (later : Reentrant.Slots) (out : string)
    (x y width height : Z) (a : V1_2.App) :
  Reentrant.quiet_slots later ->
  Reentrant.process_crop (Reentrant.processEvents Reentrant.Done)
    (Reentrant.crop_loop later) out x y width height a
  = ok (V1_2.process_crop out x y width height a).
Proof.
  intros Hq. unfold Reentrant.process_crop, V1_2.process_crop.
  cbn [Reentrant.processEvents bind]. cbn.
  destruct (V1_2.video_path (V1_2.self a)) as [path|]; [|reflexivity].
  unfold V1_2.VideoCapture_new, V1_2.VideoWriter_new, V1_2.fresh. cbn.
  destruct (V1_2.files a path) as [f|]; cbn;
    match goal with
    | |- context [Reentrant.crop_loop later ?x ?y ?w ?h ?p ?i ?o ?b] =>
        destruct (quiet_crop_loop later Hq x y w h p i o b) as [a' [-> Ha']]
    end; cbn;
    try match goal with
    | |- context [V1_2.crop_loop ?c ?x ?y ?w ?h ?p ?i ?o] =>
        destruct (V1_2.crop_loop c x y w h p i o) as [wr [e|]]
    end; destruct Ha' as [->| ->]; reflexivity.
Qed.

Lemma quiet_handle (act : Reentrant.Act) (a : V1_2.App) :
  Reentrant.quiet_act act ->
  Reentrant.handle act a = V1_2.step (Reentrant.plain_act act) a.
Proof.
  destruct act as [act|out [|arrived later]]; cbn; try reflexivity.
  intros [-> Hq]. destruct (V1_2.crop_btn _); [|reflexivity].
  unfold Reentrant.crop_and_save, V1_2.crop_and_save.
  destruct (negb _); [reflexivity|].
  destruct (V1_2.get_selection_info _); [|reflexivity].
  destruct (V1_2.source_rect _ _ _ _) as [e|[[[x0 y0] x2] y2]]; cbn; [reflexivity|].
  destruct (_ || _); [reflexivity|].
  destruct (negb _); [reflexivity|].
  now apply quiet_process_crop.
Qed.

(** A session in which nothing is handled during a crop is a run of its
    plain actions. *)
Lemma quiet_run (acts : Reentrant.Acts) :
  Reentrant.quiet acts ->
  forall a, Reentrant.run acts a = V1_2.run (Reentrant.plain acts) a.
Proof.
  unfold Reentrant.run.
  induction acts as [|act rest IH]; intros Hq a; cbn; [reflexivity|].
  destruct Hq as [Hact Hrest]. rewrite (quiet_handle act a Hact).
  destruct (V1_2.step _ a); cbn; [reflexivity|]. now apply IH.
Qed.

(** A run of plain actions is a session. *)
Lemma plain_run (acts : list V1_2.Action) (a : V1_2.App) :
  Reentrant.run (Reentrant.actions (map Reentrant.Plain acts)) a = V1_2.run acts a.
Proof.
  unfold Reentrant.run. revert a.
  induction acts as [|act rest IH]; intros a; cbn; [reflexivity|].
  destruct (V1_2.step act a); cbn; [reflexivity|]. apply IH.
Qed.

(** When nothing is handled during a crop, crops do not nest. *)
Lemma quiet_slots_depth (during : Reentrant.Slots) :
  Reentrant.quiet_slots during -> Reentrant.depth_slots during = 0%nat.
Proof.
  induction during as [|arrived later IH]; cbn; [reflexivity|].
  intros [-> H]. rewrite (IH H). reflexivity.
Qed.

Lemma quiet_depth (acts : Reentrant.Acts) :
  Reentrant.quiet acts -> (Reentrant.depth acts <= 1)%nat.
Proof.
  induction acts as [|act rest IH]; cbn; [lia|].
  intros [Hact Hrest]. specialize (IH Hrest).
  apply Nat.max_lub; [|exact IH].
  destruct act as [act|out [|arrived later]]; cbn.
  - destruct act; cbn; lia.
  - lia.
  - destruct Hact as [-> Hl]. rewrite (quiet_slots_depth _ Hl). cbn. lia.
Qed.

Lemma ordered_init : Reentrant.ordered None [] 0.
Proof.
  split; [apply handles_wf_init|discriminate].
Qed.

(** C7, amended: in a session of version 1.2 in which no crop fails,
    whatever the user does while crops run,
    - when no crop is running the only capture that is open is the one the
      window holds, and no writer is open;
    - at no time are more captures open than one plus the number of crops
      that are in their loop together; that is two when no action is
      handled during a crop (the capture of the window and the one
      [process_crop] reads from);
    - on reload the held capture is released before the replacement opens;
    - once the window is closed, no crop being in progress, no capture is
      open, every capture and writer that was opened has been released
      exactly once, and no handle was released twice. *)
Theorem C7_handles_of_a_session
    (fs : string -> option V1_2.VideoFile) (w h : Z)
    (acts : Reentrant.Acts) (a : V1_2.App) :
  Reentrant.run acts (V1_2.App_init fs w h) = ok a ->
  ~ In V1_2.crop_failed (V1_2.gui a) ->
  (V1_2.open_captures (V1_2.cv a)
   = match V1_2.held_id a with Some i => [i] | None => [] end /\
   V1_2.open_writers (V1_2.cv a) = []) /\
  ((V1_2.max_open_captures (V1_2.cv (V1_2.closeEvent a)) <= 1 + Reentrant.depth acts)%nat /\
   (Reentrant.quiet acts ->
    (V1_2.max_open_captures (V1_2.cv (V1_2.closeEvent a)) <= 2)%nat)) /\
  (forall path i f,
      V1_2.held_id a = Some i -> V1_2.files a path = Some f ->
      V1_2.cv (V1_2.load_video path a)
      = V1_2.CaptureOpened (V1_2.next_id a) :: V1_2.CaptureReleased i :: V1_2.cv a) /\
  V1_2.open_captures (V1_2.cv (V1_2.closeEvent a)) = [] /\
  Spec.released_once (V1_2.cv (V1_2.closeEvent a)) /\
  (forall id,
      (V1_2.occurrences (V1_2.CaptureReleased id) (V1_2.cv (V1_2.closeEvent a)) <= 1)%nat /\
      (V1_2.occurrences (V1_2.WriterReleased id) (V1_2.cv (V1_2.closeEvent a)) <= 1)%nat).
Proof.
  intros Hrun Hgui.
  destruct (run_keeps_order _ _ _ Hrun) as [_ K].
  destruct (K Hgui ordered_init) as [Hord [Ho [Hw [_ Hm]]]].
  cbn in Ho, Hw, Hm.
  destruct (ordered_release_held _ _ _ Hord) as [Hwf [Hopen [Hwr Hmax]]].
  rewrite <- v12_closeEvent_cv, Ho in Hopen. rewrite <- v12_closeEvent_cv in Hwf, Hwr, Hmax.
  rewrite Hw in Hwr.
  assert (Hpeak : (V1_2.max_open_captures (V1_2.cv (V1_2.closeEvent a))
                   <= 1 + Reentrant.depth acts)%nat) by lia.
  split.
  { split; [|exact Hw]. destruct Hord as [Hwfa Hheld].
    destruct (V1_2.held_id a) as [i|]; cbn in Ho; [|exact Ho].
    apply remove_id_only; [apply Hwfa|now apply Hheld|exact Ho]. }
  split.
  { split; [exact Hpeak|]. intros Hq. pose proof (quiet_depth _ Hq). lia. }
  split.
  { intros path i f Hheld Hfile.
    destruct (v12_load_video_handles path a) as [_ [_ [[_ [H _]]|[_ [_ H]]]]].
    - rewrite H, Hheld. reflexivity.
    - congruence. }
  split; [exact Hopen|].
  split; [|apply (Reentrant.wf_once _ _ Hwf)].
  split.
  - intros id Hin. apply (Reentrant.wf_capture_closed _ _ Hwf id Hin).
    rewrite Hopen. intros [].
  - intros id Hin. apply (Reentrant.wf_writer_closed _ _ Hwf id Hin).
    rewrite Hwr. intros [].
Qed.

Lemma C7_handles_of_a_session_witness :
  match Reentrant.run Reentrant.busy_crop Reentrant.app with
  | inr a =>
      (V1_2.max_open_captures (V1_2.cv (V1_2.closeEvent a)) <= 3)%nat /\
      V1_2.open_captures (V1_2.cv (V1_2.closeEvent a)) = [] /\
      Spec.released_once (V1_2.cv (V1_2.closeEvent a))
  | inl _ => False
  end.
Proof.
  assert (H : fmap V1_2.gui (Reentrant.run Reentrant.busy_crop Reentrant.app)
              = ok [MessageBox Information "Complete" "Cropped video saved!";
                    MessageBox Information "Complete" "Cropped video saved!"])
    by (vm_compute; reflexivity).
  destruct (Reentrant.run Reentrant.busy_crop Reentrant.app) as [e|a] eqn:E.
  - discriminate H.
  - assert (Hgui : ~ In V1_2.crop_failed (V1_2.gui a)).
    { injection H as ->. intros [H|[H|[]]]; discriminate H. }
    destruct (C7_handles_of_a_session (fun _ => Some Reentrant.clip_31) 640 360
                Reentrant.busy_crop a E Hgui)
      as [_ [[Hmax _] [_ [H1 [H2 _]]]]].
    split; [exact Hmax|]. split; assumption.
Defined.

(** ** C8: when there is no selection info *)

(** C8 at the failing input: the clip is shown at (62, 10), 853x480, and
    the user drags from the top-left pixel (0, 0) of the widget to
    (300, 300).  The selection exists, is 301x301 pixels and meets the
    video rectangle, yet [get_selection_info] returns [None]: the test
    [self.start_pos and ...] takes [QPoint(0, 0)] for false. *)
Theorem C8_v12_drag_from_origin_is_no_selection :
  fmap (fun a => let v := V1_2.video_widget (V1_2.self a) in
                 (V1_2.start_pos v, V1_2.end_pos v, V1_2.video_display_rect v,
                  V1_2.get_selection_info v))
    (V1_2.run Scenario.drag_from_origin (Scenario.app12 978 500))
  = ok (Some (mkQPoint 0 0), Some (mkQPoint 300 300),
        Some (QRect_xywh 62 10 853 480), None) /\
  forall img : Frame,
    let v := V1_2.drag (mkQPoint 0 0) (mkQPoint 300 300)
               (V1_2.set_video_frame (mkQPixmap 256 144 img) (V1_2.VideoWidget_init 978 500)) in
    V1_2.get_selection_info v = None /\ ~ Spec.no_usable_selection v.
Proof.
  split; [vm_compute; reflexivity|].
  intros img v. split; [vm_compute; reflexivity|].
  unfold Spec.no_usable_selection. cbn. lia.
Qed.

(** ** C8: what holds of [get_selection_info] *)

Lemma QPoint_isNull_origin (p : QPoint) : QPoint_isNull p = true <-> p = mkQPoint 0 0.
Proof.
  destruct p as [x y]. unfold QPoint_isNull. cbn.
  rewrite andb_true_iff, !Z.eqb_eq. split.
  - intros [-> ->]. reflexivity.
  - intros [= -> ->]. auto.
Qed.

(** [get_selection_info] returns [None] for the three reasons of the
    claim, and besides for a drag that starts or ends on the pixel (0, 0)
    of the widget and when no valid pixmap is displayed. *)
Lemma v12_selection_info_none_iff (v : V1_2.VideoWidget) :
  V1_2.get_selection_info v = None <->
  Spec.no_usable_selection v \/
  V1_2.start_pos v = Some (mkQPoint 0 0) \/
  V1_2.end_pos v = Some (mkQPoint 0 0) \/
  (exists d, V1_2.video_display_rect v = Some d /\ QRect_isValid d = false) \/
  V1_2.displayed_pixmap v = None.
Proof.
  unfold V1_2.get_selection_info, Spec.no_usable_selection.
  destruct (V1_2.start_pos v) as [p|]; [|cbn; tauto].
  destruct (V1_2.end_pos v) as [q|]; [|cbn; rewrite andb_false_r; cbn; tauto].
  destruct (V1_2.video_display_rect v) as [d|];
    [|cbn; rewrite andb_false_r; cbn; tauto].
  destruct (V1_2.displayed_pixmap v) as [pm|];
    [|cbn; rewrite andb_false_r; cbn; tauto].
  cbv [truth Truthy_option Truthy_QPoint Truthy_QRect Truthy_QPixmap].
  rewrite andb_true_r.
  destruct (QPoint_isNull p) eqn:Ep; cbn.
  { apply QPoint_isNull_origin in Ep. subst p. intuition. }
  destruct (QPoint_isNull q) eqn:Eq; cbn.
  { apply QPoint_isNull_origin in Eq. subst q. intuition. }
  destruct (QRect_isValid d) eqn:Ed; cbn.
  2:{ split; auto. intros _. right. right. right. left. exists d. auto. }
  set (r := normalized (QRect_of_points p q)).
  assert (Np : Some p <> Some (mkQPoint 0 0)).
  { intros [= ->]. discriminate. }
  assert (Nq : Some q <> Some (mkQPoint 0 0)).
  { intros [= ->]. discriminate. }
  destruct (rect_width r <? 5) eqn:E1; cbn.
  { apply Z.ltb_lt in E1. intuition. }
  destruct (rect_height r <? 5) eqn:E2; cbn.
  { apply Z.ltb_lt in E2. intuition. }
  apply Z.ltb_ge in E1, E2.
  destruct (rect_width (intersected r d) <=? 0) eqn:E3; cbn.
  { apply Z.leb_le in E3. intuition. }
  destruct (rect_height (intersected r d) <=? 0) eqn:E4; cbn.
  { apply Z.leb_le in E4. intuition. }
  apply Z.leb_gt in E3, E4.
  split; [discriminate|].
  intros [H|[H|[H|[[d' [[= <-] H]]|H]]]]; try congruence; try discriminate.
  lia.
Qed.

(** Whenever [get_selection_info] returns [None], [crop_and_save] shows a
    warning and does nothing else: no capture or writer is opened and no
    output is written. *)
Lemma v12_no_selection_no_output (out : string) (a : V1_2.App) :
  V1_2.get_selection_info (V1_2.video_widget (V1_2.self a)) = None ->
  exists title text,
    V1_2.crop_and_save out a = ok (V1_2.show_message Warning title text a) /\
    V1_2.effects (V1_2.show_message Warning title text a)
    = (V1_2.gui a ++ [MessageBox Warning title text], V1_2.cv a, V1_2.outputs a).
Proof.
  intros H. unfold V1_2.crop_and_save. rewrite H.
  destruct (negb _); do 2 eexists; split; reflexivity.
Qed.

(** ** C9: the drag in both directions *)

(** C9, as stated, fails: [normalized] swaps the corners of an axis only
    when the extent is negative, so the drag from (11, 0) to (10, 100)
    gives a rectangle of width 0 and the drag back one of width 2.
    Version 1.1 then reports no selection for the first and a selection
    for the second. *)
Lemma C9_one_pixel_drag_not_symmetric :
  normalized (QRect_of_points (mkQPoint 11 0) (mkQPoint 10 100))
  <> normalized (QRect_of_points (mkQPoint 10 100) (mkQPoint 11 0)) /\
  V1_1.get_selection_normalized
    (V1_1.drag (mkQPoint 11 0) (mkQPoint 10 100) (V1_1.VideoWidget_init 640 360))
  = None /\
  V1_1.get_selection_normalized
    (V1_1.drag (mkQPoint 10 100) (mkQPoint 11 0) (V1_1.VideoWidget_init 640 360))
  = Some (10, 0, 2, 101).
Proof.
  repeat split; try (vm_compute; reflexivity).
  vm_compute. discriminate.
Qed.

(** ** C9, amended: drags that are not one pixel wide or high *)

Lemma normalized_swap (p q : QPoint) :
  Z.abs (pt_x p - pt_x q) <> 1 -> Z.abs (pt_y p - pt_y q) <> 1 ->
  normalized (QRect_of_points p q) = normalized (QRect_of_points q p).
Proof.
  intros Hx Hy. destruct p as [px py], q as [qx qy]. cbn in *.
  unfold normalized, QRect_of_points. cbn.
  destruct (qx <? px - 1) eqn:E1, (px <? qx - 1) eqn:E2,
           (qy <? py - 1) eqn:E3, (py <? qy - 1) eqn:E4;
    rewrite ?Z.ltb_lt, ?Z.ltb_ge in *; f_equal; lia.
Qed.

Lemma drag11_state (p q : QPoint) (v : V1_1.VideoWidget) :
  V1_1.drag p q v
  = V1_1.mkVideoWidget (V1_1.width v) (V1_1.height v) false (Some p) (Some q)
      (V1_1.pixmap_img v).
Proof. reflexivity. Qed.

Lemma drag12_state (p q : QPoint) (v : V1_2.VideoWidget) :
  V1_2.drag p q v = V1_2.with_drag false (Some p) (Some q) v.
Proof. reflexivity. Qed.

Lemma v11_selection_swap (p q : QPoint) (v : V1_1.VideoWidget) :
  Z.abs (pt_x p - pt_x q) <> 1 -> Z.abs (pt_y p - pt_y q) <> 1 ->
  V1_1.get_selection_normalized (V1_1.drag p q v)
  = V1_1.get_selection_normalized (V1_1.drag q p v).
Proof.
  intros Hx Hy. rewrite !drag11_state. unfold V1_1.get_selection_normalized. cbn.
  rewrite (normalized_swap p q Hx Hy).
  rewrite (andb_comm (negb (QPoint_isNull p))). reflexivity.
Qed.

(** In version 1.2 a selection under 5 pixels is no selection, so the
    direction of the drag never matters. *)
Lemma v12_selection_swap (p q : QPoint) (v : V1_2.VideoWidget) :
  V1_2.get_selection_info (V1_2.drag p q v)
  = V1_2.get_selection_info (V1_2.drag q p v).
Proof.
  rewrite !drag12_state. unfold V1_2.get_selection_info. cbn.
  rewrite (andb_comm (negb (QPoint_isNull p))).
  destruct (negb _); [reflexivity|].
  destruct (V1_2.video_display_rect v) as [d|]; [|reflexivity].
  destruct (V1_2.displayed_pixmap v) as [pm|]; [|reflexivity].
  destruct (Z.eq_dec (Z.abs (pt_x p - pt_x q)) 1) as [Hx|Hx];
    [|destruct (Z.eq_dec (Z.abs (pt_y p - pt_y q)) 1) as [Hy|Hy]].
  - destruct p as [px py], q as [qx qy]. cbn in Hx.
    unfold normalized, QRect_of_points, rect_width, rect_height. cbn.
    destruct (qx <? px - 1) eqn:E1, (px <? qx - 1) eqn:E2;
      rewrite ?Z.ltb_lt, ?Z.ltb_ge in *; try lia;
      destruct (qy <? py - 1), (py <? qy - 1); cbn;
      repeat match goal with
             | |- context [?a <? 5] =>
                 let E := fresh in destruct (a <? 5) eqn:E;
                 rewrite ?Z.ltb_lt, ?Z.ltb_ge in E; try lia
             end; reflexivity.
  - destruct p as [px py], q as [qx qy]. cbn in Hx, Hy.
    unfold normalized, QRect_of_points, rect_width, rect_height. cbn.
    destruct (qy <? py - 1) eqn:E1, (py <? qy - 1) eqn:E2;
      rewrite ?Z.ltb_lt, ?Z.ltb_ge in *; try lia;
      destruct (qx <? px - 1), (px <? qx - 1); cbn;
      repeat match goal with
             | |- context [?a <? 5] =>
                 let E := fresh in destruct (a <? 5) eqn:E;
                 rewrite ?Z.ltb_lt, ?Z.ltb_ge in E; try lia
             end; cbn; rewrite ?orb_true_r; reflexivity.
  - rewrite (normalized_swap p q Hx Hy). reflexivity.
Qed.

(** [crop_and_save] of version 1.1 reads the widget through its selection,
    its pixmap and its size only. *)
Lemma v11_crop_effects_congr (env : V1_1.Env) (out : string) (a : V1_1.App)
    (v1 v2 : V1_1.VideoWidget) :
  V1_1.get_selection_normalized v1 = V1_1.get_selection_normalized v2 ->
  V1_1.pixmap_img v1 = V1_1.pixmap_img v2 ->
  V1_1.width v1 = V1_1.width v2 -> V1_1.height v1 = V1_1.height v2 ->
  fmap V1_1.effects (V1_1.crop_and_save env out (V1_1.on_widget (fun _ => v1) a))
  = fmap V1_1.effects (V1_1.crop_and_save env out (V1_1.on_widget (fun _ => v2) a)).
Proof.
  intros Hsel Hpix Hw Hh.
  unfold V1_1.crop_and_save, V1_1.on_widget. cbn.
  rewrite Hsel, Hpix.
  destruct (V1_1.get_selection_normalized v2) as [sel|]; [|reflexivity].
  destruct (V1_1.pixmap_img v2) as [pixmap|]; [|reflexivity].
  unfold V1_1.selection_in_pixmap. rewrite Hw, Hh.
  destruct sel as [[[dx dy] dw] dh].
  destruct (_ || _); [reflexivity|].
  match goal with
  | |- fmap _ (Py.bind ?m _) = _ => destruct m as [e|rect]; [reflexivity|]
  end.
  cbn.
  destruct (negb (truth out)); [reflexivity|].
  destruct (V1_1.clip (V1_1.self a)) as [c|]; [|reflexivity].
  destruct (V1_1.write_videofile env c rect out); reflexivity.
Qed.

Lemma v12_process_crop_widget (out : string) (x y w h : Z) (a : V1_2.App)
    (v : V1_2.VideoWidget) :
  V1_2.effects
    (V1_2.process_crop out x y w h (V1_2.with_self (V1_2.set_widget v (V1_2.self a)) a))
  = V1_2.effects (V1_2.process_crop out x y w h a).
Proof.
  unfold V1_2.process_crop. cbn.
  destruct (V1_2.video_path (V1_2.self a)) as [path|]; [|reflexivity].
  unfold V1_2.VideoCapture_new, V1_2.VideoWriter_new, V1_2.fresh. cbn.
  destruct (V1_2.files a path) as [f|]; cbn; [|reflexivity].
  match goal with
  | |- context [V1_2.crop_loop ?c ?x ?y ?w ?h ?p ?i ?o] =>
      destruct (V1_2.crop_loop c x y w h p i o) as [wr [e|]]; reflexivity
  end.
Qed.

(** [crop_and_save] of version 1.2 reads the widget through
    [get_selection_info] only. *)
Lemma v12_crop_effects_congr (out : string) (a : V1_2.App) (v1 v2 : V1_2.VideoWidget) :
  V1_2.get_selection_info v1 = V1_2.get_selection_info v2 ->
  fmap V1_2.effects (V1_2.crop_and_save out (V1_2.on_widget (fun _ => v1) a))
  = fmap V1_2.effects (V1_2.crop_and_save out (V1_2.on_widget (fun _ => v2) a)).
Proof.
  intros Hsel. unfold V1_2.crop_and_save, V1_2.on_widget. cbn.
  destruct (negb (truth (V1_2.cap (V1_2.self a)))); [reflexivity|].
  rewrite Hsel.
  destruct (V1_2.get_selection_info v2) as [info|]; [|reflexivity].
  match goal with
  | |- fmap _ (Py.bind ?m _) = _ =>
      destruct m as [e|[[[x0 y0] x2] y2]]; [reflexivity|]
  end.
  cbn [Py.bind].
  destruct (_ || _); [reflexivity|].
  destruct (negb (truth out)); [reflexivity|].
  unfold ok. cbn [fmap]. f_equal.
  rewrite !v12_process_crop_widget. reflexivity.
Qed.

(** C9, amended: when the two positions do not differ by exactly one pixel
    in x or in y, the drag from [p] to [q] and the drag from [q] to [p]
    give the same normalized rectangle, the same selection and the same
    result of [crop_and_save] (what is shown and what is written), in both
    versions. *)
Theorem C9_swap_invariance (p q : QPoint) :
  Z.abs (pt_x p - pt_x q) <> 1 -> Z.abs (pt_y p - pt_y q) <> 1 ->
  normalized (QRect_of_points p q) = normalized (QRect_of_points q p) /\
  (forall v, V1_1.get_selection_normalized (V1_1.drag p q v)
             = V1_1.get_selection_normalized (V1_1.drag q p v)) /\
  (forall env out a,
      fmap V1_1.effects
        (V1_1.crop_and_save env out (V1_1.on_widget (V1_1.drag p q) a))
      = fmap V1_1.effects
          (V1_1.crop_and_save env out (V1_1.on_widget (V1_1.drag q p) a))) /\
  (forall v, V1_2.get_selection_info (V1_2.drag p q v)
             = V1_2.get_selection_info (V1_2.drag q p v)) /\
  (forall out a,
      fmap V1_2.effects
        (V1_2.crop_and_save out (V1_2.on_widget (V1_2.drag p q) a))
      = fmap V1_2.effects
          (V1_2.crop_and_save out (V1_2.on_widget (V1_2.drag q p) a))).
Proof.
  intros Hx Hy. repeat split.
  - now apply normalized_swap.
  - intros v. now apply v11_selection_swap.
  - intros env out a.
    apply (v11_crop_effects_congr env out a
             (V1_1.drag p q (V1_1.video_widget (V1_1.self a)))
             (V1_1.drag q p (V1_1.video_widget (V1_1.self a))));
      try reflexivity.
    now apply v11_selection_swap.
  - intros v. apply v12_selection_swap.
  - intros out a.
    apply (v12_crop_effects_congr out a
             (V1_2.drag p q (V1_2.video_widget (V1_2.self a)))
             (V1_2.drag q p (V1_2.video_widget (V1_2.self a)))).
    apply v12_selection_swap.
Qed.

Lemma C9_swap_invariance_witness :
  normalized (QRect_of_points (mkQPoint 100 300) (mkQPoint 300 100))
  = normalized (QRect_of_points (mkQPoint 300 100) (mkQPoint 100 300)) /\
  V1_1.get_selection_normalized
    (V1_1.drag (mkQPoint 100 300) (mkQPoint 300 100) (V1_1.VideoWidget_init 640 360))
  = V1_1.get_selection_normalized
      (V1_1.drag (mkQPoint 300 100) (mkQPoint 100 300) (V1_1.VideoWidget_init 640 360)).
Proof.
  assert (H := C9_swap_invariance (mkQPoint 100 300) (mkQPoint 300 100)).
  cbn in H.
  destruct H as [H1 [H2 _]]; [lia | lia |].
  split; [exact H1 | apply H2].
Defined.

(** ** C10: a failed load in version 1.1 *)

(** C10: when [VideoFileClip(path)] raises, [load_video] shows the error
    box and changes nothing else: [video_path], [clip], [current_frame],
    [orig_w], [orig_h], the widget with its pixmap and the state of the
    crop button are those of before, and nothing is written. *)
Theorem C10_v11_failed_load_changes_nothing
    (env : V1_1.Env) (path : string) (a : V1_1.App) (e : exn) :
  V1_1.open_clip env path = throw e ->
  V1_1.self (V1_1.load_video env path a) = V1_1.self a /\
  V1_1.gui (V1_1.load_video env path a)
  = V1_1.gui a ++ [MessageBox Critical "Error" "Failed to open video:"] /\
  V1_1.written (V1_1.load_video env path a) = V1_1.written a.
Proof.
  intros H. unfold V1_1.load_video. rewrite H. cbn. auto.
Qed.

Lemma C10_v11_failed_load_changes_nothing_witness :
  V1_1.self (V1_1.load_video Scenario.moviepy "missing.mp4" Scenario.left_of_picture)
  = V1_1.self Scenario.left_of_picture /\
  V1_1.gui (V1_1.load_video Scenario.moviepy "missing.mp4" Scenario.left_of_picture)
  = V1_1.gui Scenario.left_of_picture ++ [MessageBox Critical "Error" "Failed to open video:"] /\
  V1_1.written (V1_1.load_video Scenario.moviepy "missing.mp4" Scenario.left_of_picture)
  = V1_1.written Scenario.left_of_picture.
Proof.
  apply (C10_v11_failed_load_changes_nothing Scenario.moviepy "missing.mp4"
           Scenario.left_of_picture
           (Exception "MoviePy error: the file could not be found")).
  reflexivity.
Defined.

(** * Further properties of the code *)

(** ** Scaling with the aspect ratio kept *)

Lemma scaled_keep_aspect_fits (sz s : QSize) :
  0 < wd sz -> 0 < ht sz -> 0 < wd s -> 0 < ht s ->
  0 <= wd (scaled_keep_aspect sz s) <= wd s /\
  0 <= ht (scaled_keep_aspect sz s) <= ht s /\
  (wd (scaled_keep_aspect sz s) = wd s \/ ht (scaled_keep_aspect sz s) = ht s).
Proof.
  intros Hw Hh Hsw Hsh. unfold scaled_keep_aspect.
  destruct (wd sz =? 0) eqn:E1; [apply Z.eqb_eq in E1; lia|].
  destruct (ht sz =? 0) eqn:E2; [apply Z.eqb_eq in E2; lia|].
  cbn [orb].
  rewrite !Z.quot_div_nonneg by nia.
  pose proof (Z.div_mod (ht s * wd sz) (ht sz) ltac:(lia)) as D1.
  pose proof (Z.mod_pos_bound (ht s * wd sz) (ht sz) ltac:(lia)) as B1.
  pose proof (Z.div_mod (wd s * ht sz) (wd sz) ltac:(lia)) as D2.
  pose proof (Z.mod_pos_bound (wd s * ht sz) (wd sz) ltac:(lia)) as B2.
  set (rw := ht s * wd sz / ht sz) in *.
  set (rh := wd s * ht sz / wd sz) in *.
  assert (0 <= rw) by (subst rw; apply Z.div_pos; nia).
  assert (0 <= rh) by (subst rh; apply Z.div_pos; nia).
  destruct (rw <=? wd s) eqn:E3; cbn.
  - apply Z.leb_le in E3. lia.
  - apply Z.leb_gt in E3. repeat split; try lia. nia.
Qed.

(** A scaled image fits the box it was scaled into, is not empty, and
    touches the box in one direction. *)
Lemma scaled_fits_box (p : QPixmap) (w h : Z) :
  0 < pm_width p -> 0 < pm_height p -> 0 < w -> 0 < h ->
  1 <= pm_width (scaled p w h) <= w /\
  1 <= pm_height (scaled p w h) <= h /\
  (pm_width (scaled p w h) = w \/ pm_height (scaled p w h) = h) /\
  pm_image (scaled p w h) = pm_image p.
Proof.
  intros Hpw Hph Hw Hh. unfold scaled, pixmap_isNull, QSize_isEmpty. cbn.
  destruct (pm_width p <=? 0) eqn:E1; [apply Z.leb_le in E1; lia|].
  destruct (pm_height p <=? 0) eqn:E2; [apply Z.leb_le in E2; lia|].
  destruct (w <? 1) eqn:E3; [apply Z.ltb_lt in E3; lia|].
  destruct (h <? 1) eqn:E4; [apply Z.ltb_lt in E4; lia|].
  cbn [orb pm_width pm_height pm_image].
  pose proof (scaled_keep_aspect_fits (mkQSize (pm_width p) (pm_height p)) (mkQSize w h)
                Hpw Hph Hw Hh) as H.
  cbn [wd ht] in H. set (n := scaled_keep_aspect _ _) in *.
  split; [lia|]. split; [lia|]. split; [lia|reflexivity].
Qed.

(** ** The displayed video rectangle (version 1.2) *)

(** X1: After [update_display], in a widget larger than the margin and with a
    picture that is not empty, the video rectangle has the size of the
    displayed pixmap, lies inside the widget with a margin of at least 10
    pixels on every side, touches the margin in one direction, and is
    centred (the two margins of a direction differ by at most one). *)
Theorem X1_v12_display_rect_centred (v : V1_2.VideoWidget) (original : QPixmap) :
  V1_2.original_pixmap v = Some original ->
  0 < pm_width original /\ 0 < pm_height original ->
  20 < V1_2.width v /\ 20 < V1_2.height v ->
  exists pm d,
    V1_2.displayed_pixmap (V1_2.update_display v) = Some pm /\
    V1_2.video_display_rect (V1_2.update_display v) = Some d /\
    pm_image pm = pm_image original /\
    rect_width d = pm_width pm /\ rect_height d = pm_height pm /\
    10 <= rect_x d /\ rect_x d + rect_width d <= V1_2.width v - 10 /\
    10 <= rect_y d /\ rect_y d + rect_height d <= V1_2.height v - 10 /\
    (rect_width d = V1_2.width v - 20 \/ rect_height d = V1_2.height v - 20) /\
    0 <= (V1_2.width v - (rect_x d + rect_width d)) - rect_x d <= 1 /\
    0 <= (V1_2.height v - (rect_y d + rect_height d)) - rect_y d <= 1.
Proof.
  intros Horig [Hpw Hph] [Hw Hh]. unfold V1_2.update_display. rewrite Horig. cbn.
  destruct (scaled_fits_box original (V1_2.width v - 20) (V1_2.height v - 20))
    as [Hsw [Hsh [Htouch Himg]]]; try lia.
  set (pm := scaled original (V1_2.width v - 20) (V1_2.height v - 20)) in *.
  exists pm. eexists. split; [reflexivity|]. split; [reflexivity|].
  unfold rect_width, rect_height, rect_x, rect_y, QRect_xywh. cbn.
  pose proof (Z.div_mod (V1_2.width v - pm_width pm) 2 ltac:(lia)) as D1.
  pose proof (Z.mod_pos_bound (V1_2.width v - pm_width pm) 2 ltac:(lia)) as B1.
  pose proof (Z.div_mod (V1_2.height v - pm_height pm) 2 ltac:(lia)) as D2.
  pose proof (Z.mod_pos_bound (V1_2.height v - pm_height pm) 2 ltac:(lia)) as B2.
  split; [exact Himg|].
  repeat split; lia.
Qed.

Lemma X1_v12_display_rect_centred_witness :
  exists pm d,
    V1_2.displayed_pixmap
      (V1_2.update_display
         (V1_2.mkVideoWidget 640 360 false None None (Some (mkQPixmap 1920 1080 [])) None None))
    = Some pm /\
    V1_2.video_display_rect
      (V1_2.update_display
         (V1_2.mkVideoWidget 640 360 false None None (Some (mkQPixmap 1920 1080 [])) None None))
    = Some d /\
    rect_width d = pm_width pm /\ 10 <= rect_x d.
Proof.
  destruct (X1_v12_display_rect_centred
              (V1_2.mkVideoWidget 640 360 false None None (Some (mkQPixmap 1920 1080 [])) None None)
              (mkQPixmap 1920 1080 []))
    as [pm [d [H1 [H2 [_ [H3 [_ [H4 _]]]]]]]].
  - reflexivity.
  - cbn. lia.
  - cbn. lia.
  - exists pm, d. auto.
Defined.

(** ** Selections lie where the code keeps them *)

Ltac bool_to_Z :=
  repeat match goal with
         | H : (_ <? _) = true |- _ => apply Z.ltb_lt in H
         | H : (_ <? _) = false |- _ => apply Z.ltb_ge in H
         | H : (_ <=? _) = true |- _ => apply Z.leb_le in H
         | H : (_ <=? _) = false |- _ => apply Z.leb_gt in H
         | H : (_ =? _) = true |- _ => apply Z.eqb_eq in H
         | H : (_ =? _) = false |- _ => apply Z.eqb_neq in H
         | H : (_ && _) = true |- _ => apply andb_true_iff in H; destruct H
         | H : (_ || _) = false |- _ => apply orb_false_iff in H; destruct H
         | H : negb _ = false |- _ => apply negb_false_iff in H
         | H : negb _ = true |- _ => apply negb_true_iff in H
         end.

(** The intersection of two valid rectangles that overlap. *)
Lemma intersected_valid (r d : QRect) :
  QRect_isValid r = true -> QRect_isValid d = true ->
  0 < rect_width (intersected r d) ->
  intersected r d
  = mkQRect (Z.max (x1 r) (x1 d)) (Z.max (y1 r) (y1 d))
            (Z.min (x2 r) (x2 d)) (Z.min (y2 r) (y2 d)) /\
  Z.max (x1 r) (x1 d) <= Z.min (x2 r) (x2 d) /\
  Z.max (y1 r) (y1 d) <= Z.min (y2 r) (y2 d).
Proof.
  unfold QRect_isValid, intersected, QRect_isNull, span, rect_width.
  intros Hr Hd. bool_to_Z.
  destruct (x2 r =? x1 r - 1) eqn:E1; [bool_to_Z; lia|].
  destruct (x2 d =? x1 d - 1) eqn:E2; [bool_to_Z; lia|].
  cbn [andb orb].
  destruct (x2 r - x1 r + 1 <? 0) eqn:E3; [bool_to_Z; lia|].
  destruct (x2 d - x1 d + 1 <? 0) eqn:E4; [bool_to_Z; lia|].
  destruct (y2 r - y1 r + 1 <? 0) eqn:E5; [bool_to_Z; lia|].
  destruct (y2 d - y1 d + 1 <? 0) eqn:E6; [bool_to_Z; lia|].
  destruct (x2 d <? x1 r) eqn:E7; [cbn; lia|].
  destruct (x2 r <? x1 d) eqn:E8; [cbn; lia|].
  cbn [orb].
  destruct (y2 d <? y1 r) eqn:E9; [cbn; lia|].
  destruct (y2 r <? y1 d) eqn:E10; [cbn; lia|].
  cbn. bool_to_Z. intros _. split; [reflexivity|]. lia.
Qed.

(** [get_selection_info] returns a selection only for two positions that
    are not the origin, a valid video rectangle and a pixmap; the
    selection is then the drag rectangle, at least 5 x 5 pixels, clipped
    to the video rectangle. *)
Lemma v12_selection_info_inv (v : V1_2.VideoWidget) (info : V1_2.selection_info) :
  V1_2.get_selection_info v = Some info ->
  exists p q d pm,
    V1_2.start_pos v = Some p /\ V1_2.end_pos v = Some q /\
    QPoint_isNull p = false /\ QPoint_isNull q = false /\
    V1_2.video_display_rect v = Some d /\ QRect_isValid d = true /\
    V1_2.displayed_pixmap v = Some pm /\
    let r := normalized (QRect_of_points p q) in
    5 <= rect_width r /\ 5 <= rect_height r /\
    Z.max (x1 r) (x1 d) <= Z.min (x2 r) (x2 d) /\
    Z.max (y1 r) (y1 d) <= Z.min (y2 r) (y2 d) /\
    info = V1_2.mkSelectionInfo r
             (mkQRect (Z.max (x1 r) (x1 d)) (Z.max (y1 r) (y1 d))
                      (Z.min (x2 r) (x2 d)) (Z.min (y2 r) (y2 d)))
             (Z.max (x1 r) (x1 d) - x1 d, Z.max (y1 r) (y1 d) - y1 d,
              Z.min (x2 r) (x2 d) - Z.max (x1 r) (x1 d) + 1,
              Z.min (y2 r) (y2 d) - Z.max (y1 r) (y1 d) + 1)
             (pm_width pm, pm_height pm).
Proof.
  unfold V1_2.get_selection_info.
  destruct (negb _) eqn:Et; [discriminate|].
  destruct (V1_2.start_pos v) as [p|]; [|discriminate].
  destruct (V1_2.end_pos v) as [q|]; [|discriminate].
  destruct (V1_2.video_display_rect v) as [d|]; [|discriminate].
  destruct (V1_2.displayed_pixmap v) as [pm|]; [|discriminate].
  cbv [truth Truthy_option Truthy_QPoint Truthy_QRect Truthy_QPixmap] in Et.
  bool_to_Z.
  set (r := normalized (QRect_of_points p q)).
  destruct ((rect_width r <? 5) || (rect_height r <? 5)) eqn:E5; [discriminate|].
  destruct ((rect_width (intersected r d) <=? 0)
            || (rect_height (intersected r d) <=? 0)) eqn:E0; [discriminate|].
  intros [= <-].
  exists p, q, d, pm. do 7 (split; [reflexivity || assumption|]).
  bool_to_Z.
  assert (Hr : QRect_isValid r = true).
  { unfold QRect_isValid, rect_width, rect_height in *.
    apply andb_true_iff. split; apply Z.leb_le; lia. }
  match goal with H : QRect_isValid d = true |- _ => rename H into Hd end.
  destruct (intersected_valid r d Hr Hd) as [Hi [Hx Hy]]; [lia|].
  cbv zeta. fold r. rewrite Hi.
  unfold rect_x, rect_y, rect_width, rect_height in *. cbn [x1 x2 y1 y2].
  repeat split; lia.
Qed.

(** X2: When [get_selection_info] returns the selection, its part relative to
    the video lies within the displayed video rectangle, is not empty, and
    is no larger than the selection, which is at least 5 pixels wide and
    high; the display size is that of the displayed pixmap. *)
Theorem X2_v12_selection_within_display
    (v : V1_2.VideoWidget) (info : V1_2.selection_info) :
  V1_2.get_selection_info v = Some info ->
  exists d pm,
    V1_2.video_display_rect v = Some d /\
    V1_2.displayed_pixmap v = Some pm /\
    V1_2.display_size info = (pm_width pm, pm_height pm) /\
    let '(rel_x, rel_y, rel_w, rel_h) := V1_2.relative_pos info in
    0 <= rel_x /\ 0 <= rel_y /\ 0 < rel_w /\ 0 < rel_h /\
    rel_x + rel_w <= rect_width d /\ rel_y + rel_h <= rect_height d /\
    rel_w <= rect_width (V1_2.selection_rect info) /\
    rel_h <= rect_height (V1_2.selection_rect info) /\
    5 <= rect_width (V1_2.selection_rect info) /\
    5 <= rect_height (V1_2.selection_rect info).
Proof.
  intros H.
  destruct (v12_selection_info_inv v info H)
    as [p [q [d [pm [_ [_ [_ [_ [Hd [Vd [Hpm Hr]]]]]]]]]]].
  cbv zeta in Hr. destruct Hr as [Hw [Hh [Hx [Hy ->]]]].
  exists d, pm. split; [exact Hd|]. split; [exact Hpm|]. split; [reflexivity|].
  cbn [V1_2.relative_pos V1_2.selection_rect].
  unfold QRect_isValid in Vd. bool_to_Z.
  unfold rect_width, rect_height in *. lia.
Qed.

Lemma X2_v12_selection_within_display_witness :
  exists d pm,
    V1_2.video_display_rect
      (V1_2.drag (mkQPoint 0 100) (mkQPoint 300 300)
         (V1_2.set_video_frame (mkQPixmap 1920 1080 []) (V1_2.VideoWidget_init 640 360)))
    = Some d /\
    V1_2.displayed_pixmap
      (V1_2.drag (mkQPoint 0 100) (mkQPoint 300 300)
         (V1_2.set_video_frame (mkQPixmap 1920 1080 []) (V1_2.VideoWidget_init 640 360)))
    = Some pm.
Proof.
  destruct (X2_v12_selection_within_display
              (V1_2.drag (mkQPoint 0 100) (mkQPoint 300 300)
                 (V1_2.set_video_frame (mkQPixmap 1920 1080 []) (V1_2.VideoWidget_init 640 360)))
              (V1_2.mkSelectionInfo (mkQRect 0 100 300 300) (mkQRect 18 100 300 300)
                 (0, 90, 283, 201) (604, 340)))
    as [d [pm [H1 [H2 _]]]].
  - vm_compute. reflexivity.
  - exists d, pm. auto.
Defined.

Lemma normalized_extent (p q : QPoint) :
  x1 (normalized (QRect_of_points p q)) - 1 <= x2 (normalized (QRect_of_points p q)) /\
  y1 (normalized (QRect_of_points p q)) - 1 <= y2 (normalized (QRect_of_points p q)).
Proof.
  unfold normalized, QRect_of_points. cbn.
  destruct (pt_x q <? pt_x p - 1) eqn:Ex, (pt_y q <? pt_y p - 1) eqn:Ey; cbn; bool_to_Z; lia.
Qed.

(** The intersection of two rectangles of no negative extent is empty or
    is the rectangle between the inner edges. *)
Lemma intersected_extent (r c : QRect) :
  x1 r - 1 <= x2 r -> y1 r - 1 <= y2 r -> x1 c - 1 <= x2 c -> y1 c - 1 <= y2 c ->
  rect_width (intersected r c) = 0 \/ rect_height (intersected r c) = 0 \/
  (intersected r c
   = mkQRect (Z.max (x1 r) (x1 c)) (Z.max (y1 r) (y1 c))
             (Z.min (x2 r) (x2 c)) (Z.min (y2 r) (y2 c)) /\
   0 < rect_width (intersected r c) /\ 0 < rect_height (intersected r c)).
Proof.
  intros Hrx Hry Hcx Hcy. unfold intersected, QRect_isNull, span.
  destruct ((x2 r =? x1 r - 1) && (y2 r =? y1 r - 1)) eqn:E1; [now left|].
  destruct ((x2 c =? x1 c - 1) && (y2 c =? y1 c - 1)) eqn:E2; [now left|].
  cbn [orb].
  destruct (x2 r - x1 r + 1 <? 0) eqn:E3; [bool_to_Z; lia|].
  destruct (x2 c - x1 c + 1 <? 0) eqn:E4; [bool_to_Z; lia|].
  destruct (y2 r - y1 r + 1 <? 0) eqn:E5; [bool_to_Z; lia|].
  destruct (y2 c - y1 c + 1 <? 0) eqn:E6; [bool_to_Z; lia|].
  destruct (x2 c <? x1 r) eqn:E7; [now left|].
  destruct (x2 r <? x1 c) eqn:E8; [now left|].
  cbn [orb].
  destruct (y2 c <? y1 r) eqn:E9; [now left|].
  destruct (y2 r <? y1 c) eqn:E10; [now left|].
  cbn [orb]. clear E1 E2. bool_to_Z.
  unfold rect_width, rect_height. cbn [x1 x2 y1 y2].
  destruct (Z.eq_dec (Z.min (x2 r) (x2 c) - Z.max (x1 r) (x1 c) + 1) 0) as [Hw|Hw]; [now left|].
  destruct (Z.eq_dec (Z.min (y2 r) (y2 c) - Z.max (y1 r) (y1 c) + 1) 0) as [Hh|Hh];
    [right; now left|].
  right. right. split; [reflexivity|]. lia.
Qed.

(** What [get_selection_normalized] returns: the drag rectangle clipped
    to the label, when that is not empty. *)
Lemma v11_selection_clipped (v : V1_1.VideoWidget) (x y w h : Z) :
  V1_1.get_selection_normalized v = Some (x, y, w, h) ->
  0 <= V1_1.width v -> 0 <= V1_1.height v ->
  exists p q,
    V1_1.start_pos v = Some p /\ V1_1.end_pos v = Some q /\
    let r := normalized (QRect_of_points p q) in
    x = Z.max (x1 r) 0 /\ y = Z.max (y1 r) 0 /\
    x + w - 1 = Z.min (x2 r) (V1_1.width v - 1) /\
    y + h - 1 = Z.min (y2 r) (V1_1.height v - 1) /\
    0 < w /\ 0 < h.
Proof.
  unfold V1_1.get_selection_normalized.
  destruct (negb _); [discriminate|].
  destruct (V1_1.start_pos v) as [p|]; [|discriminate].
  destruct (V1_1.end_pos v) as [q|]; [|discriminate].
  intros H Hw Hh. revert H. exists p, q. do 2 (split; [reflexivity|]). revert H.
  destruct (normalized_extent p q) as [Nx Ny]. cbv zeta.
  set (r := normalized (QRect_of_points p q)) in *.
  destruct (intersected_extent r (V1_1.contentsRect v) Nx Ny) as [E|[E|[Ei [Pw Ph]]]];
    try (unfold V1_1.contentsRect, QRect_xywh; cbn; lia).
  - rewrite E. cbn. discriminate.
  - rewrite E. rewrite Z.eqb_refl, orb_true_r. discriminate.
  - destruct (rect_width _ =? 0) eqn:E1; [bool_to_Z; lia|].
    destruct (rect_height _ =? 0) eqn:E2; [bool_to_Z; lia|].
    cbn [orb]. revert Pw Ph. rewrite Ei.
    unfold rect_x, rect_y, rect_width, rect_height, V1_1.contentsRect, QRect_xywh.
    cbn [x1 x2 y1 y2]. intros Pw Ph [= <- <- <- <-]. lia.
Qed.

Lemma v11_selection_bounds (v : V1_1.VideoWidget) (x y w h : Z) :
  V1_1.get_selection_normalized v = Some (x, y, w, h) ->
  0 <= V1_1.width v -> 0 <= V1_1.height v ->
  0 <= x /\ 0 <= y /\ 0 < w /\ 0 < h /\
  x + w <= V1_1.width v /\ y + h <= V1_1.height v.
Proof.
  intros H Hw Hh.
  destruct (v11_selection_clipped v x y w h H Hw Hh) as [p [q [_ [_ Hr]]]].
  cbv zeta in Hr. lia.
Qed.

(** X3: When [get_selection_normalized] returns a selection, it is the drag
    rectangle clipped to the label, it is not empty (never of negative
    extent), and it lies within the label. *)
Theorem X3_v11_selection_within_label (v : V1_1.VideoWidget) (x y w h : Z) :
  V1_1.get_selection_normalized v = Some (x, y, w, h) ->
  0 <= V1_1.width v -> 0 <= V1_1.height v ->
  (exists p q,
     V1_1.start_pos v = Some p /\ V1_1.end_pos v = Some q /\
     x = Z.max (x1 (normalized (QRect_of_points p q))) 0 /\
     y = Z.max (y1 (normalized (QRect_of_points p q))) 0 /\
     x + w - 1 = Z.min (x2 (normalized (QRect_of_points p q))) (V1_1.width v - 1) /\
     y + h - 1 = Z.min (y2 (normalized (QRect_of_points p q))) (V1_1.height v - 1)) /\
  0 <= x /\ 0 <= y /\ 0 < w /\ 0 < h /\
  x + w <= V1_1.width v /\ y + h <= V1_1.height v.
Proof.
  intros H Hw Hh.
  destruct (v11_selection_clipped v x y w h H Hw Hh) as [p [q [Hp [Hq Hr]]]].
  cbv zeta in Hr. destruct Hr as [Hx [Hy [Hx2 [Hy2 [Pw Ph]]]]].
  split.
  - exists p, q. repeat split; assumption.
  - lia.
Qed.

Lemma X3_v11_selection_within_label_witness :
  0 <= 100 /\ 0 <= 50 /\ 0 < 201 /\ 0 < 151 /\ 100 + 201 <= 640 /\ 50 + 151 <= 360.
Proof.
  apply (X3_v11_selection_within_label
           (V1_1.drag (mkQPoint 300 200) (mkQPoint 100 50) (V1_1.VideoWidget_init 640 360))).
  - vm_compute. reflexivity.
  - cbn. lia.
  - cbn. lia.
Defined.

(** X4: A selection of version 1.1 that begins at or beyond the right edge, or
    at or below the bottom edge, of the displayed picture is refused with
    the warning "Selection outside video." and nothing is written. *)
Theorem X4_v11_selection_beyond_picture_refused
    (env : V1_1.Env) (out : string) (a : V1_1.App) (pm : QPixmap) (x y w h : Z) :
  let v := V1_1.video_widget (V1_1.self a) in
  V1_1.get_selection_normalized v = Some (x, y, w, h) ->
  V1_1.pixmap_img v = Some pm ->
  Z.max 0 ((V1_1.width v - pm_width pm) / 2) + pm_width pm <= x \/
  Z.max 0 ((V1_1.height v - pm_height pm) / 2) + pm_height pm <= y ->
  V1_1.crop_and_save env out a
  = ok (V1_1.show_message Warning "Invalid" "Selection outside video." a) /\
  V1_1.written (V1_1.show_message Warning "Invalid" "Selection outside video." a)
  = V1_1.written a.
Proof.
  intros v Hsel Hpix Hout. split; [|reflexivity].
  unfold V1_1.crop_and_save. fold v. rewrite Hsel, Hpix.
  unfold V1_1.selection_in_pixmap.
  match goal with
  | |- (if ?b then _ else _) = _ => destruct b eqn:E; [reflexivity|]
  end.
  bool_to_Z. lia.
Qed.

Lemma X4_v11_selection_beyond_picture_refused_witness :
  V1_1.crop_and_save Small.moviepy "out.mp4"
    (V1_1.on_widget (V1_1.drag (mkQPoint 570 10) (mkQPoint 600 100)) Small.loaded11)
  = ok (V1_1.show_message Warning "Invalid" "Selection outside video."
          (V1_1.on_widget (V1_1.drag (mkQPoint 570 10) (mkQPoint 600 100)) Small.loaded11)).
Proof.
  refine (proj1 (X4_v11_selection_beyond_picture_refused Small.moviepy "out.mp4"
           (V1_1.on_widget (V1_1.drag (mkQPoint 570 10) (mkQPoint 600 100)) Small.loaded11)
           (mkQPixmap 480 360 (Scenario.plain_frame 8 6 Scenario.black))
           570 10 31 91 _ _ _)).
  - vm_compute. reflexivity.
  - vm_compute. reflexivity.
  - left. vm_compute. discriminate.
Defined.

(** ** Mouse events *)

Lemma v12_moves_keep_drag (moves : list QMouseEvent) :
  forall (p : QPoint) (e : option QPoint) (v : V1_2.VideoWidget),
  exists e',
    fold_left (fun w ev => V1_2.mouseMoveEvent ev w) moves (V1_2.with_drag true (Some p) e v)
    = V1_2.with_drag true (Some p) e' v.
Proof.
  induction moves as [|ev rest IH]; intros p e v; cbn [fold_left].
  - now exists e.
  - change (V1_2.mouseMoveEvent ev (V1_2.with_drag true (Some p) e v))
      with (V1_2.with_drag true (Some p) (Some (pos ev)) v).
    apply IH.
Qed.

Lemma v11_moves_keep_drag (moves : list QMouseEvent) :
  forall (p : QPoint) (e : option QPoint) (v : V1_1.VideoWidget),
  exists e',
    fold_left (fun w ev => V1_1.mouseMoveEvent ev w) moves
      (V1_1.mkVideoWidget (V1_1.width v) (V1_1.height v) true (Some p) e (V1_1.pixmap_img v))
    = V1_1.mkVideoWidget (V1_1.width v) (V1_1.height v) true (Some p) e' (V1_1.pixmap_img v).
Proof.
  induction moves as [|ev rest IH]; intros p e v; cbn [fold_left].
  - now exists e.
  - cbn. apply (IH p (Some (pos ev)) v).
Qed.

(** X5: A drag depends on where the button was pressed and where it was
    released only: whatever the mouse moves in between (with whatever
    buttons), and whatever was selected before, the widget ends as after
    the direct drag, with the two positions kept and the drag over; in
    both versions. *)
Theorem X5_drag_ignores_the_path (p q : QPoint) (moves : list QMouseEvent)
    (v1 : V1_1.VideoWidget) (v2 : V1_2.VideoWidget) :
  V1_1.mouseReleaseEvent (mkQMouseEvent LeftButton q)
    (fold_left (fun w ev => V1_1.mouseMoveEvent ev w) moves
       (V1_1.mousePressEvent (mkQMouseEvent LeftButton p) v1))
  = V1_1.drag p q v1 /\
  V1_2.mouseReleaseEvent (mkQMouseEvent LeftButton q)
    (fold_left (fun w ev => V1_2.mouseMoveEvent ev w) moves
       (V1_2.mousePressEvent (mkQMouseEvent LeftButton p) v2))
  = V1_2.drag p q v2 /\
  V1_1.start_pos (V1_1.drag p q v1) = Some p /\
  V1_1.end_pos (V1_1.drag p q v1) = Some q /\
  V1_2.start_pos (V1_2.drag p q v2) = Some p /\
  V1_2.end_pos (V1_2.drag p q v2) = Some q /\
  V1_1.dragging (V1_1.drag p q v1) = false /\
  V1_2.dragging (V1_2.drag p q v2) = false.
Proof.
  split; [|split; [|repeat split]].
  - change (V1_1.mousePressEvent (mkQMouseEvent LeftButton p) v1)
      with (V1_1.mkVideoWidget (V1_1.width v1) (V1_1.height v1) true (Some p) (Some p)
              (V1_1.pixmap_img v1)).
    destruct (v11_moves_keep_drag moves p (Some p) v1) as [e' ->]. reflexivity.
  - change (V1_2.mousePressEvent (mkQMouseEvent LeftButton p) v2)
      with (V1_2.with_drag true (Some p) (Some p) v2).
    destruct (v12_moves_keep_drag moves p (Some p) v2) as [e' ->]. reflexivity.
Qed.

(** ** Floats: magnitudes *)

Lemma digits2_pos_bounds (p : positive) :
  2 ^ (Zpos (digits2_pos p) - 1) <= Zpos p < 2 ^ Zpos (digits2_pos p).
Proof.
  induction p as [p IH|p IH|]; cbn [digits2_pos].
  - rewrite Pos2Z.inj_succ, (Pos2Z.inj_xI p).
    replace (Z.succ (Zpos (digits2_pos p)) - 1) with (Z.succ (Zpos (digits2_pos p) - 1)) by lia.
    rewrite !Z.pow_succ_r by lia.
    generalize dependent (2 ^ (Zpos (digits2_pos p) - 1)).
    generalize dependent (2 ^ Zpos (digits2_pos p)). intros; lia.
  - rewrite Pos2Z.inj_succ, (Pos2Z.inj_xO p).
    replace (Z.succ (Zpos (digits2_pos p)) - 1) with (Z.succ (Zpos (digits2_pos p) - 1)) by lia.
    rewrite !Z.pow_succ_r by lia.
    generalize dependent (2 ^ (Zpos (digits2_pos p) - 1)).
    generalize dependent (2 ^ Zpos (digits2_pos p)). intros; lia.
  - cbn. lia.
Qed.

Lemma Zdigits2_le_iff (m k : Z) :
  0 < m -> 0 <= k -> (Zdigits2 m <= k <-> m < 2 ^ k).
Proof.
  intros Hm Hk. destruct m as [|p|p]; try lia. cbn [Zdigits2].
  pose proof (digits2_pos_bounds p) as [Hlo Hhi]. split; intros H.
  - pose proof (Z.pow_le_mono_r 2 (Zpos (digits2_pos p)) k ltac:(lia) H). lia.
  - destruct (Z_le_gt_dec (Zpos (digits2_pos p)) k) as [|Hgt]; [assumption|].
    pose proof (Z.pow_le_mono_r 2 k (Zpos (digits2_pos p) - 1) ltac:(lia) ltac:(lia)). lia.
Qed.

Lemma Zdigits2_nonneg (m : Z) : 0 <= Zdigits2 m.
Proof. destruct m; cbn; lia. Qed.

Lemma Zdigits2_pos (m : Z) : 0 < m -> 0 < Zdigits2 m.
Proof. destruct m; cbn; lia. Qed.

Lemma Zdigits2_mono (a b : Z) : 0 < a <= b -> Zdigits2 a <= Zdigits2 b.
Proof.
  intros [Ha Hab].
  apply (Zdigits2_le_iff a (Zdigits2 b) Ha (Zdigits2_nonneg b)).
  pose proof (proj1 (Zdigits2_le_iff b (Zdigits2 b) ltac:(lia) (Zdigits2_nonneg b)) (Z.le_refl _)).
  lia.
Qed.

Lemma Zdigits2_succ (a : Z) : 0 <= a -> Zdigits2 (a + 1) <= Zdigits2 a + 1.
Proof.
  intros Ha. destruct (Z.eq_dec a 0) as [->|Hne]; [cbn; lia|].
  apply (Zdigits2_le_iff (a + 1) (Zdigits2 a + 1) ltac:(lia)).
  - pose proof (Zdigits2_nonneg a). lia.
  - pose proof (proj1 (Zdigits2_le_iff a (Zdigits2 a) ltac:(lia) (Zdigits2_nonneg a)) (Z.le_refl _)).
    rewrite Z.pow_add_r by (pose proof (Zdigits2_nonneg a); lia). lia.
Qed.

Lemma Zdigits2_div_pow (m n : Z) :
  0 < m -> 0 <= n -> 0 < m / 2 ^ n -> Zdigits2 (m / 2 ^ n) + n <= Zdigits2 m.
Proof.
  intros Hm Hn Hq.
  pose proof (proj1 (Zdigits2_le_iff m (Zdigits2 m) Hm (Zdigits2_nonneg m)) (Z.le_refl _)) as Hhi.
  assert (Hp : 0 < 2 ^ n) by (apply Z.pow_pos_nonneg; lia).
  assert (Hlt : n < Zdigits2 m).
  { destruct (Z_lt_ge_dec n (Zdigits2 m)) as [|Hge]; [assumption|].
    pose proof (Z.pow_le_mono_r 2 (Zdigits2 m) n ltac:(lia) ltac:(lia)).
    rewrite Z.div_small in Hq by lia. lia. }
  enough (Zdigits2 (m / 2 ^ n) <= Zdigits2 m - n) by lia.
  apply (Zdigits2_le_iff _ _ Hq); [lia|].
  apply Z.div_lt_upper_bound; [assumption|].
  rewrite <- Z.pow_add_r by lia. replace (n + (Zdigits2 m - n)) with (Zdigits2 m) by lia.
  assumption.
Qed.

Lemma Zdigits2_mul_pow (m n : Z) :
  0 < m -> 0 <= n -> Zdigits2 (m * 2 ^ n) <= Zdigits2 m + n.
Proof.
  intros Hm Hn.
  pose proof (proj1 (Zdigits2_le_iff m (Zdigits2 m) Hm (Zdigits2_nonneg m)) (Z.le_refl _)) as Hhi.
  assert (Hp : 0 < 2 ^ n) by (apply Z.pow_pos_nonneg; lia).
  apply Zdigits2_le_iff; [nia| pose proof (Zdigits2_nonneg m); lia |].
  rewrite Z.pow_add_r by (pose proof (Zdigits2_nonneg m); lia). nia.
Qed.

Lemma Zdigits2_mul (a b : Z) :
  0 < a -> 0 < b -> Zdigits2 (a * b) <= Zdigits2 a + Zdigits2 b.
Proof.
  intros Ha Hb.
  pose proof (proj1 (Zdigits2_le_iff a (Zdigits2 a) Ha (Zdigits2_nonneg a)) (Z.le_refl _)) as Hhi.
  pose proof (proj1 (Zdigits2_le_iff b (Zdigits2 b) Hb (Zdigits2_nonneg b)) (Z.le_refl _)) as Hhj.
  pose proof (Zdigits2_nonneg a). pose proof (Zdigits2_nonneg b).
  apply Zdigits2_le_iff; [nia|lia|].
  rewrite Z.pow_add_r by lia. nia.
Qed.

Lemma shr_1_m (mrs : shr_record) : 0 <= shr_m mrs -> shr_m (shr_1 mrs) = shr_m mrs / 2.
Proof.
  destruct mrs as [m r s]. cbn [shr_m]. intros Hm.
  destruct m as [|[p|p|]|p]; cbn [shr_1 shr_m]; [reflexivity| | |reflexivity|lia].
  - rewrite (Pos2Z.inj_xI p). apply Z.div_unique with (r := 1); lia.
  - rewrite (Pos2Z.inj_xO p). apply Z.div_unique with (r := 0); lia.
Qed.

Lemma iter_pos_shr_1_m (p : positive) :
  forall mrs, 0 <= shr_m mrs ->
    shr_m (iter_pos shr_1 p mrs) = shr_m mrs / 2 ^ Zpos p.
Proof.
  induction p as [p IH|p IH|]; intros mrs Hm; cbn [iter_pos].
  - assert (H1 : 0 <= shr_m (shr_1 mrs)).
    { rewrite shr_1_m by assumption. apply Z.div_pos; lia. }
    assert (H2 : 0 <= shr_m (iter_pos shr_1 p (shr_1 mrs))).
    { rewrite IH by assumption. apply Z.div_pos; [assumption|]. apply Z.pow_pos_nonneg; lia. }
    rewrite IH, IH, shr_1_m by assumption.
    rewrite !Z.div_div by (try apply Z.pow_pos_nonneg; lia).
    f_equal. rewrite (Pos2Z.inj_xI p).
    replace (2 * Zpos p + 1) with (1 + Zpos p + Zpos p) by lia.
    rewrite !Z.pow_add_r by lia. lia.
  - assert (H2 : 0 <= shr_m (iter_pos shr_1 p mrs)).
    { rewrite IH by assumption. apply Z.div_pos; [assumption|]. apply Z.pow_pos_nonneg; lia. }
    rewrite IH, IH by assumption.
    rewrite !Z.div_div by (try apply Z.pow_pos_nonneg; lia).
    f_equal. rewrite (Pos2Z.inj_xO p).
    replace (2 * Zpos p) with (Zpos p + Zpos p) by lia.
    rewrite !Z.pow_add_r by lia. lia.
  - rewrite shr_1_m by assumption. reflexivity.
Qed.

Lemma shr_record_of_loc_m (m : Z) (l : location) : shr_m (shr_record_of_loc m l) = m.
Proof. destruct l as [|[| |]]; reflexivity. Qed.

Lemma round_nearest_even_bounds (m : Z) (l : location) :
  m <= round_nearest_even m l <= m + 1.
Proof.
  destruct l as [|[| |]]; cbn [round_nearest_even]; try lia.
  destruct (Z.even m); lia.
Qed.

Lemma fexp64 (e : Z) : fexp 53 1024 e = Z.max (e - 53) (-1074).
Proof. reflexivity. Qed.

(** What [shr_fexp] leaves of a mantissa that is not negative. *)
Lemma shr_fexp_bound (m e : Z) (l : location) :
  0 <= m ->
  let '(mrs, e') := shr_fexp 53 1024 m e l in
  0 <= shr_m mrs <= m /\
  (e' = e \/ e' = fexp 53 1024 (Zdigits2 m + e)) /\
  fexp 53 1024 (Zdigits2 m + e) <= e' /\
  (0 < shr_m mrs -> Zdigits2 (shr_m mrs) + e' <= Zdigits2 m + e).
Proof.
  intros Hm. unfold shr_fexp, shr.
  destruct (fexp 53 1024 (Zdigits2 m + e) - e) as [|p|p] eqn:E.
  - rewrite shr_record_of_loc_m. repeat split; lia.
  - rewrite iter_pos_shr_1_m by (rewrite shr_record_of_loc_m; assumption).
    rewrite shr_record_of_loc_m.
    assert (Hp : 0 < 2 ^ Zpos p) by (apply Z.pow_pos_nonneg; lia).
    split; [|split; [|split]].
    + split; [apply Z.div_pos; lia|].
      apply Z.div_le_upper_bound; [assumption|]. nia.
    + right. lia.
    + lia.
    + intros Hq.
      assert (0 < m) by (destruct (Z.eq_dec m 0) as [->|]; [rewrite Z.div_0_l in Hq; lia|lia]).
      pose proof (Zdigits2_div_pow m (Zpos p) ltac:(lia) ltac:(lia) Hq). lia.
  - rewrite shr_record_of_loc_m. repeat split; lia.
Qed.

(** Rounding to a double does not overflow when the magnitude is small
    enough; [K] bounds the exponent of the leading bit. *)
Lemma binary_round_aux_bound (s : bool) (mz ez : Z) (lz : location) (K : Z) :
  0 <= mz -> Zdigits2 mz + ez <= K -> ez <= 971 -> -1074 <= K <= 1023 ->
  match binary_round_aux 53 1024 s mz ez lz with
  | S754_zero s' => s' = s
  | S754_finite s' m e =>
      s' = s /\ Zdigits2 (Zpos m) + e <= K + 1 /\ e <= Z.max ez (Z.max (K - 52) (-1074))
  | _ => False
  end.
Proof.
  intros Hmz HK Hez HKb. unfold binary_round_aux.
  pose proof (shr_fexp_bound mz ez lz Hmz) as H1.
  destruct (shr_fexp 53 1024 mz ez lz) as [mrs' e'].
  destruct H1 as [[Hm0 Hm0'] [He' [He'lo Hd']]].
  set (m1 := round_nearest_even (shr_m mrs') (loc_of_shr_record mrs')).
  pose proof (round_nearest_even_bounds (shr_m mrs') (loc_of_shr_record mrs')) as Hm1.
  fold m1 in Hm1.
  assert (Hm1nn : 0 <= m1) by lia.
  pose proof (shr_fexp_bound m1 e' loc_Exact Hm1nn) as H2.
  destruct (shr_fexp 53 1024 m1 e' loc_Exact) as [mrs'' e''].
  destruct H2 as [[Hm2 Hm2'] [He'' [He''lo Hd'']]].
  rewrite !fexp64 in *.
  assert (Hd1 : Zdigits2 m1 + e' <= K + 1).
  { destruct (Z.eq_dec (shr_m mrs') 0) as [Hz|Hnz].
    - assert (Hd : Zdigits2 m1 <= 1).
      { destruct (Z.eq_dec m1 0) as [->|]; [cbn; lia|].
        replace m1 with 1 by lia. cbn. lia. }
      destruct (Z.eq_dec mz 0) as [Hmz0|Hmz0].
      + subst mz. cbn [Zdigits2] in *. lia.
      + pose proof (Zdigits2_pos mz ltac:(lia)).
        destruct He' as [->| ->]; [lia|].
        (* shifted to zero: the shift was at least the number of digits *)
        lia.
    - pose proof (Zdigits2_succ (shr_m mrs') ltac:(lia)).
      pose proof (Zdigits2_mono m1 (shr_m mrs' + 1) ltac:(lia)).
      specialize (Hd' ltac:(lia)). lia. }
  destruct (shr_m mrs'') as [|m|m] eqn:Em; [reflexivity| |lia].
  specialize (Hd'' ltac:(lia)).
  assert (He2 : e'' <= Z.max ez (Z.max (K - 52) (-1074))) by lia.
  destruct (e'' <=? 1024 - 53) eqn:El; [|apply Z.leb_gt in El; lia].
  split; [reflexivity|split; lia].
Qed.

Import Magnitude.

Lemma Pos_iter_xO (m k : positive) : Zpos (Pos.iter xO m k) = Zpos m * 2 ^ Zpos k.
Proof.
  rewrite (Pos.iter_swap_gen _ _ Zpos xO (Z.mul 2)) by reflexivity.
  change (Pos.iter (Z.mul 2) (Zpos m) k) with (Z.shiftl (Zpos m) (Zpos k)).
  apply Z.shiftl_mul_pow2. lia.
Qed.

Lemma Zdigits2_fits (K n : Z) : 0 <= K -> n <> 0 -> fits K n -> Zdigits2 n <= K.
Proof.
  unfold fits. intros HK Hn H.
  destruct n as [|p|p]; [contradiction| |];
    apply (Zdigits2_le_iff (Zpos p) K); cbn in *; lia.
Qed.

(** Reading off the result of a rounding that is known not to overflow. *)
Ltac rounded B :=
  match type of B with
  | match ?r with _ => _ end =>
      destruct r; cbn [below sign_bit Zdigits2] in *; try contradiction;
      [ subst; split; [exact I|try reflexivity; intros; try reflexivity; try lia]
      | let B1 := fresh "B" in let B2 := fresh "B" in
        destruct B as [-> [B1 B2]]; split; [split; lia|try reflexivity; intros; try reflexivity; try lia] ]
  end.

Lemma binary_round_below (s : bool) (m : positive) (K : Z) :
  0 <= K <= 1023 -> Zpos (digits2_pos m) <= K ->
  below (K + 1) (Z.max 0 (K - 52)) (binary_round 53 1024 s m 0) /\
  sign_bit (binary_round 53 1024 s m 0) = s.
Proof.
  intros HK Hd. unfold binary_round, shl_align. rewrite fexp64.
  destruct (Z.max (Zpos (digits2_pos m) + 0 - 53) (-1074) - 0) as [|d|d] eqn:Ed.
  - pose proof (binary_round_aux_bound s (Zpos m) 0 loc_Exact K ltac:(lia)
                  ltac:(cbn [Zdigits2]; lia) ltac:(lia) ltac:(lia)) as B.
    rounded B.
  - pose proof (binary_round_aux_bound s (Zpos m) 0 loc_Exact K ltac:(lia)
                  ltac:(cbn [Zdigits2]; lia) ltac:(lia) ltac:(lia)) as B.
    rounded B.
  - pose proof (Zdigits2_mul_pow (Zpos m) (Zpos d) ltac:(lia) ltac:(lia)) as Hs.
    rewrite <- Pos_iter_xO in Hs.
    pose proof (binary_round_aux_bound s (Zpos (Pos.iter xO m d))
                  (Z.max (Zpos (digits2_pos m) + 0 - 53) (-1074)) loc_Exact K ltac:(lia)
                  ltac:(cbn [Zdigits2] in *; lia) ltac:(lia) ltac:(lia)) as B.
    rounded B.
Qed.

(** [float(n)] of an int below [2^K] is finite. *)
Lemma of_int_below (K n : Z) :
  0 <= K <= 1023 -> fits K n ->
  exists x, PyFloat.of_int n = ok x /\ below (K + 1) (Z.max 0 (K - 52)) x /\
            (0 <= n -> sign_bit x = false).
Proof.
  intros HK Hn. unfold PyFloat.of_int.
  assert (H : below (K + 1) (Z.max 0 (K - 52)) (binary_normalize PyFloat.prec PyFloat.emax n 0 false)
              /\ (0 <= n -> sign_bit (binary_normalize PyFloat.prec PyFloat.emax n 0 false) = false)).
  { change PyFloat.prec with 53; change PyFloat.emax with 1024.
    destruct n as [|m|m]; [split; [exact I|reflexivity]| |]; cbn [binary_normalize].
    - pose proof (Zdigits2_fits K (Zpos m) ltac:(lia) ltac:(lia) Hn) as Hd. cbn [Zdigits2] in Hd.
      destruct (binary_round_below false m K HK Hd) as [Hb Hs]. split; [exact Hb|intros _; exact Hs].
    - pose proof (Zdigits2_fits K (Zneg m) ltac:(lia) ltac:(lia) Hn) as Hd. cbn [Zdigits2] in Hd.
      destruct (binary_round_below true m K HK Hd) as [Hb Hs]. split; [exact Hb|lia]. }
  destruct H as [Hb Hs].
  destruct (binary_normalize PyFloat.prec PyFloat.emax n 0 false) as [s|s| |s m e];
    cbn in Hb; try contradiction; cbn [PyFloat.is_infinite]; eexists; (split; [reflexivity|]);
    split; auto.
Qed.

Lemma SFdiv_core_bound (ma mb : positive) :
  let '(q, e', l) := SFdiv_core_binary 53 1024 (Zpos ma) 0 (Zpos mb) 0 in
  0 <= q /\ e' <= 0 /\ Zdigits2 q + e' <= Zpos (digits2_pos ma).
Proof.
  unfold SFdiv_core_binary. cbn [Zdigits2]. rewrite fexp64.
  set (e' := Z.min _ (0 - 0)).
  assert (He' : e' <= 0) by (subst e'; lia).
  set (m' := match 0 - 0 - e' with Zpos _ => Z.shiftl (Zpos ma) (0 - 0 - e') | Z0 => Zpos ma | Zneg _ => 0 end).
  assert (Hm' : 0 < m' /\ Zdigits2 m' + e' <= Zpos (digits2_pos ma)).
  { subst m'. destruct (0 - 0 - e') as [|s|s] eqn:Es.
    - cbn [Zdigits2]. lia.
    - rewrite Z.shiftl_mul_pow2 by lia.
      pose proof (Zdigits2_mul_pow (Zpos ma) (Zpos s) ltac:(lia) ltac:(lia)) as H.
      cbn [Zdigits2] in H.
      assert (0 < 2 ^ Zpos s) by (apply Z.pow_pos_nonneg; lia).
      split; [nia|lia].
    - lia. }
  destruct Hm' as [Hpos Hdig].
  pose proof (Z_div_mod m' (Zpos mb) ltac:(lia)) as Hdm.
  destruct (Z.div_eucl m' (Zpos mb)) as [q r]. destruct Hdm as [Heq Hr].
  assert (Hq : 0 <= q <= m') by nia.
  split; [lia|]. split; [assumption|].
  destruct (Z.eq_dec q 0) as [->|Hne]; [cbn [Zdigits2]; lia|].
  pose proof (Zdigits2_mono q m' ltac:(lia)). lia.
Qed.

(** [a / b] on ints, with [a] below [2^K] and [b] not zero, is finite. *)
Lemma truediv_below (K a b : Z) :
  0 <= K <= 1023 -> fits K a -> b <> 0 ->
  exists x, PyFloat.truediv a b = ok x /\ below (K + 1) (Z.max 0 (K - 52)) x /\
            (0 <= a -> 0 < b -> sign_bit x = false).
Proof.
  intros HK Ha Hb. unfold PyFloat.truediv.
  destruct (b =? 0) eqn:Eb; [apply Z.eqb_eq in Eb; contradiction|].
  change PyFloat.prec with 53; change PyFloat.emax with 1024.
  assert (H : below (K + 1) (Z.max 0 (K - 52)) (SFdiv 53 1024 (PyFloat.exact a) (PyFloat.exact b)) /\
              (0 <= a -> 0 < b -> sign_bit (SFdiv 53 1024 (PyFloat.exact a) (PyFloat.exact b)) = false)).
  { destruct b as [|mb|mb]; [contradiction| |]; destruct a as [|ma|ma]; cbn [PyFloat.exact SFdiv];
      try (split; [exact I|intros; try reflexivity; lia]).
    all: pose proof (SFdiv_core_bound ma mb) as Hc; cbv zeta.
    all: destruct (SFdiv_core_binary 53 1024 (Zpos ma) 0 (Zpos mb) 0) as [[q e'] l].
    all: destruct Hc as [Hq [He' Hd]].
    all: match goal with
         | Hq : 0 <= ?q |- context [binary_round_aux 53 1024 ?s ?q ?e ?l] =>
             pose proof (binary_round_aux_bound s q e l K Hq) as B
         end.
    - pose proof (Zdigits2_fits K (Zpos ma) ltac:(lia) ltac:(lia) Ha) as Hda. cbn [Zdigits2] in Hda.
      specialize (B ltac:(lia) ltac:(lia) ltac:(lia)). rounded B.
    - pose proof (Zdigits2_fits K (Zneg ma) ltac:(lia) ltac:(lia) Ha) as Hda. cbn [Zdigits2] in Hda.
      specialize (B ltac:(lia) ltac:(lia) ltac:(lia)). rounded B.
    - pose proof (Zdigits2_fits K (Zpos ma) ltac:(lia) ltac:(lia) Ha) as Hda. cbn [Zdigits2] in Hda.
      specialize (B ltac:(lia) ltac:(lia) ltac:(lia)). rounded B.
    - pose proof (Zdigits2_fits K (Zneg ma) ltac:(lia) ltac:(lia) Ha) as Hda. cbn [Zdigits2] in Hda.
      specialize (B ltac:(lia) ltac:(lia) ltac:(lia)). rounded B. }
  destruct H as [Hbel Hs].
  destruct (SFdiv 53 1024 (PyFloat.exact a) (PyFloat.exact b)) as [s|s| |s m e];
    cbn in Hbel; try contradiction; cbn [PyFloat.is_infinite]; eexists; (split; [reflexivity|]);
    split; auto.
Qed.

(** A product of two floats of bounded magnitude is finite. *)
Lemma SFmul_below (K1 E1 K2 E2 : Z) (x y : spec_float) :
  below K1 E1 x -> below K2 E2 y -> K1 + K2 <= 1023 -> E1 + E2 <= 971 ->
  below (Z.max (K1 + K2) (-1074) + 1) 971 (SFmul 53 1024 x y) /\
  sign_bit (SFmul 53 1024 x y) = xorb (sign_bit x) (sign_bit y).
Proof.
  intros Hx Hy HK HE.
  destruct x as [sx|sx| |sx mx ex], y as [sy|sy| |sy my ey]; cbn [below] in Hx, Hy;
    try contradiction; cbn [SFmul sign_bit]; try (split; [exact I|reflexivity]).
  destruct Hx as [Hx1 Hx2], Hy as [Hy1 Hy2].
  pose proof (Zdigits2_mul (Zpos mx) (Zpos my) ltac:(lia) ltac:(lia)) as Hm.
  change (Zpos mx * Zpos my) with (Zpos (mx * my)) in Hm.
  pose proof (binary_round_aux_bound (xorb sx sy) (Zpos (mx * my)) (ex + ey) loc_Exact
                (Z.max (K1 + K2) (-1074)) ltac:(lia) ltac:(lia) ltac:(lia) ltac:(lia)) as B.
  destruct (binary_round_aux 53 1024 (xorb sx sy) (Zpos (mx * my)) (ex + ey) loc_Exact);
    cbn [below sign_bit] in *; try contradiction.
  - split; [exact I|exact B].
  - destruct B as [-> [B1 B2]]. split; [split; lia|reflexivity].
Qed.

Lemma to_int_below (K E : Z) (x : spec_float) :
  below K E x ->
  exists n, PyFloat.to_int x = ok n /\ (sign_bit x = false -> 0 <= n).
Proof.
  destruct x as [s|s| |s m e]; cbn [below]; try contradiction; intros H; cbn [PyFloat.to_int].
  - exists 0. split; [reflexivity|lia].
  - eexists. split; [reflexivity|]. cbn [sign_bit]. intros ->. cbn [cond_Zopp].
    apply Z.shiftl_nonneg. lia.
Qed.

Lemma round_below (K E : Z) (x : spec_float) :
  below K E x -> exists n, PyFloat.round x = ok n.
Proof.
  destruct x as [s|s| |s m e]; cbn [below]; try contradiction; intros H; cbn [PyFloat.round];
    eexists; reflexivity.
Qed.

(** The scaled coordinates of both versions: [int(n * scale)] and
    [round(n * scale)] return, for ints below [2^500]. *)
Lemma scaled_coordinate_returns (n a b : Z) :
  fits 500 n -> fits 500 a -> b <> 0 ->
  exists scale,
    PyFloat.truediv a b = ok scale /\
    (exists t, (f <- PyFloat.int_mul n scale ;; PyFloat.to_int f)%py = ok t /\
               (0 <= n -> 0 <= a -> 0 < b -> 0 <= t)) /\
    (exists r, (f <- PyFloat.int_mul n scale ;; PyFloat.round f)%py = ok r).
Proof.
  intros Hn Ha Hb.
  destruct (truediv_below 500 a b ltac:(lia) Ha Hb) as [scale [Hs [Hsb Hss]]].
  exists scale. split; [exact Hs|].
  destruct (of_int_below 500 n ltac:(lia) Hn) as [fn [Hf [Hfb Hfs]]].
  unfold PyFloat.int_mul. rewrite Hf. cbn [Py.bind].
  change PyFloat.prec with 53; change PyFloat.emax with 1024.
  destruct (SFmul_below _ _ _ _ fn scale Hfb Hsb ltac:(lia) ltac:(lia)) as [Hp Hps].
  split.
  - destruct (to_int_below _ _ _ Hp) as [t [Ht Htn]]. exists t. split; [exact Ht|].
    intros H1 H2 H3. apply Htn. rewrite Hps, Hfs, Hss by assumption. reflexivity.
  - apply (round_below _ _ _ Hp).
Qed.

(** ** The states the event loop of version 1.2 reaches *)

Import Reach.

Lemma update_display_idem (v : V1_2.VideoWidget) :
  V1_2.update_display (V1_2.update_display v) = V1_2.update_display v.
Proof.
  unfold V1_2.update_display.
  destruct (V1_2.original_pixmap v) as [original|] eqn:E; cbn; rewrite ?E; reflexivity.
Qed.

Lemma display_current_update (v : V1_2.VideoWidget) :
  V1_2.original_pixmap v <> None -> display_current (V1_2.update_display v).
Proof.
  intros H. unfold display_current.
  assert (E : V1_2.original_pixmap (V1_2.update_display v) = V1_2.original_pixmap v).
  { unfold V1_2.update_display. destruct (V1_2.original_pixmap v) eqn:E; cbn; congruence. }
  rewrite E. destruct (V1_2.original_pixmap v); [apply update_display_idem|contradiction].
Qed.

Lemma display_current_with_drag (d : bool) (s e : option QPoint) (v : V1_2.VideoWidget) :
  display_current v -> display_current (V1_2.with_drag d s e v).
Proof.
  destruct v as [w h d0 s0 e0 [original|] dp vr]; unfold display_current; cbn; [|auto].
  unfold V1_2.update_display, V1_2.with_drag. cbn.
  intros [= H1 H2]. rewrite H1, H2. reflexivity.
Qed.

Lemma display_current_resize (w h : Z) (v : V1_2.VideoWidget) :
  display_current v -> display_current (V1_2.resizeEvent w h v).
Proof.
  intros H. unfold V1_2.resizeEvent. cbn.
  destruct (V1_2.original_pixmap v) as [original|] eqn:E.
  - cbv [truth Truthy_option Truthy_QPixmap]. apply display_current_update. cbn. congruence.
  - cbn. unfold display_current in *. cbn. rewrite E in *. exact H.
Qed.

Lemma display_current_mouse (v : V1_2.VideoWidget) :
  display_current v ->
  (forall e, display_current (V1_2.mousePressEvent e v)) /\
  (forall e, display_current (V1_2.mouseMoveEvent e v)) /\
  (forall e, display_current (V1_2.mouseReleaseEvent e v)) /\
  display_current (V1_2.clear_selection v).
Proof.
  intros H. repeat split; try intros e.
  - unfold V1_2.mousePressEvent. destruct (is_left _); [now apply display_current_with_drag|exact H].
  - unfold V1_2.mouseMoveEvent. destruct (V1_2.dragging v); [now apply display_current_with_drag|exact H].
  - unfold V1_2.mouseReleaseEvent. destruct (_ && _); [now apply display_current_with_drag|exact H].
  - now apply display_current_with_drag.
Qed.

Lemma window_ok_init (fs : string -> option V1_2.VideoFile) (w h : Z) :
  window_ok fs (V1_2.App_init fs w h).
Proof.
  constructor; cbn; try reflexivity.
  - split; reflexivity.
  - repeat split; reflexivity.
  - discriminate.
Qed.

(** The invariant reads the window through everything but the info label,
    and the program through its files. *)
Lemma window_ok_info (fs : string -> option V1_2.VideoFile) (a a' : V1_2.App) (t : V1_2.label_text) :
  V1_2.files a' = V1_2.files a -> V1_2.self a' = V1_2.set_info t (V1_2.self a) ->
  window_ok fs a -> window_ok fs a'.
Proof.
  intros Hf Hs [H1 H2 H3 H4 H5 H6].
  constructor; rewrite ?Hf, ?Hs; cbn; try assumption.
Qed.

Lemma window_ok_same (fs : string -> option V1_2.VideoFile) (a a' : V1_2.App) :
  V1_2.files a' = V1_2.files a -> V1_2.self a' = V1_2.self a ->
  window_ok fs a -> window_ok fs a'.
Proof.
  intros Hf Hs [H1 H2 H3 H4 H5 H6].
  constructor; rewrite ?Hf, ?Hs; assumption.
Qed.

Lemma window_ok_widget (fs : string -> option V1_2.VideoFile) (a : V1_2.App)
    (f : V1_2.VideoWidget -> V1_2.VideoWidget) :
  (display_current (V1_2.video_widget (V1_2.self a)) ->
   display_current (f (V1_2.video_widget (V1_2.self a)))) ->
  V1_2.original_pixmap (f (V1_2.video_widget (V1_2.self a)))
  = V1_2.original_pixmap (V1_2.video_widget (V1_2.self a)) ->
  window_ok fs a -> window_ok fs (V1_2.on_widget f a).
Proof.
  intros Hd Ho [H1 H2 H3 H4 H5 H6].
  constructor; cbn; try assumption.
  - now apply Hd.
  - now rewrite Ho.
Qed.

Lemma v12_process_crop_self (out : string) (x y w h : Z) (a : V1_2.App) :
  V1_2.files (V1_2.process_crop out x y w h a) = V1_2.files a /\
  exists t, V1_2.self (V1_2.process_crop out x y w h a) = V1_2.set_info t (V1_2.self a).
Proof.
  unfold V1_2.process_crop. cbn.
  destruct (V1_2.video_path (V1_2.self a)) as [path|]; cbn.
  2:{ split; [reflexivity|]. eexists. reflexivity. }
  unfold V1_2.VideoCapture_new, V1_2.VideoWriter_new, V1_2.fresh. cbn.
  destruct (V1_2.files a path) as [f|]; cbn;
    try match goal with
        | |- context [V1_2.crop_loop ?c ?x ?y ?w ?h ?p ?i ?o] =>
            destruct (V1_2.crop_loop c x y w h p i o) as [wr [e|]]
        end; cbn; (split; [reflexivity|]; eexists; reflexivity).
Qed.

Lemma window_ok_crop_and_save (fs : string -> option V1_2.VideoFile) (out : string)
    (a a' : V1_2.App) :
  V1_2.crop_and_save out a = ok a' -> window_ok fs a -> window_ok fs a'.
Proof.
  unfold V1_2.crop_and_save.
  destruct (negb (truth (V1_2.cap (V1_2.self a)))).
  { intros [= <-]. now apply window_ok_same. }
  destruct (V1_2.get_selection_info _) as [info|].
  2:{ intros [= <-]. now apply window_ok_same. }
  destruct (V1_2.source_rect _ _ _ _) as [e|[[[x0 y0] x2] y2]]; cbn; [discriminate|].
  destruct (_ || _).
  { intros [= <-]. now apply window_ok_same. }
  destruct (negb (truth out)).
  { intros [= <-]. auto. }
  intros [= <-].
  destruct (v12_process_crop_self out x0 y0 (x2 - x0) (y2 - y0) a) as [Hf [t Hs]].
  now apply (window_ok_info fs a _ t).
Qed.

Lemma window_ok_load_video (fs : string -> option V1_2.VideoFile) (path : string) (a : V1_2.App) :
  window_ok fs a -> window_ok fs (V1_2.load_video path a).
Proof.
  intros [H1 H2 H3 H4 H5 H6]. unfold V1_2.load_video.
  set (a1 := match V1_2.cap (V1_2.self a) with
             | Some old => if truth old then snd (V1_2.release old a) else a
             | None => a
             end).
  assert (Ha1 : V1_2.files a1 = V1_2.files a /\ V1_2.self a1 = V1_2.self a).
  { subst a1. destruct (V1_2.cap (V1_2.self a)) as [old|]; [|split; reflexivity].
    destruct (truth old); split; reflexivity. }
  destruct Ha1 as [Hf1 Hs1].
  unfold V1_2.VideoCapture_new, V1_2.fresh. cbn.
  rewrite Hf1, H1.
  destruct (fs path) as [f|] eqn:Ef; cbn.
  - destruct (V1_2.vf_frames f) as [|frame rest] eqn:Efr; cbn; rewrite Hs1.
    + constructor; cbn; try assumption; try reflexivity.
      * split; [reflexivity|]. exists f. rewrite Ef. repeat split; reflexivity.
      * intros c [= <-]. cbn. split; [reflexivity|]. exists path. split; [reflexivity|]. now rewrite Ef.
    + assert (Hshow : display_current (V1_2.show_frame frame (V1_2.video_widget (V1_2.self a)))).
      { apply display_current_update. cbn. discriminate. }
      constructor; cbn; try assumption; try reflexivity.
      * split; [reflexivity|]. exists f. rewrite Ef. repeat split; reflexivity.
      * intros c [= <-]. cbn. split; [reflexivity|]. exists path. split; [reflexivity|]. now rewrite Ef.
  - rewrite Hs1. constructor; cbn; try assumption; try reflexivity.
    + unfold knows_file in *. cbn. destruct (V1_2.video_path (V1_2.self a)); [assumption|].
      split; [apply H5|]. split; [reflexivity|apply H5].
    + discriminate.
Qed.

Lemma resizeEvent_original (w h : Z) (v : V1_2.VideoWidget) :
  V1_2.original_pixmap (V1_2.resizeEvent w h v) = V1_2.original_pixmap v.
Proof. destruct v as [w0 h0 d0 s0 e0 [original|] dp vr]; reflexivity. Qed.

Lemma window_ok_step (fs : string -> option V1_2.VideoFile) (act : V1_2.Action)
    (a a' : V1_2.App) :
  V1_2.step act a = ok a' -> window_ok fs a -> window_ok fs a'.
Proof.
  intros Hstep Hok.
  destruct act; cbn in Hstep.
  - injection Hstep as <-. apply window_ok_widget; [apply display_current_resize| |exact Hok].
    apply resizeEvent_original.
  - injection Hstep as <-. apply window_ok_widget; [intros H; apply (display_current_mouse _ H)| |exact Hok].
    unfold V1_2.mousePressEvent. destruct (is_left _); reflexivity.
  - injection Hstep as <-. apply window_ok_widget; [intros H; apply (display_current_mouse _ H)| |exact Hok].
    unfold V1_2.mouseMoveEvent. destruct (V1_2.dragging _); reflexivity.
  - injection Hstep as <-. apply window_ok_widget; [intros H; apply (display_current_mouse _ H)| |exact Hok].
    unfold V1_2.mouseReleaseEvent. destruct (_ && _); reflexivity.
  - injection Hstep as <-. now apply window_ok_load_video.
  - destruct (V1_2.clear_btn _); injection Hstep as <-; [|exact Hok].
    apply window_ok_widget; [intros H; apply (display_current_mouse _ H)|reflexivity|exact Hok].
  - destruct (V1_2.crop_btn _); [|injection Hstep as <-; exact Hok].
    now apply (window_ok_crop_and_save fs out_path a).
Qed.

Lemma window_ok_run (fs : string -> option V1_2.VideoFile) (acts : list V1_2.Action) :
  forall a a', V1_2.run acts a = ok a' -> window_ok fs a -> window_ok fs a'.
Proof.
  induction acts as [|act rest IH]; intros a a'; cbn.
  - intros [= <-] H. exact H.
  - destruct (V1_2.step act a) as [e|a1] eqn:E; cbn; [discriminate|].
    intros Hrun Hok. apply (IH a1 a' Hrun). now apply (window_ok_step fs act a a1).
Qed.

(** ** The mapping to source pixels returns *)

Lemma fits_between (K lo hi n : Z) : fits K lo -> fits K hi -> lo <= n <= hi -> fits K n.
Proof. unfold fits. lia. Qed.

Lemma fits_0 (K : Z) : 0 <= K -> fits K 0.
Proof. intros H. unfold fits. cbn. apply Z.pow_pos_nonneg; lia. Qed.

(** [source_rect] of version 1.2 returns whenever the display is not
    empty; for a selection inside the picture the scaled corners are not
    negative. *)
Lemma v12_source_rect_returns (orig_w orig_h rel_x rel_y rel_w rel_h disp_w disp_h : Z) :
  disp_w <> 0 -> disp_h <> 0 ->
  fits 500 orig_w -> fits 500 orig_h ->
  fits 500 rel_x -> fits 500 rel_y -> fits 500 (rel_x + rel_w) -> fits 500 (rel_y + rel_h) ->
  exists sx sy ix0 iy0 ix2 iy2,
    PyFloat.truediv orig_w disp_w = ok sx /\
    PyFloat.truediv orig_h disp_h = ok sy /\
    (f <- PyFloat.int_mul rel_x sx ;; PyFloat.to_int f)%py = ok ix0 /\
    (f <- PyFloat.int_mul rel_y sy ;; PyFloat.to_int f)%py = ok iy0 /\
    (f <- PyFloat.int_mul (rel_x + rel_w) sx ;; PyFloat.to_int f)%py = ok ix2 /\
    (f <- PyFloat.int_mul (rel_y + rel_h) sy ;; PyFloat.to_int f)%py = ok iy2 /\
    V1_2.source_rect orig_w orig_h (rel_x, rel_y, rel_w, rel_h) (disp_w, disp_h)
    = ok (Z.max 0 ix0, Z.max 0 iy0, Z.min orig_w ix2, Z.min orig_h iy2) /\
    (0 <= orig_w -> 0 < disp_w -> 0 <= rel_x -> 0 <= ix0) /\
    (0 <= orig_h -> 0 < disp_h -> 0 <= rel_y -> 0 <= iy0).
Proof.
  intros Hdw Hdh Fw Fh Fx Fy Fx2 Fy2.
  destruct (scaled_coordinate_returns rel_x orig_w disp_w Fx Fw Hdw)
    as [sx [Hsx [[ix0 [Hx0 Hx0s]] _]]].
  destruct (scaled_coordinate_returns (rel_x + rel_w) orig_w disp_w Fx2 Fw Hdw)
    as [sx' [Hsx' [[ix2 [Hx2 _]] _]]].
  destruct (scaled_coordinate_returns rel_y orig_h disp_h Fy Fh Hdh)
    as [sy [Hsy [[iy0 [Hy0 Hy0s]] _]]].
  destruct (scaled_coordinate_returns (rel_y + rel_h) orig_h disp_h Fy2 Fh Hdh)
    as [sy' [Hsy' [[iy2 [Hy2 _]] _]]].
  rewrite Hsx in Hsx'. injection Hsx' as <-. rewrite Hsy in Hsy'. injection Hsy' as <-.
  exists sx, sy, ix0, iy0, ix2, iy2.
  do 6 (split; [assumption|]).
  split; [|split; intros; auto].
  unfold V1_2.source_rect. rewrite Hsx, Hsy. unfold ok in *. cbn [Py.bind].
  destruct (PyFloat.int_mul rel_x sx) as [e|fx0]; [discriminate|]. cbn [Py.bind] in *. rewrite Hx0.
  destruct (PyFloat.int_mul rel_y sy) as [e|fy0]; [discriminate|]. cbn [Py.bind] in *. rewrite Hy0.
  destruct (PyFloat.int_mul (rel_x + rel_w) sx) as [e|fx2]; [discriminate|]. cbn [Py.bind] in *.
  rewrite Hx2.
  destruct (PyFloat.int_mul (rel_y + rel_h) sy) as [e|fy2]; [discriminate|]. cbn [Py.bind] in *.
  rewrite Hy2. reflexivity.
Qed.

Lemma v11_source_rect_returns (orig_w orig_h disp_w disp_h sx sy sw sh : Z) :
  disp_w <> 0 -> disp_h <> 0 ->
  fits 500 orig_w -> fits 500 orig_h ->
  fits 500 sx -> fits 500 sy -> fits 500 (sx + sw) -> fits 500 (sy + sh) ->
  exists r, V1_1.source_rect orig_w orig_h disp_w disp_h (sx, sy, sw, sh) = ok r.
Proof.
  intros Hdw Hdh Fw Fh Fx Fy Fx2 Fy2.
  destruct (scaled_coordinate_returns sx orig_w disp_w Fx Fw Hdw)
    as [scx [Hsx [_ [x0 Hx0]]]].
  destruct (scaled_coordinate_returns (sx + sw) orig_w disp_w Fx2 Fw Hdw)
    as [scx' [Hsx' [_ [x2 Hx2]]]].
  destruct (scaled_coordinate_returns sy orig_h disp_h Fy Fh Hdh)
    as [scy [Hsy [_ [y0 Hy0]]]].
  destruct (scaled_coordinate_returns (sy + sh) orig_h disp_h Fy2 Fh Hdh)
    as [scy' [Hsy' [_ [y2 Hy2]]]].
  rewrite Hsx in Hsx'. injection Hsx' as <-. rewrite Hsy in Hsy'. injection Hsy' as <-.
  exists (x0, y0, x2, y2).
  unfold V1_1.source_rect. rewrite Hsx, Hsy. unfold ok in *. cbn [Py.bind].
  destruct (PyFloat.int_mul sx scx) as [e|fx0]; [discriminate|]. cbn [Py.bind] in *. rewrite Hx0.
  destruct (PyFloat.int_mul sy scy) as [e|fy0]; [discriminate|]. cbn [Py.bind] in *. rewrite Hy0.
  destruct (PyFloat.int_mul (sx + sw) scx) as [e|fx2]; [discriminate|]. cbn [Py.bind] in *.
  rewrite Hx2.
  destruct (PyFloat.int_mul (sy + sh) scy) as [e|fy2]; [discriminate|]. cbn [Py.bind] in *.
  rewrite Hy2. reflexivity.
Qed.

(** X6: The mapping of either version raises [ZeroDivisionError] when an
    extent of the displayed pixmap is 0, and returns otherwise (all ints
    being below [2^500] in absolute value). *)
Theorem X6_source_rect_raises_only_on_empty_display
    (orig_w orig_h x y w h disp_w disp_h : Z) :
  fits 500 orig_w -> fits 500 orig_h ->
  fits 500 x -> fits 500 y -> fits 500 (x + w) -> fits 500 (y + h) ->
  (disp_w = 0 \/ disp_h = 0 ->
   V1_1.source_rect orig_w orig_h disp_w disp_h (x, y, w, h) = throw ZeroDivisionError /\
   V1_2.source_rect orig_w orig_h (x, y, w, h) (disp_w, disp_h) = throw ZeroDivisionError) /\
  (disp_w <> 0 -> disp_h <> 0 ->
   (exists r, V1_1.source_rect orig_w orig_h disp_w disp_h (x, y, w, h) = ok r) /\
   (exists r, V1_2.source_rect orig_w orig_h (x, y, w, h) (disp_w, disp_h) = ok r)).
Proof.
  intros Fw Fh Fx Fy Fx2 Fy2. split.
  - intros Hz. unfold V1_1.source_rect, V1_2.source_rect.
    destruct (Z.eq_dec disp_w 0) as [->|Hdw].
    + split; reflexivity.
    + destruct Hz as [Hz|Hz]; [contradiction|]. subst disp_h.
      assert (H500 : 0 <= 500 <= 1023) by lia.
      destruct (truediv_below 500 orig_w disp_w H500 Fw Hdw) as [sx [Hs _]].
      rewrite Hs. split; reflexivity.
  - intros Hdw Hdh. split.
    + apply v11_source_rect_returns; assumption.
    + destruct (v12_source_rect_returns orig_w orig_h x y w h disp_w disp_h)
        as [sx [sy [ix0 [iy0 [ix2 [iy2 [_ [_ [_ [_ [_ [_ [H _]]]]]]]]]]]]]; try assumption.
      eexists. exact H.
Qed.

Lemma X6_source_rect_raises_only_on_empty_display_witness :
  (exists r, V1_1.source_rect 1920 1080 604 340 (0, 0, 604, 340) = ok r) /\
  (exists r, V1_2.source_rect 1920 1080 (0, 0, 604, 340) (604, 340) = ok r).
Proof.
  apply (X6_source_rect_raises_only_on_empty_display 1920 1080 0 0 604 340 604 340);
    try (vm_compute; reflexivity); discriminate.
Defined.

(** ** No user action of version 1.2 ends in an uncaught exception *)

Lemma scaled_upper (p : QPixmap) (w h : Z) :
  0 <= pm_width (scaled p w h) <= Z.max 0 w /\
  0 <= pm_height (scaled p w h) <= Z.max 0 h.
Proof.
  unfold scaled.
  destruct (pixmap_isNull p) eqn:E1; [cbn; lia|].
  destruct (QSize_isEmpty (mkQSize w h)) eqn:E2; [cbn; lia|].
  unfold pixmap_isNull, QSize_isEmpty in *. cbn in E2. bool_to_Z.
  pose proof (scaled_keep_aspect_fits (mkQSize (pm_width p) (pm_height p)) (mkQSize w h)) as Hfit.
  cbn [wd ht] in Hfit. specialize (Hfit ltac:(lia) ltac:(lia) ltac:(lia) ltac:(lia)).
  cbn [pm_width pm_height]. set (n := scaled_keep_aspect _ _) in *. lia.
Qed.

(** In a state where the display is current, the selection that
    [get_selection_info] returns lies within a displayed pixmap that is
    not empty and fits the widget. *)
Lemma v12_selection_in_current_display (v : V1_2.VideoWidget) (info : V1_2.selection_info) :
  display_current v ->
  V1_2.get_selection_info v = Some info ->
  exists rel_x rel_y rel_w rel_h disp_w disp_h,
    V1_2.relative_pos info = (rel_x, rel_y, rel_w, rel_h) /\
    V1_2.display_size info = (disp_w, disp_h) /\
    0 <= rel_x /\ 0 <= rel_y /\ 0 < rel_w /\ 0 < rel_h /\
    rel_x + rel_w <= disp_w /\ rel_y + rel_h <= disp_h /\
    disp_w <= Z.max 0 (V1_2.width v - 20) /\ disp_h <= Z.max 0 (V1_2.height v - 20).
Proof.
  intros Hcur Hinfo.
  destruct (v12_selection_info_inv v info Hinfo)
    as [p [q [d [pm [_ [_ [_ [_ [Hd [Vd [Hpm Hrel]]]]]]]]]]].
  cbv zeta in Hrel. destruct Hrel as [Hw [Hh [Hx [Hy ->]]]].
  cbn [V1_2.relative_pos V1_2.display_size].
  do 4 eexists. exists (pm_width pm), (pm_height pm).
  split; [reflexivity|]. split; [reflexivity|].
  unfold QRect_isValid in Vd. bool_to_Z.
  unfold display_current in Hcur.
  destruct (V1_2.original_pixmap v) as [original|] eqn:Eo.
  2:{ destruct Hcur as [Hcur _]. congruence. }
  assert (Hpm' : V1_2.displayed_pixmap (V1_2.update_display v) = Some pm) by (rewrite Hcur; exact Hpm).
  assert (Hd' : V1_2.video_display_rect (V1_2.update_display v) = Some d) by (rewrite Hcur; exact Hd).
  unfold V1_2.update_display in Hpm', Hd'. rewrite Eo in Hpm', Hd'. cbn in Hpm', Hd'.
  injection Hpm' as Hpm'. injection Hd' as Hd'.
  pose proof (scaled_upper original (V1_2.width v - 20) (V1_2.height v - 20)) as Hup.
  rewrite Hpm' in Hup, Hd'. subst d.
  unfold QRect_xywh in *. cbn [x1 x2 y1 y2] in *.
  repeat split; lia.
Qed.

Lemma v12_crop_and_save_returns (fs : string -> option V1_2.VideoFile) (out : string)
    (a : V1_2.App) :
  window_ok fs a -> files_fit fs ->
  fits 500 (V1_2.width (V1_2.video_widget (V1_2.self a))) ->
  fits 500 (V1_2.height (V1_2.video_widget (V1_2.self a))) ->
  exists a', V1_2.crop_and_save out a = ok a'.
Proof.
  intros Hok Hfs Fw Fh. unfold V1_2.crop_and_save.
  destruct (V1_2.cap (V1_2.self a)) as [c|] eqn:Ec; [|eexists; reflexivity].
  cbv [truth Truthy_option V1_2.Truthy_VideoCapture]. cbn [negb].
  destruct (V1_2.get_selection_info _) as [info|] eqn:Ei; [|eexists; reflexivity].
  destruct (v12_selection_in_current_display _ info (wo_display _ _ Hok) Ei)
    as [rx [ry [rw [rh [dw [dh [Hr [Hs H]]]]]]]].
  destruct (wo_cap _ _ Hok c Ec) as [_ [path [Hpath _]]].
  pose proof (wo_file _ _ Hok) as Hfile. unfold knows_file in Hfile. rewrite Hpath in Hfile.
  destruct Hfile as [_ [f [Hf [_ [_ [How Hoh]]]]]].
  destruct (Hfs path f Hf) as [Fow Foh].
  rewrite Hr, Hs, How, Hoh.
  unfold fits in Fw, Fh.
  destruct (v12_source_rect_returns (V1_2.vf_width f) (V1_2.vf_height f) rx ry rw rh dw dh)
    as [sx [sy [ix0 [iy0 [ix2 [iy2 [_ [_ [_ [_ [_ [_ [Hrect _]]]]]]]]]]]]];
    try assumption; try lia; try (unfold fits; lia).
  rewrite Hrect. unfold ok. cbn [Py.bind]. cbv beta iota zeta.
  destruct (_ || _); [eexists; reflexivity|].
  destruct (negb _); eexists; reflexivity.
Qed.

Lemma v12_widget_size_step (act : V1_2.Action) (a a' : V1_2.App) :
  V1_2.step act a = ok a' ->
  (V1_2.width (V1_2.video_widget (V1_2.self a')),
   V1_2.height (V1_2.video_widget (V1_2.self a')))
  = match act with
    | V1_2.Resize w h => (w, h)
    | _ => (V1_2.width (V1_2.video_widget (V1_2.self a)),
            V1_2.height (V1_2.video_widget (V1_2.self a)))
    end.
Proof.
  destruct act; cbn [V1_2.step].
  - intros [= <-]. cbn. unfold V1_2.resizeEvent. cbn.
    destruct (truth _); [|reflexivity].
    unfold V1_2.update_display. cbn. destruct (V1_2.original_pixmap _); reflexivity.
  - intros [= <-]. cbn. unfold V1_2.mousePressEvent. destruct (is_left _); reflexivity.
  - intros [= <-]. cbn. unfold V1_2.mouseMoveEvent. destruct (V1_2.dragging _); reflexivity.
  - intros [= <-]. cbn. unfold V1_2.mouseReleaseEvent. destruct (_ && _); reflexivity.
  - intros [= <-]. unfold V1_2.load_video.
    set (a1 := match V1_2.cap (V1_2.self a) with
               | Some old => if truth old then snd (V1_2.release old a) else a
               | None => a
               end).
    assert (Ha1 : V1_2.self a1 = V1_2.self a).
    { subst a1. destruct (V1_2.cap (V1_2.self a)) as [old|]; [|reflexivity].
      destruct (truth old); reflexivity. }
    unfold V1_2.VideoCapture_new, V1_2.fresh. cbn.
    destruct (V1_2.files a1 path) as [f|]; cbn; [|now rewrite Ha1].
    destruct (V1_2.vf_frames f) as [|frame rest]; cbn; now rewrite Ha1.
  - destruct (V1_2.clear_btn _); intros [= <-]; reflexivity.
  - destruct (V1_2.crop_btn _); [|intros [= <-]; reflexivity].
    unfold V1_2.crop_and_save.
    destruct (negb (truth (V1_2.cap (V1_2.self a)))); [intros [= <-]; reflexivity|].
    destruct (V1_2.get_selection_info _) as [info|]; [|intros [= <-]; reflexivity].
    destruct (V1_2.source_rect _ _ _ _) as [e|[[[x0 y0] x2] y2]]; cbn [Py.bind]; [discriminate|].
    destruct (_ || _); [intros [= <-]; reflexivity|].
    destruct (negb (truth out_path)); [intros [= <-]; reflexivity|].
    intros [= <-].
    destruct (v12_process_crop_self out_path x0 y0 (x2 - x0) (y2 - y0) a) as [_ [t ->]].
    reflexivity.
Qed.

Lemma v12_run_returns (fs : string -> option V1_2.VideoFile) (acts : list V1_2.Action) :
  files_fit fs -> Forall action_fits acts ->
  forall a,
    window_ok fs a ->
    fits 500 (V1_2.width (V1_2.video_widget (V1_2.self a))) ->
    fits 500 (V1_2.height (V1_2.video_widget (V1_2.self a))) ->
    exists a', V1_2.run acts a = ok a'.
Proof.
  intros Hfs Hacts. induction Hacts as [|act rest Hact Hrest IH]; intros a Hok Fw Fh.
  - eexists. reflexivity.
  - cbn [V1_2.run].
    assert (Hstep : exists a1, V1_2.step act a = ok a1).
    { destruct act; cbn [V1_2.step]; try (eexists; reflexivity).
      - destruct (V1_2.clear_btn _); eexists; reflexivity.
      - destruct (V1_2.crop_btn _); [|eexists; reflexivity].
        now apply (v12_crop_and_save_returns fs). }
    destruct Hstep as [a1 Hstep]. rewrite Hstep. cbn [Py.bind ok].
    pose proof (v12_widget_size_step act a a1 Hstep) as Hsize.
    apply IH.
    + now apply (window_ok_step fs act a a1).
    + destruct act; cbn in Hact; injection Hsize as Hw Hh; rewrite ?Hw, ?Hh; tauto.
    + destruct act; cbn in Hact; injection Hsize as Hw Hh; rewrite ?Hw, ?Hh; tauto.
Qed.

(** X7: No sequence of user actions makes version 1.2 end in an uncaught
    exception: every handler returns (the sizes of the widget and of the
    videos being below [2^500]). *)
Theorem X7_v12_event_loop_returns
    (fs : string -> option V1_2.VideoFile) (w h : Z) (acts : list V1_2.Action) :
  files_fit fs -> fits 500 w -> fits 500 h -> Forall action_fits acts ->
  exists a, V1_2.run acts (V1_2.App_init fs w h) = ok a.
Proof.
  intros Hfs Fw Fh Hacts.
  apply (v12_run_returns fs acts Hfs Hacts); [apply window_ok_init|exact Fw|exact Fh].
Qed.

Lemma X7_v12_event_loop_returns_witness :
  exists a, V1_2.run Scenario.busy_session (Scenario.app12 640 360) = ok a.
Proof.
  apply (X7_v12_event_loop_returns Scenario.disk 640 360 Scenario.busy_session).
  - intros path f. unfold Scenario.disk.
    repeat match goal with
           | |- context [String.eqb ?x ?y] => destruct (String.eqb x y)
           end; intros [= <-]; split; vm_compute; reflexivity.
  - vm_compute. reflexivity.
  - vm_compute. reflexivity.
  - repeat constructor; vm_compute; reflexivity.
Defined.

(** ** What the copy loop writes *)

Lemma truediv_zero (a : Z) : PyFloat.truediv a 0 = throw ZeroDivisionError.
Proof. reflexivity. Qed.

Lemma truediv_progress (idx fc : Z) :
  0 <= idx < 2 ^ 1023 -> fc <> 0 -> exists p, PyFloat.truediv idx fc = inr p.
Proof.
  intros Hidx Hfc.
  destruct (truediv_below 1023 idx fc ltac:(lia) ltac:(unfold fits; lia) Hfc) as [p [Hp _]].
  exists p. exact Hp.
Qed.

(** The loop from frame [frame_idx] on: it stops at the first multiple of
    30 when [frame_count] is 0, and writes every frame otherwise. *)
Lemma crop_loop_outcome (frame_count x y width height : Z) (pending : list Frame) :
  forall (frame_idx : Z) (w : V1_2.VideoWriter),
  0 <= frame_idx -> frame_idx + Z.of_nat (List.length pending) < 2 ^ 1023 ->
  let stops := (frame_count =? 0) && (30 <=? frame_idx mod 30 + Z.of_nat (List.length pending)) in
  snd (V1_2.crop_loop frame_count x y width height pending frame_idx w)
  = (if stops then Some ZeroDivisionError else None) /\
  V1_2.wr_frames (fst (V1_2.crop_loop frame_count x y width height pending frame_idx w))
  = V1_2.wr_frames w
    ++ map (V1_2.crop_frame x y width height)
         (if stops then firstn (Z.to_nat (30 - frame_idx mod 30)) pending else pending).
Proof.
  induction pending as [|frame rest IH]; intros frame_idx w Hidx Hlen stops.
  - subst stops. cbn [List.length Z.of_nat V1_2.crop_loop fst snd].
    pose proof (Z.mod_pos_bound frame_idx 30 ltac:(lia)) as Hm.
    destruct (30 <=? frame_idx mod 30 + 0) eqn:E; [apply Z.leb_le in E; lia|].
    rewrite andb_false_r. cbn. now rewrite app_nil_r.
  - cbn [V1_2.crop_loop]. cbn [List.length] in Hlen, stops.
    rewrite Nat2Z.inj_succ in Hlen. subst stops. rewrite Nat2Z.inj_succ.
    pose proof (Z.mod_pos_bound frame_idx 30 ltac:(lia)) as Hm.
    pose proof (Z.mod_pos_bound (frame_idx + 1) 30 ltac:(lia)) as Hm1.
    pose proof (Z.div_mod frame_idx 30 ltac:(lia)) as Hd.
    pose proof (Z.div_mod (frame_idx + 1) 30 ltac:(lia)) as Hd1.
    specialize (IH (frame_idx + 1) (V1_2.write (V1_2.crop_frame x y width height frame) w)
                  ltac:(lia) ltac:(lia)).
    cbv zeta in IH. destruct IH as [IHs IHf].
    destruct ((frame_idx + 1) mod 30 =? 0) eqn:E30.
    + apply Z.eqb_eq in E30.
      assert (Hmod : frame_idx mod 30 = 29) by lia.
      destruct (Z.eq_dec frame_count 0) as [->|Hfc].
      * rewrite truediv_zero. cbn [throw fst snd Z.eqb andb].
        destruct (30 <=? frame_idx mod 30 + Z.succ (Z.of_nat (List.length rest))) eqn:E;
          [|apply Z.leb_gt in E; lia].
        rewrite Hmod. change (Z.to_nat (30 - 29)) with 1%nat. cbn [firstn map V1_2.write V1_2.wr_frames].
        split; reflexivity.
      * destruct (truediv_progress (frame_idx + 1) frame_count ltac:(lia) Hfc) as [p ->].
        rewrite IHs, IHf.
        destruct (frame_count =? 0) eqn:Ez; [apply Z.eqb_eq in Ez; contradiction|].
        cbn [andb V1_2.write V1_2.wr_frames map]. rewrite <- app_assoc. split; reflexivity.
    + apply Z.eqb_neq in E30.
      assert (Hmod : (frame_idx + 1) mod 30 = frame_idx mod 30 + 1) by lia.
      rewrite Hmod in IHs, IHf.
      replace (frame_idx mod 30 + 1 + Z.of_nat (List.length rest))
        with (frame_idx mod 30 + Z.succ (Z.of_nat (List.length rest))) in IHs, IHf by lia.
      rewrite IHs, IHf.
      set (stops := (frame_count =? 0) && _).
      destruct stops.
      * replace (Z.to_nat (30 - frame_idx mod 30))
          with (S (Z.to_nat (30 - (frame_idx mod 30 + 1)))) by lia.
        cbn [firstn map V1_2.write V1_2.wr_frames]. rewrite <- app_assoc. split; reflexivity.
      * cbn [map V1_2.write V1_2.wr_frames]. rewrite <- app_assoc. split; reflexivity.
Qed.

Lemma crop_loop_writer (frame_count x y width height : Z) (pending : list Frame) :
  forall (frame_idx : Z) (w : V1_2.VideoWriter),
  let w' := fst (V1_2.crop_loop frame_count x y width height pending frame_idx w) in
  V1_2.wr_path w' = V1_2.wr_path w /\ V1_2.wr_fps w' = V1_2.wr_fps w /\
  V1_2.wr_size w' = V1_2.wr_size w.
Proof.
  induction pending as [|frame rest IH]; intros frame_idx w; cbn; [auto|].
  destruct (_ =? 0); [destruct (PyFloat.truediv _ _)|]; cbn; auto;
    apply (IH (frame_idx + 1) (V1_2.write (V1_2.crop_frame x y width height frame) w)).
Qed.

(** X8: [process_crop] on the loaded file: the crop fails exactly when the
    container reports 0 frames and the file has at least 30; the output
    then holds the first 30 frames and neither handle is released.  In
    every other case the output holds every frame, cropped, in order, and
    both handles are released. *)
Theorem X8_v12_process_crop_outcome
    (out path : string) (x y w h : Z) (a : V1_2.App) (f : V1_2.VideoFile) :
  V1_2.video_path (V1_2.self a) = Some path ->
  V1_2.files a path = Some f ->
  Z.of_nat (List.length (V1_2.vf_frames f)) < 2 ^ 1023 ->
  let a' := V1_2.process_crop out x y w h a in
  let stops := (V1_2.frame_count (V1_2.self a) =? 0)
               && (30 <=? Z.of_nat (List.length (V1_2.vf_frames f))) in
  exists wr,
    V1_2.outputs a' = V1_2.outputs a ++ [wr] /\
    V1_2.wr_path wr = out /\ V1_2.wr_size wr = (w, h) /\
    V1_2.wr_fps wr = V1_2.fps (V1_2.self a) /\
    V1_2.wr_frames wr
    = map (V1_2.crop_frame x y w h)
        (if stops then firstn 30 (V1_2.vf_frames f) else V1_2.vf_frames f) /\
    V1_2.gui a'
    = V1_2.gui a ++ [if stops then V1_2.crop_failed
                     else MessageBox Information "Complete" "Cropped video saved!"] /\
    V1_2.info_label (V1_2.self a') = (if stops then V1_2.TextError else V1_2.TextSaved out) /\
    V1_2.cv a'
    = (if stops then [] else [V1_2.WriterReleased (S (V1_2.next_id a));
                              V1_2.CaptureReleased (V1_2.next_id a)])
      ++ V1_2.WriterOpened (S (V1_2.next_id a)) :: V1_2.CaptureOpened (V1_2.next_id a)
      :: V1_2.cv a.
Proof.
  intros Hpath Hfile Hlen a' stops. subst a'.
  unfold V1_2.process_crop. cbn. rewrite Hpath.
  unfold V1_2.VideoCapture_new, V1_2.VideoWriter_new, V1_2.fresh. cbn.
  rewrite Hfile. cbn.
  set (w0 := V1_2.mkVideoWriter (S (V1_2.next_id a)) out (V1_2.fps (V1_2.self a)) (w, h) []).
  pose proof (crop_loop_outcome (V1_2.frame_count (V1_2.self a)) x y w h (V1_2.vf_frames f) 0 w0
                ltac:(lia) ltac:(lia)) as Hout.
  pose proof (crop_loop_writer (V1_2.frame_count (V1_2.self a)) x y w h (V1_2.vf_frames f) 0 w0)
    as Hwr.
  pose proof (crop_loop_wr_id (V1_2.frame_count (V1_2.self a)) x y w h (V1_2.vf_frames f) 0 w0)
    as Hid.
  cbv zeta in Hout, Hwr. change (0 mod 30) with 0 in Hout. cbn [Z.add] in Hout.
  change (Z.to_nat (30 - 0)) with 30%nat in Hout. fold stops in Hout.
  destruct (V1_2.crop_loop (V1_2.frame_count (V1_2.self a)) x y w h (V1_2.vf_frames f) 0 w0)
    as [wr e].
  cbn [fst snd] in Hout, Hwr, Hid. destruct Hout as [-> Hframes].
  destruct Hwr as [Hp [Hf Hs]].
  exists wr. destruct stops; cbn; rewrite ?Hid; repeat split; assumption.
Qed.

Lemma X8_v12_process_crop_outcome_witness :
  exists wr,
    V1_2.outputs
      (V1_2.process_crop "out.mp4" 0 0 8 6 (V1_2.load_video "stream.webm" (Scenario.app12 640 360)))
    = [] ++ [wr] /\
    V1_2.wr_frames wr
    = map (V1_2.crop_frame 0 0 8 6) (firstn 30 (V1_2.vf_frames Scenario.stream_31)).
Proof.
  destruct (X8_v12_process_crop_outcome "out.mp4" "stream.webm" 0 0 8 6
              (V1_2.load_video "stream.webm" (Scenario.app12 640 360)) Scenario.stream_31)
    as [wr [H1 [_ [_ [_ [H2 _]]]]]].
  - reflexivity.
  - reflexivity.
  - vm_compute. reflexivity.
  - exists wr. split; [exact H1|exact H2].
Defined.

(** ** The frames handed to the writer *)

Lemma In_slice {A} (start stop : Z) (l : list A) (a : A) : In a (slice start stop l) -> In a l.
Proof.
  unfold slice. intros H.
  set (n := Z.to_nat (slice_bound _ start)) in *.
  set (k := Z.to_nat _) in H.
  assert (H1 : In a (skipn n l)).
  { rewrite <- (firstn_skipn k (skipn n l)). apply in_or_app. now left. }
  rewrite <- (firstn_skipn n l). apply in_or_app. now right.
Qed.

(** A crop inside the frame has exactly the size asked for. *)
Lemma crop_frame_shape (x y width height : Z) (frame : Frame) :
  0 <= x -> 0 <= y -> 0 <= width -> 0 <= height ->
  y + height <= frame_height frame ->
  (forall row, In row frame -> x + width <= Z.of_nat (List.length row)) ->
  frame_height (V1_2.crop_frame x y width height frame) = height /\
  forall row, In row (V1_2.crop_frame x y width height frame) ->
              Z.of_nat (List.length row) = width.
Proof.
  intros Hx Hy Hw Hh Hrows Hcols. unfold frame_height in *. unfold V1_2.crop_frame. split.
  - rewrite length_map, slice_length by lia. lia.
  - intros row Hin. apply in_map_iff in Hin. destruct Hin as [row' [<- Hin]].
    apply In_slice in Hin. specialize (Hcols row' Hin).
    rewrite slice_length by lia. lia.
Qed.

Lemma crop_loop_frames_in (frame_count x y width height : Z) (pending : list Frame) :
  forall (frame_idx : Z) (w : V1_2.VideoWriter) (fr : Frame),
  In fr (V1_2.wr_frames (fst (V1_2.crop_loop frame_count x y width height pending frame_idx w))) ->
  In fr (V1_2.wr_frames w) \/
  exists frame, In frame pending /\ fr = V1_2.crop_frame x y width height frame.
Proof.
  induction pending as [|frame rest IH]; intros frame_idx w fr; cbn [V1_2.crop_loop].
  - cbn. auto.
  - assert (Hrec : In fr (V1_2.wr_frames
                      (fst (V1_2.crop_loop frame_count x y width height rest (frame_idx + 1)
                              (V1_2.write (V1_2.crop_frame x y width height frame) w)))) ->
                   In fr (V1_2.wr_frames w) \/
                   exists frame0, In frame0 (frame :: rest) /\
                                  fr = V1_2.crop_frame x y width height frame0).
    { intros H. apply IH in H. cbn [V1_2.write V1_2.wr_frames] in H.
      destruct H as [H|[frame0 [H1 H2]]].
      - apply in_app_or in H. destruct H as [H|[<-|[]]]; [now left|].
        right. exists frame. split; [now left|reflexivity].
      - right. exists frame0. split; [now right|assumption]. }
    destruct (_ =? 0); [destruct (PyFloat.truediv _ _)|]; cbn [fst]; try exact Hrec.
    cbn [V1_2.write V1_2.wr_frames]. intros H.
    apply in_app_or in H. destruct H as [H|[<-|[]]]; [now left|].
    right. exists frame. split; [now left|reflexivity].
Qed.

(** The writer [process_crop] leaves in [outputs]. *)
Lemma v12_process_crop_writer (out path : string) (x y w h : Z) (a : V1_2.App)
    (f : V1_2.VideoFile) :
  V1_2.video_path (V1_2.self a) = Some path ->
  V1_2.files a path = Some f ->
  V1_2.outputs (V1_2.process_crop out x y w h a)
  = V1_2.outputs a
    ++ [fst (V1_2.crop_loop (V1_2.frame_count (V1_2.self a)) x y w h (V1_2.vf_frames f) 0
               (V1_2.mkVideoWriter (S (V1_2.next_id a)) out (V1_2.fps (V1_2.self a)) (w, h) []))].
Proof.
  intros Hpath Hfile. unfold V1_2.process_crop. cbn. rewrite Hpath.
  unfold V1_2.VideoCapture_new, V1_2.VideoWriter_new, V1_2.fresh. cbn.
  rewrite Hfile. cbn.
  match goal with
  | |- context [V1_2.crop_loop ?c ?x ?y ?w ?h ?p ?i ?o] =>
      destruct (V1_2.crop_loop c x y w h p i o) as [wr [e|]]
  end; reflexivity.
Qed.

(** X9: Every writer [crop_and_save] opens has a size that is not empty and
    not larger than the video, and every frame handed to it has exactly
    that size, when the frames of the file have the size the container
    reports. *)
Theorem X9_v12_written_frames_fit_the_writer
    (out path : string) (a a' : V1_2.App) (f : V1_2.VideoFile) :
  V1_2.crop_and_save out a = ok a' ->
  V1_2.video_path (V1_2.self a) = Some path ->
  V1_2.files a path = Some f ->
  (forall frame, In frame (V1_2.vf_frames f) ->
     frame_height frame = V1_2.orig_h (V1_2.self a) /\
     forall row, In row frame -> Z.of_nat (List.length row) = V1_2.orig_w (V1_2.self a)) ->
  forall wr, In wr (V1_2.outputs a') ->
    In wr (V1_2.outputs a) \/
    exists w h,
      V1_2.wr_size wr = (w, h) /\
      0 < w <= V1_2.orig_w (V1_2.self a) /\ 0 < h <= V1_2.orig_h (V1_2.self a) /\
      forall fr, In fr (V1_2.wr_frames wr) ->
        frame_height fr = h /\ forall row, In row fr -> Z.of_nat (List.length row) = w.
Proof.
  intros Hcrop Hpath Hfile Hframes wr Hwr. revert Hcrop.
  unfold V1_2.crop_and_save.
  destruct (negb (truth (V1_2.cap (V1_2.self a)))); [intros [= <-]; now left|].
  destruct (V1_2.get_selection_info _) as [info|]; [|intros [= <-]; now left].
  destruct (V1_2.source_rect _ _ _ _) as [e|[[[x0 y0] x2] y2]] eqn:Erect;
    cbn [Py.bind]; [discriminate|].
  destruct ((x2 - x0 <=? 0) || (y2 - y0 <=? 0)) eqn:Esize; [intros [= <-]; now left|].
  destruct (negb _); [intros [= <-]; now left|].
  intros [= <-].
  rewrite (v12_process_crop_writer out path x0 y0 (x2 - x0) (y2 - y0) a f Hpath Hfile) in Hwr.
  apply in_app_or in Hwr. destruct Hwr as [Hwr|[<-|[]]]; [now left|]. right.
  bool_to_Z.
  pose proof (v12_crop_within_frame _ _ _ _ x0 y0 x2 y2 Erect ltac:(lia) ltac:(lia)) as Hin.
  cbn in Hin.
  exists (x2 - x0), (y2 - y0).
  split; [apply crop_loop_writer|]. split; [lia|]. split; [lia|].
  intros fr Hfr. apply crop_loop_frames_in in Hfr. cbn [V1_2.wr_frames] in Hfr.
  destruct Hfr as [[]|[frame [Hframe ->]]].
  destruct (Hframes frame Hframe) as [Hh Hw].
  apply crop_frame_shape; try lia.
  intros row Hrow. rewrite (Hw row Hrow). lia.
Qed.

Lemma X9_v12_written_frames_fit_the_writer_witness :
  Forall (fun wr => exists w h, V1_2.wr_size wr = (w, h) /\ 0 < w <= 8 /\ 0 < h <= 6)
    (V1_2.outputs
       (V1_2.process_crop "out.mp4" 0 1 3 4
          (V1_2.on_widget (V1_2.drag (mkQPoint 100 100) (mkQPoint 300 300)) Small.loaded12))).
Proof.
  apply Forall_forall. intros wr Hwr.
  destruct (X9_v12_written_frames_fit_the_writer "out.mp4" "small.mp4"
              (V1_2.on_widget (V1_2.drag (mkQPoint 100 100) (mkQPoint 300 300)) Small.loaded12)
              (V1_2.process_crop "out.mp4" 0 1 3 4
                 (V1_2.on_widget (V1_2.drag (mkQPoint 100 100) (mkQPoint 300 300))
                    Small.loaded12))
              Scenario.tiny_clip)
    with (wr := wr) as [H|[w [h [H1 [H2 [H3 _]]]]]].
  - vm_compute. reflexivity.
  - reflexivity.
  - reflexivity.
  - intros frame Hframe.
    cbn in Hframe. destruct Hframe as [<-|[<-|[]]];
      (split; [vm_compute; reflexivity|]);
      intros row Hrow; cbn in Hrow;
      repeat (destruct Hrow as [<-|Hrow]; [vm_compute; reflexivity|]); destruct Hrow.
  - exact Hwr.
  - destruct H.
  - exists w, h. auto.
Defined.

(** ** What the window of version 1.2 shows and knows *)

(** X10: Between two user actions the widget displays the frame kept in
    [current_frame], scaled into the widget as it is now less the margin
    of 20 pixels, and the video rectangle is that pixmap centred; so no
    resize, drag, crop or failed load leaves a stale rectangle behind. *)
Theorem X10_v12_display_is_current
    (fs : string -> option V1_2.VideoFile) (w h : Z) (acts : list V1_2.Action) (a : V1_2.App) :
  V1_2.run acts (V1_2.App_init fs w h) = ok a ->
  let v := V1_2.video_widget (V1_2.self a) in
  V1_2.displayed_pixmap v
  = option_map (fun frame => scaled (pixmap_of_frame frame) (V1_2.width v - 20) (V1_2.height v - 20))
      (V1_2.current_frame (V1_2.self a)) /\
  V1_2.video_display_rect v
  = option_map (fun pm => QRect_xywh (Z.max 0 ((V1_2.width v - pm_width pm) / 2))
                            (Z.max 0 ((V1_2.height v - pm_height pm) / 2))
                            (pm_width pm) (pm_height pm))
      (V1_2.displayed_pixmap v).
Proof.
  intros Hrun v.
  pose proof (window_ok_run fs acts _ a Hrun (window_ok_init fs w h)) as Hok.
  pose proof (wo_display _ _ Hok) as Hd. pose proof (wo_picture _ _ Hok) as Hp.
  fold v in Hd, Hp. unfold display_current in Hd.
  destruct (V1_2.current_frame (V1_2.self a)) as [frame|]; cbn [option_map] in *; rewrite Hp in Hd.
  - assert (H1 : V1_2.displayed_pixmap (V1_2.update_display v) = V1_2.displayed_pixmap v)
      by (now rewrite Hd).
    assert (H2 : V1_2.video_display_rect (V1_2.update_display v) = V1_2.video_display_rect v)
      by (now rewrite Hd).
    unfold V1_2.update_display in H1, H2. rewrite Hp in H1, H2. cbn in H1, H2.
    rewrite <- H2, <- H1. split; reflexivity.
  - destruct Hd as [-> ->]. split; reflexivity.
Qed.

Lemma X10_v12_display_is_current_witness :
  match V1_2.run Scenario.reload_without_frames
          Small.app12 with
  | inr a =>
      V1_2.displayed_pixmap (V1_2.video_widget (V1_2.self a))
      = option_map (fun frame => scaled (pixmap_of_frame frame)
                                   (V1_2.width (V1_2.video_widget (V1_2.self a)) - 20)
                                   (V1_2.height (V1_2.video_widget (V1_2.self a)) - 20))
          (V1_2.current_frame (V1_2.self a))
  | inl _ => False
  end.
Proof.
  destruct (V1_2.run Scenario.reload_without_frames
              Small.app12) as [e|a] eqn:E.
  - vm_compute in E. discriminate E.
  - apply (X10_v12_display_is_current (fun _ => Some Scenario.tiny_clip) 640 360
             Scenario.reload_without_frames a E).
Defined.

(** X11: Between two user actions the two buttons are enabled together, and
    exactly when a path is stored; the frame count, the rate and the size
    the window stores are those of the file at that path; a capture the
    window holds is open on that file. *)
Theorem X11_v12_window_knows_its_file
    (fs : string -> option V1_2.VideoFile) (w h : Z) (acts : list V1_2.Action) (a : V1_2.App) :
  V1_2.run acts (V1_2.App_init fs w h) = ok a ->
  let m := V1_2.self a in
  V1_2.files a = fs /\
  V1_2.clear_btn m = V1_2.crop_btn m /\
  (V1_2.crop_btn m = true <-> V1_2.video_path m <> None) /\
  (forall path, V1_2.video_path m = Some path ->
     exists f, fs path = Some f /\
               V1_2.frame_count m = V1_2.vf_frame_count f /\ V1_2.fps m = V1_2.vf_fps f /\
               V1_2.orig_w m = V1_2.vf_width f /\ V1_2.orig_h m = V1_2.vf_height f) /\
  (forall c, V1_2.cap m = Some c ->
     V1_2.cap_opened c = true /\
     exists path, V1_2.video_path m = Some path /\ V1_2.cap_file c = fs path).
Proof.
  intros Hrun m.
  pose proof (window_ok_run fs acts _ a Hrun (window_ok_init fs w h)) as Hok.
  pose proof (wo_file _ _ Hok) as Hf. fold m in Hf. unfold knows_file in Hf.
  split; [apply (wo_files _ _ Hok)|]. split; [apply (wo_buttons _ _ Hok)|].
  split; [|split].
  - destruct (V1_2.video_path m) as [path|].
    + destruct Hf as [-> _]. split; [discriminate|reflexivity].
    + destruct Hf as [-> _]. split; [discriminate|contradiction].
  - intros path Hpath. rewrite Hpath in Hf. apply Hf.
  - apply (wo_cap _ _ Hok).
Qed.

Lemma X11_v12_window_knows_its_file_witness :
  match V1_2.run Scenario.reload_without_frames
          Small.app12 with
  | inr a => V1_2.clear_btn (V1_2.self a) = V1_2.crop_btn (V1_2.self a)
  | inl _ => False
  end.
Proof.
  destruct (V1_2.run Scenario.reload_without_frames
              Small.app12) as [e|a] eqn:E.
  - vm_compute in E. discriminate E.
  - apply (X11_v12_window_knows_its_file (fun _ => Some Scenario.tiny_clip) 640 360
             Scenario.reload_without_frames a E).
Defined.

(** ** A load that fails (version 1.2) *)

(** X12: When the file cannot be opened, [load_video] shows the error box and
    drops the capture it held (which it has released); the path, the
    stored properties, the picture and the enabled buttons stay, and the
    next click on Crop is answered by "No video loaded.", whatever was
    loaded before. *)
Theorem X12_v12_failed_load_drops_the_capture
    (path out : string) (a : V1_2.App) :
  V1_2.files a path = None ->
  let a' := V1_2.load_video path a in
  V1_2.cap (V1_2.self a') = None /\
  V1_2.self a' = V1_2.set_cap None (V1_2.self a) /\
  V1_2.gui a' = V1_2.gui a ++ [MessageBox Critical "Error" "Failed to open video:"] /\
  V1_2.outputs a' = V1_2.outputs a /\
  V1_2.cv a'
  = V1_2.CaptureReleased (V1_2.next_id a)
    :: match V1_2.cap (V1_2.self a) with
       | Some old => V1_2.CaptureReleased (V1_2.cap_id old) :: V1_2.cv a
       | None => V1_2.cv a
       end /\
  V1_2.crop_and_save out a' = ok (V1_2.show_message Warning "No Video" "No video loaded." a').
Proof.
  intros Hfile a'. subst a'. unfold V1_2.load_video.
  destruct (V1_2.cap (V1_2.self a)) as [old|] eqn:Ec;
    cbv [truth V1_2.Truthy_VideoCapture];
    unfold V1_2.VideoCapture_new, V1_2.fresh; cbn; rewrite Hfile; cbn;
    unfold V1_2.crop_and_save; cbn; repeat split; reflexivity.
Qed.

Lemma X12_v12_failed_load_drops_the_capture_witness :
  V1_2.cap (V1_2.self (V1_2.load_video "missing.mp4"
                         (V1_2.load_video "tiny.mp4" (Scenario.app12 640 360)))) = None.
Proof.
  apply (X12_v12_failed_load_drops_the_capture "missing.mp4" "out.mp4"
           (V1_2.load_video "tiny.mp4" (Scenario.app12 640 360))).
  reflexivity.
Defined.

(** ** Clearing the selection (version 1.2) *)

Lemma v12_load_video_start_pos (path : string) (a : V1_2.App) :
  V1_2.start_pos (V1_2.video_widget (V1_2.self (V1_2.load_video path a)))
  = V1_2.start_pos (V1_2.video_widget (V1_2.self a)) /\
  V1_2.outputs (V1_2.load_video path a) = V1_2.outputs a.
Proof.
  unfold V1_2.load_video.
  set (a1 := match V1_2.cap (V1_2.self a) with
             | Some old => if truth old then snd (V1_2.release old a) else a
             | None => a
             end).
  assert (Ha1 : V1_2.self a1 = V1_2.self a /\ V1_2.outputs a1 = V1_2.outputs a).
  { subst a1. destruct (V1_2.cap (V1_2.self a)) as [old|]; [|split; reflexivity].
    destruct (truth old); split; reflexivity. }
  destruct Ha1 as [Hs Ho].
  unfold V1_2.VideoCapture_new, V1_2.fresh. cbn.
  destruct (V1_2.files a1 path) as [f|]; cbn; [|now rewrite Hs, Ho].
  destruct (V1_2.vf_frames f) as [|frame rest]; cbn; rewrite Hs, Ho; split; reflexivity.
Qed.

(** Without a start position no action but a left press brings one, and
    Crop writes nothing. *)
Lemma v12_step_without_selection (act : V1_2.Action) (a a' : V1_2.App) :
  no_left_press act ->
  V1_2.step act a = ok a' ->
  V1_2.start_pos (V1_2.video_widget (V1_2.self a)) = None ->
  V1_2.start_pos (V1_2.video_widget (V1_2.self a')) = None /\
  V1_2.outputs a' = V1_2.outputs a.
Proof.
  intros Hact Hstep Hs. destruct act; cbn in Hact, Hstep.
  - injection Hstep as <-. cbn. split; [|reflexivity].
    unfold V1_2.resizeEvent. cbn. destruct (truth _); [|exact Hs].
    unfold V1_2.update_display. cbn. destruct (V1_2.original_pixmap _); exact Hs.
  - injection Hstep as <-. cbn. unfold V1_2.mousePressEvent. rewrite Hact. auto.
  - injection Hstep as <-. cbn. unfold V1_2.mouseMoveEvent.
    destruct (V1_2.dragging _); cbn; auto.
  - injection Hstep as <-. cbn. unfold V1_2.mouseReleaseEvent.
    destruct (_ && _); cbn; auto.
  - injection Hstep as <-. destruct (v12_load_video_start_pos path a) as [H1 H2].
    rewrite H1, H2. auto.
  - destruct (V1_2.clear_btn _); injection Hstep as <-; cbn; auto.
  - destruct (V1_2.crop_btn _); [|injection Hstep as <-; auto].
    assert (Hi : V1_2.get_selection_info (V1_2.video_widget (V1_2.self a)) = None).
    { unfold V1_2.get_selection_info. now rewrite Hs. }
    destruct (v12_no_selection_no_output out_path a Hi) as [title [text [H1 _]]].
    rewrite H1 in Hstep. injection Hstep as <-. cbn. auto.
Qed.

(** X13: After Clear Selection there is no selection until the left
    button is pressed again: whatever else the user does (moving or
    releasing the mouse, resizing, loading a video, clicking the
    buttons), [get_selection_info] returns [None], every click on Crop
    only warns, and nothing is written. *)
Theorem X13_v12_clear_selection_clears
    (acts : list V1_2.Action) (a a' : V1_2.App) :
  Forall no_left_press acts ->
  V1_2.run acts (V1_2.on_widget V1_2.clear_selection a) = ok a' ->
  V1_2.get_selection_info (V1_2.video_widget (V1_2.self a')) = None /\
  V1_2.outputs a' = V1_2.outputs a.
Proof.
  intros Hacts.
  assert (Hgen : forall a0 a1,
             V1_2.start_pos (V1_2.video_widget (V1_2.self a0)) = None ->
             V1_2.run acts a0 = ok a1 ->
             V1_2.start_pos (V1_2.video_widget (V1_2.self a1)) = None /\
             V1_2.outputs a1 = V1_2.outputs a0).
  { induction Hacts as [|act rest Hact Hrest IH]; intros a0 a1 Hs; cbn [V1_2.run].
    - intros [= <-]. auto.
    - destruct (V1_2.step act a0) as [e|a2] eqn:E; cbn [Py.bind]; [discriminate|].
      intros Hrun.
      destruct (v12_step_without_selection act a0 a2 Hact E Hs) as [Hs2 Ho2].
      destruct (IH a2 a1 Hs2 Hrun) as [Hs1 Ho1].
      split; [exact Hs1|congruence]. }
  intros Hrun.
  destruct (Hgen (V1_2.on_widget V1_2.clear_selection a) a' eq_refl Hrun) as [Hs Ho].
  split; [|exact Ho].
  unfold V1_2.get_selection_info. now rewrite Hs.
Qed.

Lemma X13_v12_clear_selection_clears_witness :
  match V1_2.run [V1_2.MouseMove (Scenario.left_click 300 300);
                  V1_2.MouseRelease (Scenario.left_click 300 300);
                  V1_2.Resize 800 600;
                  V1_2.ClickCrop "out.mp4"]
          (V1_2.on_widget V1_2.clear_selection
             (V1_2.on_widget (V1_2.mousePressEvent (Scenario.left_click 100 100))
                Small.loaded12)) with
  | inr a' => V1_2.get_selection_info (V1_2.video_widget (V1_2.self a')) = None /\
              V1_2.outputs a' = []
  | inl _ => False
  end.
Proof.
  destruct (V1_2.run _ _) as [e|a'] eqn:E.
  - vm_compute in E. discriminate E.
  - apply (X13_v12_clear_selection_clears
             [V1_2.MouseMove (Scenario.left_click 300 300);
              V1_2.MouseRelease (Scenario.left_click 300 300);
              V1_2.Resize 800 600;
              V1_2.ClickCrop "out.mp4"]
             (V1_2.on_widget (V1_2.mousePressEvent (Scenario.left_click 100 100))
                Small.loaded12) a'); [repeat constructor|exact E].
Defined.

(** ** The selection label and the crop (version 1.2) *)

Import V1_2_view.

(** X14: Between two user actions, when [get_selection_info] returns a
    selection the label shows a size and an origin, and the origin it
    shows is the origin of the rectangle [crop_and_save] crops to; when
    it returns none the label is blank or says that the selection is
    outside or too small.  The timer handler never raises. *)
Theorem X14_v12_label_shows_the_crop_origin
    (fs : string -> option V1_2.VideoFile) (w h : Z) (acts : list V1_2.Action) (a : V1_2.App) :
  V1_2.run acts (V1_2.App_init fs w h) = ok a ->
  files_fit fs ->
  (forall path f, fs path = Some f -> 0 <= V1_2.vf_width f /\ 0 <= V1_2.vf_height f) ->
  fits 500 (V1_2.width (V1_2.video_widget (V1_2.self a))) ->
  fits 500 (V1_2.height (V1_2.video_widget (V1_2.self a))) ->
  let m := V1_2.self a in
  match V1_2.get_selection_info (V1_2.video_widget m) with
  | Some info =>
      exists sel_w sel_h x0 y0 x2 y2,
        update_selection_info m
        = ok (Some (TextSelection sel_w sel_h x0 y0 (V1_2.orig_w m) (V1_2.orig_h m))) /\
        V1_2.source_rect (V1_2.orig_w m) (V1_2.orig_h m)
          (V1_2.relative_pos info) (V1_2.display_size info)
        = ok (x0, y0, x2, y2)
  | None =>
      update_selection_info m = ok (Some TextBlank) \/
      update_selection_info m = ok (Some TextOutside)
  end.
Proof.
  intros Hrun Hfs Hpos Fw Fh m.
  pose proof (window_ok_run fs acts _ a Hrun (window_ok_init fs w h)) as Hok.
  destruct (V1_2.get_selection_info (V1_2.video_widget m)) as [info|] eqn:Ei.
  2:{ unfold update_selection_info. fold m. rewrite Ei.
      destruct (_ || _); [now left|now right]. }
  destruct (v12_selection_in_current_display _ info (wo_display _ _ Hok) Ei)
    as [rx [ry [rw [rh [dw [dh [Hr [Hs H]]]]]]]].
  (* a selection is returned: a frame is displayed, so a file was loaded *)
  assert (Hfile : exists f, V1_2.orig_w m = V1_2.vf_width f /\ V1_2.orig_h m = V1_2.vf_height f /\
                            fits 500 (V1_2.vf_width f) /\ fits 500 (V1_2.vf_height f) /\
                            0 <= V1_2.vf_width f /\ 0 <= V1_2.vf_height f).
  { pose proof (wo_file _ _ Hok) as Hk. unfold knows_file in Hk. fold m in Hk.
    destruct (V1_2.video_path m) as [path|].
    - destruct Hk as [_ [f [Hf [_ [_ [How Hoh]]]]]]. exists f.
      destruct (Hfs path f Hf), (Hpos path f Hf). auto 10.
    - exfalso. destruct Hk as [_ [_ Hcf]].
      pose proof (wo_picture _ _ Hok) as Hp. fold m in Hp. rewrite Hcf in Hp. cbn in Hp.
      pose proof (wo_display _ _ Hok) as Hd. fold m in Hd. unfold display_current in Hd.
      rewrite Hp in Hd. destruct Hd as [Hd _].
      destruct (v12_selection_info_inv _ info Ei)
        as [p [q [d [pm [_ [_ [_ [_ [_ [_ [Hpm _]]]]]]]]]]]. fold m in Hpm.
      congruence. }
  destruct Hfile as [f [How [Hoh [Fow [Foh [Pow Poh]]]]]].
  unfold fits in Fw, Fh.
  assert (F1 : fits 500 rx) by (unfold fits; lia).
  assert (F2 : fits 500 ry) by (unfold fits; lia).
  assert (F3 : fits 500 (rx + rw)) by (unfold fits; lia).
  assert (F4 : fits 500 (ry + rh)) by (unfold fits; lia).
  assert (F5 : fits 500 rw) by (unfold fits; lia).
  assert (F6 : fits 500 rh) by (unfold fits; lia).
  destruct (v12_source_rect_returns (V1_2.vf_width f) (V1_2.vf_height f) rx ry rw rh dw dh)
    as [sx [sy [ix0 [iy0 [ix2 [iy2 [Hsx [Hsy [Hx0 [Hy0 [_ [_ [Hrect [Px Py]]]]]]]]]]]]]];
    try assumption; try lia.
  destruct (scaled_coordinate_returns rw (V1_2.vf_width f) dw F5 Fow ltac:(lia))
    as [sx' [Hsx' [[sel_w [Hw _]] _]]].
  destruct (scaled_coordinate_returns rh (V1_2.vf_height f) dh F6 Foh ltac:(lia))
    as [sy' [Hsy' [[sel_h [Hh _]] _]]].
  rewrite Hsx in Hsx'. injection Hsx' as <-. rewrite Hsy in Hsy'. injection Hsy' as <-.
  exists sel_w, sel_h, ix0, iy0, (Z.min (V1_2.vf_width f) ix2), (Z.min (V1_2.vf_height f) iy2).
  split.
  - unfold update_selection_info. fold m. rewrite Ei, Hr, Hs, How, Hoh.
    destruct (v12_selection_info_inv _ info Ei)
      as [p [q [d [pm [Hp [Hq [Np [Nq _]]]]]]]]. fold m in Hp, Hq.
    rewrite Hp, Hq. cbv [truth Truthy_option Truthy_QPoint]. rewrite Np, Nq.
    cbn [negb orb].
    destruct (0 <? dw) eqn:E1; [|apply Z.ltb_ge in E1; lia].
    destruct (0 <? dh) eqn:E2; [|apply Z.ltb_ge in E2; lia].
    cbn [andb]. rewrite Hsx, Hsy. unfold ok in *. cbn [Py.bind].
    destruct (PyFloat.int_mul rx sx) as [e|fx]; [discriminate|]. cbn [Py.bind] in *. rewrite Hx0.
    destruct (PyFloat.int_mul ry sy) as [e|fy]; [discriminate|]. cbn [Py.bind] in *. rewrite Hy0.
    destruct (PyFloat.int_mul rw sx) as [e|fw]; [discriminate|]. cbn [Py.bind] in *. rewrite Hw.
    destruct (PyFloat.int_mul rh sy) as [e|fh]; [discriminate|]. cbn [Py.bind] in *. rewrite Hh.
    reflexivity.
  - rewrite Hr, Hs, How, Hoh, Hrect.
    rewrite (Z.max_r 0 ix0) by (apply Px; lia).
    rewrite (Z.max_r 0 iy0) by (apply Py; lia). reflexivity.
Qed.

Lemma X14_v12_label_shows_the_crop_origin_witness :
  match V1_2.run Scenario.busy_session
          (V1_2.App_init (fun _ => Some Scenario.tiny_clip) 640 360) with
  | inr a =>
      match V1_2.get_selection_info (V1_2.video_widget (V1_2.self a)) with
      | Some info =>
          exists sel_w sel_h x0 y0 x2 y2,
            update_selection_info (V1_2.self a)
            = ok (Some (TextSelection sel_w sel_h x0 y0
                          (V1_2.orig_w (V1_2.self a)) (V1_2.orig_h (V1_2.self a)))) /\
            V1_2.source_rect (V1_2.orig_w (V1_2.self a)) (V1_2.orig_h (V1_2.self a))
              (V1_2.relative_pos info) (V1_2.display_size info)
            = ok (x0, y0, x2, y2)
      | None =>
          update_selection_info (V1_2.self a) = ok (Some TextBlank) \/
          update_selection_info (V1_2.self a) = ok (Some TextOutside)
      end
  | inl _ => False
  end.
Proof.
  destruct (V1_2.run Scenario.busy_session
              (V1_2.App_init (fun _ => Some Scenario.tiny_clip) 640 360)) as [e|a] eqn:E.
  - assert (H : fmap (fun _ => tt)
                  (V1_2.run Scenario.busy_session
                     (V1_2.App_init (fun _ => Some Scenario.tiny_clip) 640 360)) = ok tt)
      by (vm_compute; reflexivity).
    rewrite E in H. discriminate H.
  - assert (H : fmap (fun a => (V1_2.width (V1_2.video_widget (V1_2.self a)),
                                V1_2.height (V1_2.video_widget (V1_2.self a))))
                  (V1_2.run Scenario.busy_session
                     (V1_2.App_init (fun _ => Some Scenario.tiny_clip) 640 360)) = ok (800, 600))
      by (vm_compute; reflexivity).
    rewrite E in H. injection H as Hw Hh.
    apply (X14_v12_label_shows_the_crop_origin (fun _ => Some Scenario.tiny_clip) 640 360
             Scenario.busy_session a E).
    + intros path f [= <-]. split; vm_compute; reflexivity.
    + intros path f [= <-]. split; vm_compute; discriminate.
    + rewrite Hw. vm_compute. reflexivity.
    + rewrite Hh. vm_compute. reflexivity.
Defined.

(** ** What [paintEvent] draws over a selection (version 1.2) *)

(** A rectangle that is not empty meets another in itself exactly when it
    lies inside the other. *)
Lemma intersected_self_iff (r d : QRect) :
  QRect_isValid r = true -> QRect_isValid d = true ->
  (QRect_eqb (intersected r d) r = true <->
   x1 d <= x1 r /\ x2 r <= x2 d /\ y1 d <= y1 r /\ y2 r <= y2 d).
Proof.
  unfold QRect_isValid, QRect_eqb, intersected, QRect_isNull, span, QRect_null.
  intros Hr Hd. bool_to_Z.
  destruct (x2 r =? x1 r - 1) eqn:E1; [bool_to_Z; lia|].
  destruct (x2 d =? x1 d - 1) eqn:E2; [bool_to_Z; lia|].
  cbn [andb orb].
  destruct (x2 r - x1 r + 1 <? 0) eqn:E3; [bool_to_Z; lia|].
  destruct (x2 d - x1 d + 1 <? 0) eqn:E4; [bool_to_Z; lia|].
  destruct (y2 r - y1 r + 1 <? 0) eqn:E5; [bool_to_Z; lia|].
  destruct (y2 d - y1 d + 1 <? 0) eqn:E6; [bool_to_Z; lia|].
  bool_to_Z.
  destruct (x2 d <? x1 r) eqn:E7; cbn [orb x1 x2 y1 y2].
  { bool_to_Z. rewrite !andb_true_iff, !Z.eqb_eq. lia. }
  destruct (x2 r <? x1 d) eqn:E8; cbn [orb x1 x2 y1 y2].
  { bool_to_Z. rewrite !andb_true_iff, !Z.eqb_eq. lia. }
  destruct (y2 d <? y1 r) eqn:E9; cbn [orb x1 x2 y1 y2].
  { bool_to_Z. rewrite !andb_true_iff, !Z.eqb_eq. lia. }
  destruct (y2 r <? y1 d) eqn:E10; cbn [orb x1 x2 y1 y2].
  { bool_to_Z. rewrite !andb_true_iff, !Z.eqb_eq. lia. }
  bool_to_Z. rewrite !andb_true_iff, !Z.eqb_eq. lia.
Qed.

(** X15: [paintEvent] draws the selection once in green (while dragging) or
    red (when finished), and over it the dashed yellow rectangle exactly
    when the selection does not lie wholly on the video rectangle. *)
Theorem X15_v12_paint_marks_a_selection_off_the_video
    (v : V1_2.VideoWidget) (p q : QPoint) (d : QRect) :
  V1_2.start_pos v = Some p -> V1_2.end_pos v = Some q ->
  p <> mkQPoint 0 0 -> q <> mkQPoint 0 0 ->
  V1_2.video_display_rect v = Some d -> QRect_isValid d = true ->
  let r := normalized (QRect_of_points p q) in
  QRect_isValid r = true ->
  paintEvent v
  = (FramePen, d) :: (if V1_2.dragging v then DragPen else SelectionPen, r)
    :: (if (x1 d <=? x1 r) && (x2 r <=? x2 d) && (y1 d <=? y1 r) && (y2 r <=? y2 d)
        then [] else [(OutsidePen, r)]).
Proof.
  intros Hp Hq Np Nq Hd Vd r Vr. unfold paintEvent. rewrite Hp, Hq, Hd.
  cbv [truth Truthy_option Truthy_QPoint Truthy_QRect].
  rewrite Vd.
  destruct (QPoint_isNull p) eqn:Ep; [apply QPoint_isNull_origin in Ep; contradiction|].
  destruct (QPoint_isNull q) eqn:Eq; [apply QPoint_isNull_origin in Eq; contradiction|].
  cbn [negb andb app]. fold r.
  pose proof (intersected_self_iff r d Vr Vd) as Hi.
  destruct (QRect_eqb (intersected r d) r) eqn:Ee; cbn [negb].
  - destruct Hi as [Hi _]. specialize (Hi eq_refl).
    destruct Hi as [H1 [H2 [H3 H4]]].
    apply Z.leb_le in H1, H2, H3, H4. rewrite H1, H2, H3, H4. reflexivity.
  - destruct ((x1 d <=? x1 r) && (x2 r <=? x2 d) && (y1 d <=? y1 r) && (y2 r <=? y2 d)) eqn:Ei;
      [|reflexivity].
    bool_to_Z. destruct Hi as [_ Hi]. discriminate Hi. lia.
Qed.

Lemma X15_v12_paint_marks_a_selection_off_the_video_witness :
  paintEvent (V1_2.drag (mkQPoint 5 100) (mkQPoint 300 300)
                (V1_2.set_video_frame (mkQPixmap 1920 1080 []) (V1_2.VideoWidget_init 640 360)))
  = [(FramePen, mkQRect 18 10 621 349); (SelectionPen, mkQRect 5 100 300 300);
     (OutsidePen, mkQRect 5 100 300 300)].
Proof.
  apply (X15_v12_paint_marks_a_selection_off_the_video
           (V1_2.drag (mkQPoint 5 100) (mkQPoint 300 300)
              (V1_2.set_video_frame (mkQPixmap 1920 1080 []) (V1_2.VideoWidget_init 640 360)))
           (mkQPoint 5 100) (mkQPoint 300 300) (mkQRect 18 10 621 349));
    try reflexivity; discriminate.
Defined.

(** ** Version 1.1: [crop_and_save] returns *)

(** [crop_and_save] of version 1.1 returns whenever the displayed pixmap
    is not empty. *)
Lemma v11_crop_and_save_returns (env : V1_1.Env) (out : string) (a : V1_1.App) :
  let v := V1_1.video_widget (V1_1.self a) in
  match V1_1.pixmap_img v with
  | Some pm => 0 < pm_width pm < 2 ^ 500 /\ 0 < pm_height pm < 2 ^ 500
  | None => True
  end ->
  0 <= V1_1.width v < 2 ^ 500 -> 0 <= V1_1.height v < 2 ^ 500 ->
  fits 500 (V1_1.orig_w (V1_1.self a)) -> fits 500 (V1_1.orig_h (V1_1.self a)) ->
  exists a', V1_1.crop_and_save env out a = ok a'.
Proof.
  intros v Hpm Hw Hh Fow Foh. unfold V1_1.crop_and_save. fold v.
  destruct (V1_1.get_selection_normalized v) as [[[[x y] w] h]|] eqn:Es; [|eexists; reflexivity].
  destruct (V1_1.pixmap_img v) as [pm|]; [|eexists; reflexivity].
  destruct (v11_selection_bounds v x y w h Es ltac:(lia) ltac:(lia)) as [Hx [Hy [Hw0 [Hh0 [Hxw Hyh]]]]].
  unfold V1_1.selection_in_pixmap.
  set (ox := Z.max 0 ((V1_1.width v - pm_width pm) / 2)).
  set (oy := Z.max 0 ((V1_1.height v - pm_height pm) / 2)).
  assert (Hox : 0 <= ox <= V1_1.width v).
  { subst ox. pose proof (Z.div_mod (V1_1.width v - pm_width pm) 2 ltac:(lia)).
    pose proof (Z.mod_pos_bound (V1_1.width v - pm_width pm) 2 ltac:(lia)). lia. }
  assert (Hoy : 0 <= oy <= V1_1.height v).
  { subst oy. pose proof (Z.div_mod (V1_1.height v - pm_height pm) 2 ltac:(lia)).
    pose proof (Z.mod_pos_bound (V1_1.height v - pm_height pm) 2 ltac:(lia)). lia. }
  clearbody ox oy.
  destruct ((Z.min w (pm_width pm - (x - ox)) <=? 0) || (Z.min h (pm_height pm - (y - oy)) <=? 0))
    eqn:E; [eexists; reflexivity|].
  bool_to_Z.
  destruct (v11_source_rect_returns (V1_1.orig_w (V1_1.self a)) (V1_1.orig_h (V1_1.self a))
              (pm_width pm) (pm_height pm) (x - ox) (y - oy)
              (Z.min w (pm_width pm - (x - ox))) (Z.min h (pm_height pm - (y - oy))))
    as [rect Hrect]; try assumption; try lia; try (unfold fits; lia).
  rewrite Hrect. unfold ok. cbn [Py.bind].
  destruct (negb _); [eexists; reflexivity|].
  destruct (V1_1.clip (V1_1.self a)) as [c|]; [|eexists; reflexivity].
  destruct (V1_1.write_videofile env c rect out); eexists; reflexivity.
Qed.

(** X16: With an empty pixmap (a label without extent or a frame without
    pixels when the video was loaded), a selection left of and above the
    centre of the label passes both checks of [crop_and_save] and the
    scale factor divides by zero; the exception is not caught. *)
Theorem X16_v11_empty_pixmap_divides_by_zero
    (env : V1_1.Env) (out : string) (a : V1_1.App) (pm : QPixmap) (x y w h : Z) :
  let v := V1_1.video_widget (V1_1.self a) in
  V1_1.pixmap_img v = Some pm ->
  pm_width pm = 0 -> pm_height pm = 0 ->
  V1_1.get_selection_normalized v = Some (x, y, w, h) ->
  x < V1_1.width v / 2 -> y < V1_1.height v / 2 ->
  0 <= V1_1.width v -> 0 <= V1_1.height v ->
  V1_1.crop_and_save env out a = throw ZeroDivisionError.
Proof.
  intros v Hpm Hpw Hph Hs Hx Hy Hw Hh. unfold V1_1.crop_and_save. fold v. rewrite Hs, Hpm.
  destruct (v11_selection_bounds v x y w h Hs Hw Hh) as [Hx0 [Hy0 [Hw0 [Hh0 _]]]].
  unfold V1_1.selection_in_pixmap. rewrite Hpw, Hph, !Z.sub_0_r.
  destruct ((Z.min w (0 - (x - Z.max 0 (V1_1.width v / 2))) <=? 0)
            || (Z.min h (0 - (y - Z.max 0 (V1_1.height v / 2))) <=? 0)) eqn:E.
  - apply orb_true_iff in E. destruct E as [E|E]; apply Z.leb_le in E; lia.
  - reflexivity.
Qed.

Lemma X16_v11_empty_pixmap_divides_by_zero_witness :
  V1_1.crop_and_save Scenario.moviepy "out.mp4"
    (V1_1.on_widget (V1_1.resize 640 360)
       (V1_1.on_widget (V1_1.drag (mkQPoint 10 10) (mkQPoint 100 100))
          (V1_1.load_video Scenario.moviepy "square.mp4"
             (V1_1.mkApp (V1_1.MainWindow_init 0 0) [] []))))
  = throw ZeroDivisionError.
Proof.
  apply (X16_v11_empty_pixmap_divides_by_zero Scenario.moviepy "out.mp4" _ null_pixmap 10 10 91 91);
    try reflexivity; vm_compute; congruence.
Defined.

(** ** Version 1.1: the states the event loop reaches *)

Lemma v11_window_ok_init (w h : Z) :
  V1_1_loop.size_fits w h -> V1_1_loop.state_ok (V1_1_loop.App_init w h).
Proof.
  intros Hs. constructor; cbn; auto.
  split; apply fits_0; lia.
Qed.

Lemma v11_window_ok_widget (a : V1_1.App) (f : V1_1.VideoWidget -> V1_1.VideoWidget) :
  V1_1.pixmap_img (f (V1_1.video_widget (V1_1.self a)))
  = V1_1.pixmap_img (V1_1.video_widget (V1_1.self a)) ->
  V1_1_loop.size_fits (V1_1.width (f (V1_1.video_widget (V1_1.self a))))
    (V1_1.height (f (V1_1.video_widget (V1_1.self a)))) ->
  V1_1_loop.state_ok a -> V1_1_loop.state_ok (V1_1.on_widget f a).
Proof.
  intros Hp Hs [H1 H2 H3 H4]. constructor; cbn; try assumption; rewrite Hp; assumption.
Qed.

Lemma v11_window_ok_load (env : V1_1.Env) (path : string) (a : V1_1.App) :
  V1_1_loop.clips_fit env ->
  V1_1_loop.state_ok a -> V1_1_loop.state_ok (V1_1.load_video env path a).
Proof.
  intros Henv [H1 H2 H3 H4]. unfold V1_1.load_video.
  destruct (V1_1.open_clip env path) as [e|c] eqn:Eo.
  - constructor; assumption.
  - destruct (Henv path c Eo) as [Hfw [Hfh [Fw Fh]]].
    destruct H1 as [Hw Hh].
    pose proof (scaled_fits_box (QImage_of_frame (V1_1.get_frame_0 c))
                  (V1_1.width (V1_1.video_widget (V1_1.self a)))
                  (V1_1.height (V1_1.video_widget (V1_1.self a)))
                  Hfw Hfh ltac:(lia) ltac:(lia)) as [Sw [Sh [_ Si]]].
    constructor; cbn.
    + split; assumption.
    + split; assumption.
    + fold (scaled (QImage_of_frame (V1_1.get_frame_0 c))
              (V1_1.width (V1_1.video_widget (V1_1.self a)))
              (V1_1.height (V1_1.video_widget (V1_1.self a)))).
      rewrite Si. cbn. repeat split; lia.
    + repeat split; try discriminate. now destruct (V1_1.size c).
Qed.

Lemma v11_crop_and_save_self (env : V1_1.Env) (out : string) (a a' : V1_1.App) :
  V1_1.crop_and_save env out a = ok a' ->
  exists t, V1_1.self a'
            = V1_1.mkMainWindow (V1_1.video_path (V1_1.self a)) (V1_1.clip (V1_1.self a))
                (V1_1.current_frame (V1_1.self a)) (V1_1.orig_w (V1_1.self a))
                (V1_1.orig_h (V1_1.self a)) (V1_1.video_widget (V1_1.self a))
                (V1_1.crop_btn (V1_1.self a)) t.
Proof.
  assert (Hsame : exists t, V1_1.self a
            = V1_1.mkMainWindow (V1_1.video_path (V1_1.self a)) (V1_1.clip (V1_1.self a))
                (V1_1.current_frame (V1_1.self a)) (V1_1.orig_w (V1_1.self a))
                (V1_1.orig_h (V1_1.self a)) (V1_1.video_widget (V1_1.self a))
                (V1_1.crop_btn (V1_1.self a)) t).
  { exists (V1_1.info_label (V1_1.self a)). now destruct (V1_1.self a). }
  unfold V1_1.crop_and_save.
  destruct (V1_1.get_selection_normalized _) as [sel|]; [|intros [= <-]; exact Hsame].
  destruct (V1_1.pixmap_img _) as [pm|]; [|intros [= <-]; exact Hsame].
  destruct (V1_1.selection_in_pixmap _ _ _) as [[[sx sy] sw] sh].
  destruct (_ || _); [intros [= <-]; exact Hsame|].
  destruct (V1_1.source_rect _ _ _ _ _) as [e|rect]; cbn [Py.bind]; [discriminate|].
  destruct (negb _); [intros [= <-]; exact Hsame|].
  destruct (V1_1.clip (V1_1.self a)) as [c|]; [|intros [= <-]; eexists; reflexivity].
  destruct (V1_1.write_videofile env c rect out); intros [= <-]; eexists; reflexivity.
Qed.

Lemma v11_window_ok_step (env : V1_1.Env) (act : V1_1_loop.Action) (a a' : V1_1.App) :
  V1_1_loop.clips_fit env -> V1_1_loop.action_fits act ->
  V1_1_loop.step env act a = ok a' -> V1_1_loop.state_ok a -> V1_1_loop.state_ok a'.
Proof.
  intros Henv Hact Hstep Hok. destruct act; cbn in Hstep, Hact.
  - injection Hstep as <-. apply v11_window_ok_widget; [reflexivity|exact Hact|exact Hok].
  - injection Hstep as <-.
    apply v11_window_ok_widget; [| |exact Hok];
      unfold V1_1.mousePressEvent; destruct (is_left _); try reflexivity; apply Hok.
  - injection Hstep as <-.
    apply v11_window_ok_widget; [| |exact Hok];
      unfold V1_1.mouseMoveEvent; destruct (V1_1.dragging _); try reflexivity; apply Hok.
  - injection Hstep as <-.
    apply v11_window_ok_widget; [| |exact Hok];
      unfold V1_1.mouseReleaseEvent; destruct (_ && _); try reflexivity; apply Hok.
  - injection Hstep as <-. now apply v11_window_ok_load.
  - destruct (V1_1.crop_btn _); [|injection Hstep as <-; exact Hok].
    destruct (v11_crop_and_save_self env out_path a a' Hstep) as [t Hs].
    destruct Hok as [H1 H2 H3 H4]. constructor; rewrite Hs; cbn; assumption.
Qed.

Lemma v11_run_returns (env : V1_1.Env) (acts : list V1_1_loop.Action) :
  V1_1_loop.clips_fit env -> Forall V1_1_loop.action_fits acts ->
  forall a, V1_1_loop.state_ok a ->
  exists a', V1_1_loop.run env acts a = ok a' /\ V1_1_loop.state_ok a'.
Proof.
  intros Henv Hacts. induction Hacts as [|act rest Hact Hrest IH]; intros a Hok.
  - exists a. split; [reflexivity|exact Hok].
  - cbn [V1_1_loop.run].
    assert (Hstep : exists a1, V1_1_loop.step env act a = ok a1).
    { destruct act; cbn [V1_1_loop.step]; try (eexists; reflexivity).
      destruct (V1_1.crop_btn _); [|eexists; reflexivity].
      destruct Hok as [[Hw Hh] [Fw Fh] H3 H4].
      apply v11_crop_and_save_returns; try assumption; try lia.
      destruct (V1_1.pixmap_img _); [|exact I]. tauto. }
    destruct Hstep as [a1 Hstep]. rewrite Hstep. cbn [Py.bind ok].
    apply IH. now apply (v11_window_ok_step env act a a1).
Qed.

(** X17: No sequence of user actions makes version 1.1 end in an uncaught
    exception, and between two actions the crop button is enabled
    exactly when a clip, its path and its pixmap are present, the pixmap
    is not empty and shows the first frame of the clip; provided the
    label is not empty and the clips have a first frame that is not
    empty (sizes below [2^500]). *)
Theorem X17_v11_event_loop_returns
    (env : V1_1.Env) (w h : Z) (acts : list V1_1_loop.Action) :
  V1_1_loop.clips_fit env -> V1_1_loop.size_fits w h ->
  Forall V1_1_loop.action_fits acts ->
  exists a,
    V1_1_loop.run env acts (V1_1_loop.App_init w h) = ok a /\
    (V1_1.crop_btn (V1_1.self a) = true <-> V1_1.clip (V1_1.self a) <> None) /\
    (V1_1.clip (V1_1.self a) <> None <-> V1_1.video_path (V1_1.self a) <> None) /\
    (V1_1.clip (V1_1.self a) <> None <->
     V1_1.pixmap_img (V1_1.video_widget (V1_1.self a)) <> None) /\
    (forall c, V1_1.clip (V1_1.self a) = Some c ->
       V1_1.rendered (V1_1.video_widget (V1_1.self a)) = Some (V1_1.get_frame_0 c)).
Proof.
  intros Henv Hs Hacts.
  destruct (v11_run_returns env acts Henv Hacts _ (v11_window_ok_init w h Hs)) as [a [Hrun Hok]].
  exists a. split; [exact Hrun|].
  destruct Hok as [H1 H2 H3 H4].
  destruct (V1_1.clip (V1_1.self a)) as [c|].
  - destruct H4 as [Hb [Hp [Hpm [Hcf Hsz]]]].
    split; [split; [discriminate|auto]|]. split; [split; auto; discriminate|].
    split; [split; auto; discriminate|].
    intros c' [= <-]. unfold V1_1.rendered, picture_of.
    destruct (V1_1.pixmap_img _) as [pm|]; [|contradiction].
    destruct H3 as [Hw [Hh Hi]].
    unfold pixmap_isNull.
    destruct (pm_width pm <=? 0) eqn:E1; [apply Z.leb_le in E1; lia|].
    destruct (pm_height pm <=? 0) eqn:E2; [apply Z.leb_le in E2; lia|].
    cbn. congruence.
  - destruct H4 as [Hb [Hp Hpm]]. rewrite Hb, Hp, Hpm.
    repeat split; try discriminate; try contradiction.
Qed.

Lemma X17_v11_event_loop_returns_witness :
  exists a,
    V1_1_loop.run Scenario.moviepy
      [V1_1_loop.Drop "square.mp4";
       V1_1_loop.MousePress (Scenario.left_click 10 10);
       V1_1_loop.MouseRelease (Scenario.left_click 100 100);
       V1_1_loop.Resize 800 600;
       V1_1_loop.ClickCrop "out.mp4"]
      (V1_1_loop.App_init 640 360) = ok a /\
    (V1_1.crop_btn (V1_1.self a) = true <-> V1_1.clip (V1_1.self a) <> None).
Proof.
  destruct (X17_v11_event_loop_returns Scenario.moviepy 640 360
              [V1_1_loop.Drop "square.mp4";
               V1_1_loop.MousePress (Scenario.left_click 10 10);
               V1_1_loop.MouseRelease (Scenario.left_click 100 100);
               V1_1_loop.Resize 800 600;
               V1_1_loop.ClickCrop "out.mp4"]) as [a [H1 [H2 _]]].
  - intros path c. unfold Scenario.moviepy. cbn [V1_1.open_clip].
    destruct (String.eqb path "square.mp4"); [|discriminate].
    intros [= <-]. repeat split; vm_compute; reflexivity.
  - split; split; vm_compute; reflexivity.
  - repeat constructor; vm_compute; reflexivity.
  - exists a. split; assumption.
Defined.

(** ** The selection clipped to the video (version 1.2) *)

(** X18: [get_selection_info] on a selection of at least 5 x 5 pixels that
    meets the video rectangle: the part on the video is the selection
    clipped to the rectangle, given relative to its top-left corner; a
    selection wholly on the video is kept as it is. *)
Theorem X18_v12_selection_is_clipped_to_the_video
    (v : V1_2.VideoWidget) (p q : QPoint) (d : QRect) (pm : QPixmap) :
  V1_2.start_pos v = Some p -> V1_2.end_pos v = Some q ->
  p <> mkQPoint 0 0 -> q <> mkQPoint 0 0 ->
  V1_2.video_display_rect v = Some d -> QRect_isValid d = true ->
  V1_2.displayed_pixmap v = Some pm ->
  let r := normalized (QRect_of_points p q) in
  5 <= rect_width r -> 5 <= rect_height r ->
  Z.max (x1 r) (x1 d) <= Z.min (x2 r) (x2 d) ->
  Z.max (y1 r) (y1 d) <= Z.min (y2 r) (y2 d) ->
  let left := Z.max (x1 r) (x1 d) in
  let top := Z.max (y1 r) (y1 d) in
  let right := Z.min (x2 r) (x2 d) in
  let bottom := Z.min (y2 r) (y2 d) in
  V1_2.get_selection_info v
  = Some (V1_2.mkSelectionInfo r (mkQRect left top right bottom)
            (left - x1 d, top - y1 d, right - left + 1, bottom - top + 1)
            (pm_width pm, pm_height pm)) /\
  (x1 d <= x1 r /\ x2 r <= x2 d /\ y1 d <= y1 r /\ y2 r <= y2 d ->
   mkQRect left top right bottom = r).
Proof.
  intros Hp Hq Np Nq Hd Vd Hpm r Hw Hh Hx Hy left top right bottom.
  split.
  - unfold V1_2.get_selection_info. rewrite Hp, Hq, Hd, Hpm.
    cbv [truth Truthy_option Truthy_QPoint Truthy_QRect Truthy_QPixmap].
    rewrite Vd.
    destruct (QPoint_isNull p) eqn:Ep; [apply QPoint_isNull_origin in Ep; contradiction|].
    destruct (QPoint_isNull q) eqn:Eq; [apply QPoint_isNull_origin in Eq; contradiction|].
    cbn [negb andb]. fold r.
    destruct (rect_width r <? 5) eqn:E1; [apply Z.ltb_lt in E1; lia|].
    destruct (rect_height r <? 5) eqn:E2; [apply Z.ltb_lt in E2; lia|].
    cbn [orb].
    assert (Vr : QRect_isValid r = true).
    { unfold QRect_isValid, rect_width, rect_height in *.
      apply andb_true_iff. split; apply Z.leb_le; lia. }
    assert (Hi : intersected r d = mkQRect left top right bottom).
    { unfold intersected, QRect_isNull, span.
      unfold QRect_isValid in Vr, Vd. unfold rect_width, rect_height in Hw, Hh. bool_to_Z.
      destruct (x2 r =? x1 r - 1) eqn:E3; [bool_to_Z; lia|].
      destruct (x2 d =? x1 d - 1) eqn:E4; [bool_to_Z; lia|].
      cbn [andb orb].
      destruct (x2 r - x1 r + 1 <? 0) eqn:E5; [bool_to_Z; lia|].
      destruct (x2 d - x1 d + 1 <? 0) eqn:E6; [bool_to_Z; lia|].
      destruct (y2 r - y1 r + 1 <? 0) eqn:E7; [bool_to_Z; lia|].
      destruct (y2 d - y1 d + 1 <? 0) eqn:E8; [bool_to_Z; lia|].
      destruct (x2 d <? x1 r) eqn:E9; [bool_to_Z; lia|].
      destruct (x2 r <? x1 d) eqn:E10; [bool_to_Z; lia|].
      destruct (y2 d <? y1 r) eqn:E11; [bool_to_Z; lia|].
      destruct (y2 r <? y1 d) eqn:E12; [bool_to_Z; lia|].
      reflexivity. }
    rewrite Hi. unfold rect_width, rect_height, rect_x, rect_y. cbn [x1 x2 y1 y2].
    destruct (right - left + 1 <=? 0) eqn:E13; [apply Z.leb_le in E13; lia|].
    destruct (bottom - top + 1 <=? 0) eqn:E14; [apply Z.leb_le in E14; lia|].
    reflexivity.
  - intros [H1 [H2 [H3 H4]]]. subst left top right bottom.
    rewrite !Z.max_l, !Z.min_l by lia. now destruct r.
Qed.

Lemma X18_v12_selection_is_clipped_to_the_video_witness :
  V1_2.get_selection_info
    (V1_2.drag (mkQPoint 5 100) (mkQPoint 300 300)
       (V1_2.set_video_frame (mkQPixmap 1920 1080 []) (V1_2.VideoWidget_init 640 360)))
  = Some (V1_2.mkSelectionInfo (mkQRect 5 100 300 300) (mkQRect 18 100 300 300)
            (0, 90, 283, 201) (604, 340)).
Proof.
  apply (X18_v12_selection_is_clipped_to_the_video
           (V1_2.drag (mkQPoint 5 100) (mkQPoint 300 300)
              (V1_2.set_video_frame (mkQPixmap 1920 1080 []) (V1_2.VideoWidget_init 640 360)))
           (mkQPoint 5 100) (mkQPoint 300 300) (mkQRect 18 10 621 349) (mkQPixmap 604 340 []));
    try reflexivity; try discriminate; vm_compute; discriminate.
Defined.

(** ** Cancelling the save dialog *)

(** X19: When the user cancels the save dialog ([out_path] is empty), no
    version writes or opens anything: version 1.1 hands nothing to
    moviepy, version 1.2 opens no capture and no writer, and no box
    reports success or failure of a crop. *)
Theorem X19_cancelled_save_writes_nothing
    (env : V1_1.Env) (a1 a1' : V1_1.App) (a2 a2' : V1_2.App) :
  V1_1.crop_and_save env "" a1 = ok a1' ->
  V1_2.crop_and_save "" a2 = ok a2' ->
  V1_1.written a1' = V1_1.written a1 /\
  V1_1.self a1' = V1_1.self a1 /\
  (a1' = a1 \/ exists title text, a1' = V1_1.show_message Warning title text a1) /\
  V1_2.outputs a2' = V1_2.outputs a2 /\ V1_2.cv a2' = V1_2.cv a2 /\
  V1_2.self a2' = V1_2.self a2 /\
  (a2' = a2 \/ exists title text, a2' = V1_2.show_message Warning title text a2).
Proof.
  intros H1 H2.
  assert (G1 : a1' = a1 \/ exists title text, a1' = V1_1.show_message Warning title text a1).
  { revert H1. unfold V1_1.crop_and_save.
    destruct (V1_1.get_selection_normalized _) as [sel|];
      [|intros [= <-]; right; eauto].
    destruct (V1_1.pixmap_img _) as [pm|]; [|intros [= <-]; now left].
    destruct (V1_1.selection_in_pixmap _ _ _) as [[[sx sy] sw] sh].
    destruct (_ || _); [intros [= <-]; right; eauto|].
    destruct (V1_1.source_rect _ _ _ _ _) as [e|rect]; cbn [Py.bind]; [discriminate|].
    cbn. intros [= <-]. now left. }
  assert (G2 : a2' = a2 \/ exists title text, a2' = V1_2.show_message Warning title text a2).
  { revert H2. unfold V1_2.crop_and_save.
    destruct (negb (truth (V1_2.cap (V1_2.self a2)))); [intros [= <-]; right; eauto|].
    destruct (V1_2.get_selection_info _) as [info|]; [|intros [= <-]; right; eauto].
    destruct (V1_2.source_rect _ _ _ _) as [e|[[[x0 y0] x2] y2]]; cbn [Py.bind]; [discriminate|].
    destruct (_ || _); [intros [= <-]; right; eauto|].
    cbn. intros [= <-]. now left. }
  destruct G1 as [->|[t1 [x1 ->]]], G2 as [->|[t2 [x2 ->]]]; repeat split; eauto.
Qed.

Lemma X19_cancelled_save_writes_nothing_witness :
  V1_1.written (V1_1.on_widget (V1_1.drag (mkQPoint 100 100) (mkQPoint 300 300)) Small.loaded11)
  = V1_1.written
      (V1_1.on_widget (V1_1.drag (mkQPoint 100 100) (mkQPoint 300 300)) Small.loaded11) /\
  V1_2.outputs (V1_2.on_widget (V1_2.drag (mkQPoint 100 100) (mkQPoint 300 300)) Small.loaded12)
  = V1_2.outputs
      (V1_2.on_widget (V1_2.drag (mkQPoint 100 100) (mkQPoint 300 300)) Small.loaded12).
Proof.
  destruct (X19_cancelled_save_writes_nothing Small.moviepy
              (V1_1.on_widget (V1_1.drag (mkQPoint 100 100) (mkQPoint 300 300)) Small.loaded11)
              (V1_1.on_widget (V1_1.drag (mkQPoint 100 100) (mkQPoint 300 300)) Small.loaded11)
              (V1_2.on_widget (V1_2.drag (mkQPoint 100 100) (mkQPoint 300 300)) Small.loaded12)
              (V1_2.on_widget (V1_2.drag (mkQPoint 100 100) (mkQPoint 300 300)) Small.loaded12))
    as [H1 [_ [_ [H2 _]]]].
  - vm_compute. reflexivity.
  - vm_compute. reflexivity.
  - split; [exact H1|exact H2].
Defined.
